(** * pyCLIF: the wide-dataset builder and the hourly aggregator

    A shallow embedding of [src/pyclif/utils/wide_dataset.py.backup]:
    [create_wide_dataset], its helpers [_get_timestamp_column],
    [_pivot_table_duckdb], [_add_missing_columns],
    [_filter_base_table_columns], the legacy [_pivot_table], and
    [convert_wide_to_hourly].

    Conventions of the embedding.
    - A pandas/DuckDB table is a [DataFrame]: the ordered column names and the
      rows, each row a Python-style ordered dictionary from column name to
      cell.  A cell is a tagged [value]; [VNull] stands for None, NaN and NaT.
    - Timestamps are seconds since the epoch (an integer); one hour is 3600.
    - A Python exception is a [Raise e] result; the error monad threads it.
    - Python dictionaries keep insertion order, so they are association lists
      with unique keys ([dict_set] overwrites in place or appends).
    - The numeric kernels of pandas that the source calls on a column
      ([max], [min], [mean], [median], [str], [astype(int)]) form the
      interface [Pandas]; the program logic around them is concrete.
    - What the query engine leaves open in a [PIVOT] (the value [first()]
      returns, the order of the rows, the names of categories that collide
      up to case) and in a filter clause with a quote inside a name forms
      the interface [DuckDB]; the properties hold for every engine. *)

From Stdlib Require Import ZArith String Ascii List Bool Lia.
From stdpp Require Import base decidable option list strings sorting pretty.

Set Default Proof Using "Type".

(** ** Cells, errors and the error monad *)

Inductive value : Type :=
  | VNull
  | VInt (z : Z)
  | VStr (s : string)
  | VTime (t : Z)
  | VDate (d : Z).

Global Instance value_eq_dec : EqDecision value.
Proof. solve_decision. Defined.

Global Instance value_inhabited : Inhabited value := populate VNull.

Definition notna (v : value) : bool :=
  match v with VNull => false | _ => true end.

Definition isna (v : value) : bool := negb (notna v).

Inductive error : Type :=
  | ValueError (msg : string)
  | KeyError (key : string)
  | AttributeError (what : string)
  | TypeError (what : string)
  | IntCastingNaNError
  | BinderError (column : string)
  | CatalogError (name : string).

Global Instance error_eq_dec : EqDecision error.
Proof. solve_decision. Defined.

Inductive result (A : Type) : Type :=
  | Ok (a : A)
  | Raise (e : error).
Arguments Ok {A} a.
Arguments Raise {A} e.

Global Instance result_ret : MRet result := fun A a => Ok a.
Global Instance result_bind : MBind result := fun A B f m =>
  match m with Ok a => f a | Raise e => Raise e end.
Global Instance result_fmap : FMap result := fun A B f m =>
  match m with Ok a => Ok (f a) | Raise e => Raise e end.

Definition is_ok {A} (m : result A) : bool :=
  match m with Ok _ => true | Raise _ => false end.

(** [for x in l: acc = f(acc, x)] where the body may raise. *)
Fixpoint foldM {A S} (f : S -> A -> result S) (s : S) (l : list A) : result S :=
  match l with
  | [] => Ok s
  | x :: l' => s' ← f s x; foldM f s' l'
  end.

(** [[f(x) for x in l]] where [f] may raise. *)
Fixpoint traverse {A B} (f : A -> result B) (l : list A) : result (list B) :=
  match l with
  | [] => Ok []
  | x :: l' => y ← f x; ys ← traverse f l'; Ok (y :: ys)
  end.

(** ** Python dictionaries (insertion ordered) *)

Abbreviation dict V := (list (string * V)) (only parsing).

Fixpoint dict_get {V} (k : string) (d : dict V) : option V :=
  match d with
  | [] => None
  | (k', v) :: d' => if decide (k' = k) then Some v else dict_get k d'
  end.

(** [d[k] = v]: an existing key keeps its position, a new key goes last. *)
Fixpoint dict_set {V} (k : string) (v : V) (d : dict V) : dict V :=
  match d with
  | [] => [(k, v)]
  | (k', v') :: d' =>
      if decide (k' = k) then (k, v) :: d' else (k', v') :: dict_set k v d'
  end.

Definition dict_keys {V} (d : dict V) : list string := d.*1.

Definition dict_del {V} (k : string) (d : dict V) : dict V :=
  filter (fun kv => kv.1 <> k) d.

(** [pd.unique] / first-seen order de-duplication. *)
Fixpoint unique_from {A} `{EqDecision A} (seen l : list A) : list A :=
  match l with
  | [] => []
  | x :: l' =>
      if bool_decide (x ∈ seen) then unique_from seen l'
      else x :: unique_from (x :: seen) l'
  end.

Definition unique {A} `{EqDecision A} (l : list A) : list A := unique_from [] l.

(** ** Data frames *)

Abbreviation row := (list (string * value)) (only parsing).

Record DataFrame : Type := mkDF { columns : list string; rows : list row }.

Definition cell (r : row) (c : string) : value := default VNull (dict_get c r).

Definition has_column (df : DataFrame) (c : string) : bool :=
  bool_decide (c ∈ columns df).

(** [df[c] = ...] with the new cell computed from each row. *)
Definition add_column (c : string) (cols : list string) : list string :=
  if bool_decide (c ∈ cols) then cols else cols ++ [c].

Definition assign (c : string) (f : row -> value) (df : DataFrame) : DataFrame :=
  mkDF (add_column c (columns df)) (map (fun r => dict_set c (f r) r) (rows df)).

Definition assignM (c : string) (f : row -> result value) (df : DataFrame)
  : result DataFrame :=
  rs ← traverse (fun r => v ← f r; Ok (dict_set c v r)) (rows df);
  Ok (mkDF (add_column c (columns df)) rs).

(** [df.drop(columns=cs)] for columns that exist. *)
Definition drop_columns (cs : list string) (df : DataFrame) : DataFrame :=
  mkDF (filter (fun c => c ∉ cs) (columns df))
       (map (fun r => filter (fun kv => kv.1 ∉ cs) r) (rows df)).

(** [series.dropna()] on the cells of one column. *)
Definition dropna (vs : list value) : list value := filter (fun v => v <> VNull) vs.

Definition column_values (c : string) (rs : list row) : list value :=
  map (fun r => cell r c) rs.

(** [pd.DataFrame(list_of_dicts)]: the columns are the keys in first-seen
    order, a key missing from a dictionary becomes a null cell. *)
Definition pd_DataFrame (data : list row) : DataFrame :=
  let cols := unique (concat (map dict_keys data)) in
  mkDF cols (map (fun d => map (fun c => (c, cell d c)) cols) data).

(** ** Ordering of cells

    Sorting and grouping compare cells.  Columns are homogeneous in practice;
    across kinds the order below is by kind, nulls last. *)

Definition value_rank (v : value) : Z :=
  match v with
  | VInt _ => 0 | VStr _ => 1 | VTime _ => 2 | VDate _ => 3 | VNull => 4
  end.

Definition value_le (a b : value) : Prop :=
  match a, b with
  | VInt x, VInt y => (x <= y)%Z
  | VStr x, VStr y => String.le x y
  | VTime x, VTime y => (x <= y)%Z
  | VDate x, VDate y => (x <= y)%Z
  | _, _ => (value_rank a <= value_rank b)%Z
  end.

Global Instance value_le_dec : RelDecision value_le.
Proof. intros a b; destruct a, b; simpl; apply _. Defined.

(** Lexicographic order on key tuples (lists of cells of equal length). *)
Fixpoint key_le (k1 k2 : list value) : Prop :=
  match k1, k2 with
  | [], _ => True
  | _ :: _, [] => False
  | a :: k1', b :: k2' => a <> b /\ value_le a b \/ a = b /\ key_le k1' k2'
  end.

Global Instance key_le_dec : RelDecision key_le.
Proof.
  intros k1; induction k1 as [|a k1 IH]; intros [|b k2]; simpl; try apply _.
Defined.

Definition row_key (by_cols : list string) (r : row) : list value :=
  map (cell r) by_cols.

Definition rows_le (by_cols : list string) (r1 r2 : row) : Prop :=
  key_le (row_key by_cols r1) (row_key by_cols r2).

Global Instance rows_le_dec by_cols : RelDecision (rows_le by_cols).
Proof. intros r1 r2; unfold rows_le; apply _. Defined.

(** [df.sort_values(by)]: a missing sort column is a KeyError. *)
Definition sort_values (by_cols : list string) (df : DataFrame) : result DataFrame :=
  match filter (fun c => c ∉ columns df) by_cols with
  | c :: _ => Raise (KeyError c)
  | [] => Ok (mkDF (columns df) (merge_sort (rows_le by_cols) (rows df)))
  end.

(** [df.groupby(by)]: the groups in sorted key order, each with its rows in
    frame order; rows with a null key are left out. *)
Definition keyed (by_cols : list string) (r : row) : Prop :=
  forallb notna (row_key by_cols r) = true.

Global Instance keyed_dec by_cols r : Decision (keyed by_cols r).
Proof. unfold keyed; apply _. Defined.

Definition groupby (by_cols : list string) (rs : list row)
  : list (list value * list row) :=
  let keyed_rows := filter (keyed by_cols) rs in
  let keys := merge_sort key_le (unique (map (row_key by_cols) keyed_rows)) in
  map (fun k => (k, filter (fun r => row_key by_cols r = k) keyed_rows)) keys.

(** ** Strings: [re.sub(r'[^a-zA-Z0-9_]', '_', s)] and [str.startswith] *)

Definition is_word_char (a : ascii) : bool :=
  let n := nat_of_ascii a in
  ((97 <=? n) && (n <=? 122) || (65 <=? n) && (n <=? 90)
   || (48 <=? n) && (n <=? 57) || (n =? 95))%nat.

Fixpoint re_sub_nonword (s : string) : string :=
  match s with
  | EmptyString => EmptyString
  | String a s' =>
      String (if is_word_char a then a else "_"%char) (re_sub_nonword s')
  end.

Definition startswith (s p : string) : bool := String.prefix p s.

(** ** Timestamps *)

Definition floor_hour (t : Z) : Z := (3600 * (t / 3600))%Z.

(** [series.dt.floor('H')]; the accessor exists only on datetime columns. *)
Definition dt_floor_hour (v : value) : result value :=
  match v with
  | VTime t => Ok (VTime (floor_hour t))
  | VNull => Ok VNull
  | _ => Raise (AttributeError "dt")
  end.

(** [timestamp.hour] *)
Definition dt_hour (v : value) : value :=
  match v with
  | VTime t => VInt ((t / 3600) mod 24)%Z
  | _ => VNull
  end.

(** [series.min()] of a datetime column: NaT is skipped. *)
Fixpoint min_time (vs : list value) : value :=
  match vs with
  | [] => VNull
  | VTime t :: vs' =>
      match min_time vs' with
      | VTime m => VTime (Z.min t m)
      | _ => VTime t
      end
  | _ :: vs' => min_time vs'
  end.

(** [((a - b).total_seconds() // 3600).astype(int)] on one row. *)
Definition hours_between (a b : value) : result value :=
  match a, b with
  | VTime x, VTime y => Ok (VInt ((x - y) / 3600)%Z)
  | _, _ => Raise IntCastingNaNError
  end.

(** ** The pandas kernels the aggregator calls on a column *)

Class Pandas : Type := {
  series_max : list value -> result value;
  series_min : list value -> result value;
  series_mean : list value -> result value;
  series_median : list value -> result value;
  py_str : value -> string;
  astype_int : value -> result value;
  astype_int_int : forall z, astype_int (VInt z) = Ok (VInt z);
  py_str_str : forall s, py_str (VStr s) = s
}.

(** ** [convert_wide_to_hourly] *)

Inductive method : Type :=
  | Max | Min | Mean | Median | First | Last | Boolean | OneHotEncode.

(** The [if agg_method == ... elif ...] chain of the aggregation loop. *)
Definition method_of_name (agg_method : string) : option method :=
  if decide (agg_method = "max") then Some Max
  else if decide (agg_method = "min") then Some Min
  else if decide (agg_method = "mean") then Some Mean
  else if decide (agg_method = "median") then Some Median
  else if decide (agg_method = "first") then Some First
  else if decide (agg_method = "last") then Some Last
  else if decide (agg_method = "boolean") then Some Boolean
  else if decide (agg_method = "one_hot_encode") then Some OneHotEncode
  else None.

Definition group_cols : list string :=
  ["hospitalization_id"; "event_time_hour"; "nth_hour"].

(** Lines 581-593: the columns not named in the configuration. *)
Definition non_agg_columns_of (df_columns : list string)
    (aggregation_config : dict (list string)) : list string :=
  let all_agg_columns := concat (map snd aggregation_config) in
  filter (fun col =>
            (col ∉ all_agg_columns) /\ (col ∉ group_cols) /\ col <> "patient_id"
            /\ col <> "day_number" /\ col <> "first_event_hour"
            /\ col <> "hour_bucket" /\ col <> "event_time")
         df_columns.

(** Lines 596-605: the in-place update of the caller's dictionary. *)
Definition extend_first (non_agg_columns : list string)
    (aggregation_config : dict (list string)) : dict (list string) :=
  match non_agg_columns with
  | [] => aggregation_config
  | _ =>
      let config :=
        if bool_decide ("first" ∈ dict_keys aggregation_config)
        then aggregation_config else dict_set "first" [] aggregation_config in
      dict_set "first" (default [] (dict_get "first" config) ++ non_agg_columns)
               config
  end.

(** Lines 554-573: [event_time_hour], [first_event_hour], [nth_hour] and
    [hour_bucket]. *)
Definition first_event_hour_of (rs : list row) (hosp : value) : value :=
  if isna hosp then VNull
  else min_time (column_values "event_time_hour"
                   (filter (fun r => cell r "hospitalization_id" = hosp) rs)).

Definition add_hour_columns (wide_df : DataFrame) : result DataFrame :=
  df ← assignM "event_time_hour" (fun r => dt_floor_hour (cell r "event_time"))
        wide_df;
  (* the left merge adds [first_event_hour]; a column of that name already in
     the frame is renamed by the merge and the lookup below fails *)
  if has_column df "first_event_hour" then Raise (KeyError "first_event_hour")
  else
    let df := assign "first_event_hour"
                (fun r => first_event_hour_of (rows df) (cell r "hospitalization_id"))
                df in
    df ← assignM "nth_hour"
          (fun r => hours_between (cell r "event_time_hour")
                                  (cell r "first_event_hour")) df;
    Ok (assign "hour_bucket" (fun r => dt_hour (cell r "event_time_hour")) df).

Section Aggregator.
Context `{Pandas}.

(** [f"{col}_{val}"] cleaned by the regular expression. *)
Definition one_hot_name (col : string) (val : value) : string :=
  re_sub_nonword (col +:+ "_" +:+ py_str val).

(** [kernel(col_values) if len(col_values) > 0 else np.nan] *)
Definition reduce_or_nan (kernel : list value -> result value)
    (col_values : list value) : result value :=
  match col_values with
  | [] => Ok VNull
  | _ => kernel col_values
  end.

(** Lines 635-676: one [(agg_method, col)] pair on one group. *)
Definition aggregate_column (non_agg_columns : list string)
    (group_columns : list string) (group_df : list row)
    (agg_method col : string) (row_data : row) : result row :=
  if bool_decide (col ∉ group_columns) then Ok row_data
  else
    let col_values := dropna (column_values col group_df) in
    match method_of_name agg_method with
    | Some Max =>
        v ← reduce_or_nan series_max col_values;
        Ok (dict_set (col +:+ "_max") v row_data)
    | Some Min =>
        v ← reduce_or_nan series_min col_values;
        Ok (dict_set (col +:+ "_min") v row_data)
    | Some Mean =>
        v ← reduce_or_nan series_mean col_values;
        Ok (dict_set (col +:+ "_mean") v row_data)
    | Some Median =>
        v ← reduce_or_nan series_median col_values;
        Ok (dict_set (col +:+ "_median") v row_data)
    | Some First =>
        if bool_decide (col ∈ non_agg_columns)
        then Ok (dict_set (col +:+ "_c") (default VNull (head col_values)) row_data)
        else Ok (dict_set (col +:+ "_first") (default VNull (head col_values)) row_data)
    | Some Last =>
        Ok (dict_set (col +:+ "_last") (default VNull (last col_values)) row_data)
    | Some Boolean =>
        Ok (dict_set (col +:+ "_boolean")
              (VInt (if bool_decide (col_values = []) then 0 else 1)) row_data)
    | Some OneHotEncode =>
        Ok (fold_left (fun rd val => dict_set (one_hot_name col val) (VInt 1) rd)
              (unique col_values) row_data)
    | None => Ok row_data
    end.

(** Lines 634-676: every configured pair, in dictionary order. *)
Definition apply_aggregations (aggregation_config : dict (list string))
    (non_agg_columns group_columns : list string) (group_df : list row)
    (row_data : row) : result row :=
  foldM (fun rd entry =>
           foldM (fun rd col =>
                    aggregate_column non_agg_columns group_columns group_df
                      entry.1 col rd)
                 rd entry.2)
        row_data aggregation_config.

(** Lines 615-631: the dictionary a group starts from. *)
Definition base_row_data (group_columns : list string)
    (group_key : list value) (group_df : list row) : row :=
  let hosp_id := group_key !!! 0%nat in
  let event_time_hour := group_key !!! 1%nat in
  let nth_hour := group_key !!! 2%nat in
  let row_data := [("hospitalization_id", hosp_id);
                   ("event_time_hour", event_time_hour);
                   ("nth_hour", nth_hour);
                   ("hour_bucket", dt_hour event_time_hour)] in
  let row_data :=
    if bool_decide ("patient_id" ∈ group_columns)
    then dict_set "patient_id"
           (default VNull (head (column_values "patient_id" group_df))) row_data
    else row_data in
  if bool_decide ("day_number" ∈ group_columns)
  then dict_set "day_number"
         (default VNull (head (column_values "day_number" group_df))) row_data
  else row_data.

Definition aggregate_group (aggregation_config : dict (list string))
    (non_agg_columns group_columns : list string)
    (group : list value * list row) : result row :=
  apply_aggregations aggregation_config non_agg_columns group_columns group.2
    (base_row_data group_columns group.1 group.2).

(** Lines 686-693: [hourly_df[ohc] = hourly_df[ohc].fillna(0).astype(int)]
    for every column whose name starts with a one-hot source name. *)
Definition fillna0_astype_int (v : value) : result value :=
  astype_int (match v with VNull => VInt 0 | _ => v end).

Definition fill_column (hourly_df : DataFrame) (ohc : string) : result DataFrame :=
  assignM ohc (fun r => fillna0_astype_int (cell r ohc)) hourly_df.

Definition fill_one_hot (aggregation_config : dict (list string))
    (hourly_df : DataFrame) : result DataFrame :=
  foldM (fun df entry =>
           if decide (entry.1 = "one_hot_encode")
           then foldM (fun df col =>
                         foldM fill_column df
                           (filter (fun c => startswith c (col +:+ "_") = true)
                                   (columns df)))
                      df entry.2
           else Ok df)
        hourly_df aggregation_config.

(** The function returns the caller's dictionary as the call leaves it,
    next to the outcome. *)
Definition convert_wide_to_hourly (wide_df : DataFrame)
    (aggregation_config : dict (list string))
  : dict (list string) * result DataFrame :=
  if negb (has_column wide_df "event_time")
  then (aggregation_config,
        Raise (ValueError "wide_df must contain 'event_time' column"))
  else if negb (has_column wide_df "hospitalization_id")
  then (aggregation_config,
        Raise (ValueError "wide_df must contain 'hospitalization_id' column"))
  else if negb (has_column wide_df "day_number")
  then (aggregation_config,
        Raise (ValueError "wide_df must contain 'day_number' column"))
  else
    match add_hour_columns wide_df with
    | Raise e => (aggregation_config, Raise e)
    | Ok df =>
        let non_agg_columns := non_agg_columns_of (columns df) aggregation_config in
        let aggregation_config := extend_first non_agg_columns aggregation_config in
        (aggregation_config,
         aggregated_data ←
           traverse (aggregate_group aggregation_config non_agg_columns (columns df))
                    (groupby group_cols (rows df));
         hourly_df ← sort_values ["hospitalization_id"; "nth_hour"]
                       (pd_DataFrame aggregated_data);
         fill_one_hot aggregation_config hourly_df)
    end.

End Aggregator.

(** ** Calendar arithmetic for [strftime(ts, '%Y%m%d%H%M')] and [.dt.date] *)

Definition civil_from_days (z : Z) : Z * Z * Z :=
  (let z := z + 719468 in
   let era := z / 146097 in
   let doe := z - era * 146097 in
   let yoe := (doe - doe / 1460 + doe / 36524 - doe / 146096) / 365 in
   let y := yoe + era * 400 in
   let doy := doe - (365 * yoe + yoe / 4 - yoe / 100) in
   let mp := (5 * doy + 2) / 153 in
   let d := doy - (153 * mp + 2) / 5 + 1 in
   let m := if mp <? 10 then mp + 3 else mp - 9 in
   (if m <=? 2 then y + 1 else y, m, d))%Z.

Fixpoint zeros (n : nat) : string :=
  match n with O => "" | S n' => String "0" (zeros n') end.

Definition zfill (width : nat) (z : Z) : string :=
  let s := pretty z in zeros (width - String.length s) +:+ s.

Definition strftime_minute (t : Z) : string :=
  let '(y, m, d) := civil_from_days (t / 86400) in
  let secs := (t mod 86400)%Z in
  zfill 4 y +:+ zfill 2 m +:+ zfill 2 d
    +:+ zfill 2 (secs / 3600) +:+ zfill 2 (secs mod 3600 / 60).

(** The text of an identifier cell under SQL [||] (text or integer ids). *)
Definition sql_varchar (v : value) : option string :=
  match v with
  | VStr s => Some s
  | VInt z => Some (pretty z)
  | _ => None
  end.

(** [hospitalization_id || '_' || strftime(ts, '%Y%m%d%H%M')]; null if either
    operand is null. *)
Definition combo_id (hosp ts : value) : value :=
  match sql_varchar hosp, ts with
  | Some h, VTime t => VStr (h +:+ "_" +:+ strftime_minute t)
  | _, _ => VNull
  end.

Definition is_timestamp (v : value) : bool :=
  match v with VTime _ | VNull => true | _ => false end.

Definition is_timestamp_column (c : string) (df : DataFrame) : bool :=
  forallb (fun r => is_timestamp (cell r c)) (rows df).

(** ** Relational helpers *)

Definition isin (v : value) (vs : list value) : bool := bool_decide (v ∈ vs).

Definition filter_rows (f : row -> bool) (df : DataFrame) : DataFrame :=
  mkDF (columns df) (filter (fun r => f r = true) (rows df)).

(** [df[df[c].isin(vs)]] *)
Definition where_isin (c : string) (vs : list value) (df : DataFrame)
  : result DataFrame :=
  if has_column df c then Ok (filter_rows (fun r => isin (cell r c) vs) df)
  else Raise (KeyError c).

(** [df[cs]] *)
Definition select_columns (cs : list string) (df : DataFrame) : DataFrame :=
  mkDF cs (map (fun r => map (fun c => (c, cell r c)) cs) (rows df)).

(** [pd.merge(left, right, on=key, how='inner')]: left order is kept, other
    columns the two sides share get the suffixes [_x] and [_y]. *)
Definition merge_name (others : list string) (key suffix c : string) : string :=
  if bool_decide (c <> key /\ c ∈ others) then c +:+ suffix else c.

Definition pd_merge_inner (left right : DataFrame) (key : string)
  : result DataFrame :=
  if negb (has_column left key && has_column right key) then Raise (KeyError key)
  else
    let lname := merge_name (columns right) key "_x" in
    let rname := merge_name (columns left) key "_y" in
    let rcols := filter (fun c => c <> key) (columns right) in
    Ok (mkDF (map lname (columns left) ++ map rname rcols)
          (concat (map (fun l =>
             map (fun r => map (fun c => (lname c, cell l c)) (columns left)
                           ++ map (fun c => (rname c, cell r c)) rcols)
                 (filter (fun r => cell r key = cell l key) (rows right)))
             (rows left)))).

(** Result column names are made unique left to right when a query result
    becomes a data frame: a repeated name gets [_1], [_2], ... *)
Fixpoint fresh_name_from (fuel k : nat) (taken : list string) (c : string) : string :=
  let candidate := c +:+ "_" +:+ pretty k in
  match fuel with
  | O => candidate
  | S fuel' =>
      if bool_decide (candidate ∈ taken) then fresh_name_from fuel' (S k) taken c
      else candidate
  end.

Definition fresh_name (taken : list string) (c : string) : string :=
  if bool_decide (c ∈ taken) then fresh_name_from (length taken) 1 taken c else c.

Fixpoint dedup_names (taken cs : list string) : list string :=
  match cs with
  | [] => []
  | c :: cs' =>
      let c' := fresh_name taken c in c' :: dedup_names (taken ++ [c']) cs'
  end.

(** [SELECT DISTINCT hospitalization_id, ts AS event_time FROM t
     WHERE ts IS NOT NULL] *)
Definition event_time_query (table_df : DataFrame) (timestamp_col : string)
  : list (value * value) :=
  unique (map (fun r => (cell r "hospitalization_id", cell r timestamp_col))
            (filter (fun r => cell r timestamp_col <> VNull) (rows table_df))).

(** [SELECT *, hospitalization_id || '_' || strftime(ts, ...) AS combo_id
     FROM t WHERE ts IS NOT NULL]; the query does not bind when a column it
    names is missing or [ts] is not a timestamp column. *)
Definition with_combo (table_df : DataFrame) (timestamp_col : string)
  : result DataFrame :=
  if negb (has_column table_df timestamp_col) then Raise (BinderError timestamp_col)
  else if negb (has_column table_df "hospitalization_id")
  then Raise (BinderError "hospitalization_id")
  else if has_column table_df "combo_id" then Raise (BinderError "combo_id")
  else if negb (is_timestamp_column timestamp_col table_df)
  then Raise (BinderError "strftime")
  else Ok (assign "combo_id"
             (fun r => combo_id (cell r "hospitalization_id") (cell r timestamp_col))
             (filter_rows (fun r => notna (cell r timestamp_col)) table_df)).

(** [left LEFT JOIN right USING (combo_id)] *)
Definition left_join_using_combo (left right : DataFrame) : DataFrame :=
  let rcols := filter (fun c => c <> "combo_id") (columns right) in
  let names := dedup_names (columns left) rcols in
  let attach (l : row) (r : option row) : row :=
    l ++ zip names (map (fun c => from_option (fun r => cell r c) VNull r) rcols) in
  mkDF (columns left ++ names)
    (concat (map (fun l =>
       match filter (fun r => cell l "combo_id" <> VNull
                              /\ cell r "combo_id" = cell l "combo_id")
                    (rows right) with
       | [] => [attach l None]
       | matches => map (fun r => attach l (Some r)) matches
       end) (rows left))).

(** The CTE [expanded_df]:
    [SELECT DISTINCT a.*, b.event_time, a.hospitalization_id || '_' || ... AS combo_id
     FROM base_cohort a LEFT JOIN uni_event_dttm b
       ON a.hospitalization_id = b.hospitalization_id] *)
Definition expanded_df (base_cohort : DataFrame) (uni_event_dttm : list (value * value))
  : DataFrame :=
  let event_time := fresh_name (columns base_cohort) "event_time" in
  let attach (a : row) (t : value) : row :=
    a ++ [(event_time, t);
          ("combo_id", combo_id (cell a "hospitalization_id") t)] in
  mkDF (columns base_cohort ++ [event_time; "combo_id"])
    (unique (concat (map (fun a =>
       match filter (fun b => cell a "hospitalization_id" <> VNull
                              /\ b.1 = cell a "hospitalization_id")
                    uni_event_dttm with
       | [] => [attach a VNull]
       | matches => map (fun b => attach a b.2) matches
       end) (rows base_cohort)))).

(** ** The query engine

    What DuckDB leaves open in the queries of this file, as an interface.
    - [first(value)] over the rows of a [SELECT DISTINCT] returns the value
      of whichever row of the group the engine meets first:
      [first_index pivot_data combo category] is its position among the
      values of the group.
    - The rows of a [PIVOT] come in no fixed order: they are sorted by
      [row_rank pivot_data].
    - Column names are compared without regard to case, so two categories
      that differ only in case (or one that reads [combo_id]) cannot both
      name a column: the engine then renames, [pivot_column categories c]
      being the name the category [c] gets.
    - A filter name with a quote in it ends the literal of line 344 early
      and the rest of the name is read as SQL: [quoted_clause category_col
      names] is the row predicate the text then stands for, or [None] when
      the query does not parse or bind. *)
Class DuckDB : Type := {
  first_index : list (value * value * value) -> value -> string -> nat;
  row_rank : list (value * value * value) -> value -> nat;
  pivot_column : list string -> string -> string;
  quoted_clause : string -> list string -> option (row -> bool)
}.

Definition to_lower (a : ascii) : ascii :=
  let n := nat_of_ascii a in
  if ((65 <=? n) && (n <=? 90))%nat then ascii_of_nat (n + 32) else a.

Fixpoint lower (s : string) : string :=
  match s with
  | EmptyString => EmptyString
  | String a s' => String (to_lower a) (lower s')
  end.

(** No two of the names are equal up to case. *)
Definition case_distinct (names : list string) : Prop := NoDup (map lower names).

Global Instance case_distinct_dec names : Decision (case_distinct names).
Proof. unfold case_distinct; apply _. Defined.

Definition rank_le (rank : value -> nat) (a b : value) : Prop :=
  (rank a <= rank b)%nat.

Global Instance rank_le_dec rank : RelDecision (rank_le rank).
Proof. intros a b; unfold rank_le; apply _. Defined.

(** [PIVOT pivot_data ON category USING first(value) GROUP BY combo_id] over
    the triples [(value, category, combo_id)]: one row per [combo_id], one
    column per category in sorted order, and in a cell one of the values of
    the pair, as the engine chooses. *)
Definition pivot_first {duckdb : DuckDB} (pivot_data : list (value * value * value))
  : DataFrame :=
  let categories :=
    merge_sort String.le (unique (omap (fun x => sql_varchar x.1.2) pivot_data)) in
  let name (c : string) : string :=
    if decide (case_distinct ("combo_id" :: categories)) then c
    else pivot_column categories c in
  let combos :=
    merge_sort (rank_le (row_rank pivot_data))
               (unique (map (fun x => x.2) pivot_data)) in
  mkDF ("combo_id" :: map name categories)
    (map (fun cb =>
       ("combo_id", cb) ::
       map (fun c =>
              let candidates :=
                map (fun x => x.1.1)
                    (filter (fun x => x.2 = cb /\ sql_varchar x.1.2 = Some c)
                            pivot_data) in
              (name c,
               default VNull
                 (candidates !! (first_index pivot_data cb c
                                   mod length candidates)%nat)))
           categories)
       combos).

(** Lines 341-344: [filter_clause = f"AND {category_col} IN
    ('{categories_list}')"] with the names joined by [','].  Without a quote
    in a name the text is the list of the names, and of the empty string
    alone when there is no name. *)
Definition quote_free (s : string) : bool :=
  bool_decide ("'"%char ∉ String.list_ascii_of_string s).

Definition in_list (categories : list string) : list string :=
  match categories with
  | [] => [""]
  | _ => categories
  end.

Definition filter_clause {duckdb : DuckDB} (category_col : string)
    (categories : option (list string)) : option (row -> bool) :=
  match categories with
  | None => Some (fun _ => true)
  | Some categories =>
      if forallb quote_free categories
      then Some (fun r => isin (cell r category_col) (map VStr (in_list categories)))
      else quoted_clause category_col categories
  end.

(** ** [create_wide_dataset] and its helpers *)

Definition _get_timestamp_column (table_name : string) : option string :=
  dict_get table_name
    [("vitals", "recorded_dttm");
     ("labs", "lab_result_dttm");
     ("medication_admin_continuous", "admin_dttm");
     ("patient_assessments", "recorded_dttm");
     ("respiratory_support", "recorded_dttm")].

(** Lines 120-131, and again 205-216: the alternative timestamp columns
    tried when the mapped one is not a column of the table. *)
Definition resolve_timestamp_column (table_name timestamp_col : string)
    (table_columns : list string) : string :=
  if bool_decide (timestamp_col ∈ table_columns) then timestamp_col
  else if decide (table_name = "labs") then
    default timestamp_col
      (head (filter (fun alt_col => alt_col ∈ table_columns)
               ["lab_collect_dttm"; "recorded_dttm"; "lab_order_dttm"]))
  else if decide (table_name = "vitals") then
    if bool_decide ("recorded_dttm_min" ∈ table_columns)
    then "recorded_dttm_min" else timestamp_col
  else timestamp_col.

Definition category_col_mapping : dict string :=
  [("vitals", "vital_category");
   ("labs", "lab_category");
   ("medication_admin_continuous", "med_category");
   ("patient_assessments", "assessment_category")].

Definition value_col_mapping : dict string :=
  [("vitals", "vital_value");
   ("labs", "lab_value_numeric");
   ("medication_admin_continuous", "med_dose");
   ("patient_assessments", "assessment_value")].

Definition pivotable : list string :=
  ["vitals"; "labs"; "medication_admin_continuous"; "patient_assessments"].

Definition required_columns (table_name : string) : list string :=
  default []
    (dict_get table_name
       [("patient", ["patient_id"]);
        ("hospitalization", ["hospitalization_id"; "patient_id"]);
        ("adt", ["hospitalization_id"])]).

(** The order of [list(set(...))] is not fixed by the source; first-seen
    order is used. *)
Definition _filter_base_table_columns (df : DataFrame) (table_name : string)
    (base_table_columns : option (dict (list string))) : DataFrame :=
  match base_table_columns ≫= dict_get table_name with
  | None => df
  | Some specified_columns =>
      let all_columns := unique (required_columns table_name ++ specified_columns) in
      let available_columns := filter (fun col => col ∈ columns df) all_columns in
      match available_columns with
      | [] => df
      | _ => select_columns available_columns df
      end
  end.

Definition _add_missing_columns (df : DataFrame)
    (category_filters : option (dict (list string)))
    (optional_tables : option (list string)) : DataFrame :=
  let optional_tables := default [] optional_tables in
  fold_left
    (fun df entry =>
       if bool_decide (entry.1 ∈ optional_tables)
       then fold_left
              (fun df category =>
                 if bool_decide (category ∉ columns df)
                 then assign category (fun _ => VNull) df
                 else df)
              entry.2 df
       else df)
    (default [] category_filters) df.

(** The tables known to the DuckDB connection, the event-time queries
    collected so far and the pivoted tables, as the first loop builds them. *)
Record build_state : Type := mkState {
  catalog : dict DataFrame;
  event_time_queries : list (list (value * value));
  pivoted_tables : dict string
}.

(** [.dt.date] *)
Definition dt_date (v : value) : result value :=
  match v with
  | VTime t => Ok (VDate (t / 86400)%Z)
  | VNull => Ok VNull
  | _ => Raise (AttributeError "dt")
  end.

(** [groupby('hospitalization_id')['date'].rank(method='dense').astype(int)]
    on one row: the number of distinct dates of the stay up to this one; a
    missing date or id has rank NaN, which does not cast. *)
Definition dense_rank (rs : list row) (r : row) : result value :=
  match cell r "hospitalization_id", cell r "date" with
  | VNull, _ => Raise IntCastingNaNError
  | hosp, VDate d =>
      Ok (VInt (Z.of_nat (length (unique
            (filter (fun v => value_le v (VDate d) /\ v <> VNull)
               (column_values "date"
                  (filter (fun r' => cell r' "hospitalization_id" = hosp) rs)))))))
  | _, _ => Raise IntCastingNaNError
  end.

Section Builder.
Context {pandas : Pandas} {duckdb : DuckDB}.

(** Whether the engine rejects a [PIVOT] whose input has no rows; the
    source only catches the exception, so both behaviours are covered. *)
Variable pivot_rejects_empty : bool.

(** Lines 315-380.  Any exception is caught and yields [None]: a column
    the query names is missing, the filter clause does not parse, or the
    engine rejects the pivot. *)
Definition _pivot_table_duckdb (catalog : dict DataFrame)
    (table_name timestamp_col : string)
    (category_filters : option (dict (list string)))
  : dict DataFrame * option string :=
  match dict_get table_name category_col_mapping,
        dict_get table_name value_col_mapping,
        dict_get (table_name +:+ "_raw") catalog with
  | Some category_col, Some value_col, Some raw =>
      if negb (has_column raw value_col && has_column raw category_col
               && has_column raw "hospitalization_id"
               && has_column raw timestamp_col
               && is_timestamp_column timestamp_col raw)
      then (catalog, None)
      else
        match filter_clause category_col
                (category_filters ≫= dict_get table_name) with
        | None => (catalog, None)
        | Some keep =>
            let pivot_data :=
              unique (map (fun r => (cell r value_col, cell r category_col,
                                     combo_id (cell r "hospitalization_id")
                                              (cell r timestamp_col)))
                        (filter (fun r => cell r timestamp_col <> VNull
                                          /\ keep r = true) (rows raw))) in
            if pivot_rejects_empty && bool_decide (pivot_data = [])
            then (catalog, None)
            else (dict_set (table_name +:+ "_pivoted") (pivot_first pivot_data)
                           catalog,
                  Some (table_name +:+ "_pivoted"))
        end
  | _, _, _ => (catalog, None)
  end.

(** Lines 101-145: the body of the first loop over [optional_tables]. *)
Definition load_optional_table (clif_instance : dict DataFrame)
    (required_ids : list value) (category_filters : option (dict (list string)))
    (st : build_state) (table_name : string) : result build_state :=
  let table_attr := if decide (table_name = "labs") then "lab" else table_name in
  match dict_get table_attr clif_instance with
  | None => Ok st
  | Some table_df =>
      table_df ← where_isin "hospitalization_id" required_ids table_df;
      let catalog := dict_set (table_name +:+ "_raw") table_df (catalog st) in
      let st := mkState catalog (event_time_queries st) (pivoted_tables st) in
      match _get_timestamp_column table_name with
      | None => Ok st
      | Some timestamp_col =>
          let timestamp_col :=
            resolve_timestamp_column table_name timestamp_col (columns table_df) in
          if bool_decide (timestamp_col ∈ columns table_df) then
            let queries :=
              event_time_queries st ++ [event_time_query table_df timestamp_col] in
            if bool_decide (table_name ∈ pivotable) then
              let '(catalog, pivoted_table_name) :=
                _pivot_table_duckdb catalog table_name timestamp_col
                  category_filters in
              Ok (mkState catalog queries
                    (match pivoted_table_name with
                     | Some name => dict_set table_name name (pivoted_tables st)
                     | None => pivoted_tables st
                     end))
            else Ok (mkState catalog queries (pivoted_tables st))
          else Ok st
      end
  end.

(** Lines 198-232: the optional tables joined without a pivot.  The guard
    looks the raw table up in the connection, then the timestamp column is
    resolved as in the first loop, and the CTE is added whether or not the
    resolved column exists. *)
Definition raw_join_tables (st : build_state) (optional_tables : list string)
  : result (list DataFrame) :=
  let joined :=
    filter (fun table_name =>
              (table_name ∉ dict_keys (pivoted_tables st))
              /\ is_Some (dict_get (table_name +:+ "_raw") (catalog st))
              /\ is_Some (_get_timestamp_column table_name))
           optional_tables in
  if bool_decide (NoDup joined) then
    traverse (fun table_name =>
                match dict_get (table_name +:+ "_raw") (catalog st),
                      _get_timestamp_column table_name with
                | Some raw, Some timestamp_col =>
                    with_combo raw
                      (resolve_timestamp_column table_name timestamp_col
                         (columns raw))
                | _, _ => Raise (CatalogError (table_name +:+ "_raw"))
                end)
             joined
  else Raise (BinderError "duplicate CTE").

(** Lines 147-159: the distinct [(hospitalization_id, event_time)] pairs. *)
Definition all_event_times (st : build_state) : list (value * value) :=
  unique (concat (event_time_queries st)).

(** The relations joined to [expanded_df], in the order of the query:
    [adt_with_combo], the pivoted tables, the raw optional tables. *)
Definition join_sources (st : build_state) (adt_df : DataFrame)
    (optional_tables : list string) : result (list DataFrame) :=
  adt_with_combo ← with_combo adt_df "in_dttm";
  pivoted ← traverse (fun entry =>
                        match dict_get entry.2 (catalog st) with
                        | Some t => Ok t
                        | None => Raise (CatalogError entry.2)
                        end) (pivoted_tables st);
  raw ← raw_join_tables st optional_tables;
  Ok (adt_with_combo :: pivoted ++ raw).

(** Lines 169-236: the join query and [drop_duplicates].  The query does
    not bind when [base_cohort] lacks [hospitalization_id], already has a
    [combo_id], or an event time is not a timestamp. *)
Definition execute_join (st : build_state) (base_cohort adt_df : DataFrame)
    (optional_tables : list string) : result DataFrame :=
  if negb (has_column base_cohort "hospitalization_id")
  then Raise (BinderError "hospitalization_id")
  else if has_column base_cohort "combo_id" then Raise (BinderError "combo_id")
  else if negb (forallb (fun b => is_timestamp b.2) (all_event_times st))
  then Raise (BinderError "strftime")
  else
    sources ← join_sources st adt_df optional_tables;
    let joined :=
      fold_left left_join_using_combo sources
        (expanded_df base_cohort (all_event_times st)) in
    Ok (mkDF (columns joined) (unique (rows joined))).

(** Lines 239-244: [date], the sort, [day_number] and [hosp_id_day_key]. *)
Definition number_days (final_df : DataFrame) : result DataFrame :=
  if negb (has_column final_df "event_time") then Raise (KeyError "event_time")
  else
    df ← assignM "date" (fun r => dt_date (cell r "event_time")) final_df;
    df ← sort_values ["hospitalization_id"; "event_time"] df;
    df ← assignM "day_number" (dense_rank (rows df)) df;
    Ok (assign "hosp_id_day_key"
          (fun r => VStr (py_str (cell r "hospitalization_id") +:+ "_day_"
                          +:+ py_str (cell r "day_number"))) df).

(** [clif_instance.<name>.df], filtered to the requested columns. *)
Definition base_table (clif_instance : dict DataFrame) (table_name : string)
    (base_table_columns : option (dict (list string))) : result DataFrame :=
  match dict_get table_name clif_instance with
  | Some df => Ok (_filter_base_table_columns df table_name base_table_columns)
  | None => Raise (AttributeError table_name)
  end.

(** Lines 45-145: the base tables, the cohort, [base_cohort] and the first
    loop.  [session] is the content of the DuckDB connection before the
    call and [draw] the outcome of [Series.sample]. *)
Definition prepare_tables (session : dict DataFrame)
    (draw : list value -> nat -> list value)
    (clif_instance : dict DataFrame)
    (optional_tables : option (list string))
    (category_filters : option (dict (list string)))
    (sample : bool) (hospitalization_ids : option (list value))
    (base_table_columns : option (dict (list string)))
  : result (DataFrame * DataFrame * build_state) :=
  patient_df ← base_table clif_instance "patient" base_table_columns;
  hospitalization_df ←
    base_table clif_instance "hospitalization" base_table_columns;
  adt_df ← base_table clif_instance "adt" base_table_columns;
  hospitalization_df ←
    match hospitalization_ids with
    | Some ids => where_isin "hospitalization_id" ids hospitalization_df
    | None =>
        if sample then
          where_isin "hospitalization_id"
            (draw (column_values "hospitalization_id" (rows hospitalization_df))
                  (Nat.min 20 (length (rows hospitalization_df))))
            hospitalization_df
        else if has_column hospitalization_df "hospitalization_id"
             then Ok hospitalization_df
             else Raise (KeyError "hospitalization_id")
    end;
  let required_ids :=
    unique (column_values "hospitalization_id" (rows hospitalization_df)) in
  adt_df ← where_isin "hospitalization_id" required_ids adt_df;
  base_cohort ← pd_merge_inner hospitalization_df patient_df "patient_id";
  let catalog :=
    dict_set "base_cohort" base_cohort
      (dict_set "adt_df" adt_df
         (dict_set "hospitalization_df" hospitalization_df
            (dict_set "patient_df" patient_df session))) in
  let queries :=
    if has_column adt_df "in_dttm" then [event_time_query adt_df "in_dttm"]
    else [] in
  st ← foldM (load_optional_table clif_instance required_ids category_filters)
        (mkState catalog queries []) (default [] optional_tables);
  Ok (base_cohort, adt_df, st).

(** Lines 147-300.  Writing the result to a file (lines 256-268) and the
    clean-up of the connection (lines 270-294) do not change the returned
    frame and are left out. *)
Definition finish_wide_dataset (base_cohort adt_df : DataFrame)
    (st : build_state) (optional_tables : option (list string))
    (category_filters : option (dict (list string)))
    (return_dataframe : bool) : result (option DataFrame) :=
  match event_time_queries st with
  | [] => Ok (Some base_cohort)
  | _ =>
      final_df ← execute_join st base_cohort adt_df (default [] optional_tables);
      final_df ← number_days final_df;
      let final_df := _add_missing_columns final_df category_filters optional_tables in
      let final_df := drop_columns ["combo_id"; "date"] final_df in
      Ok (if return_dataframe then Some final_df else None)
  end.

Definition create_wide_dataset (session : dict DataFrame)
    (draw : list value -> nat -> list value)
    (clif_instance : dict DataFrame)
    (optional_tables : option (list string))
    (category_filters : option (dict (list string)))
    (sample : bool) (hospitalization_ids : option (list value))
    (return_dataframe : bool)
    (base_table_columns : option (dict (list string)))
  : result (option DataFrame) :=
  prepared ← prepare_tables session draw clif_instance optional_tables
               category_filters sample hospitalization_ids base_table_columns;
  finish_wide_dataset prepared.1.1 prepared.1.2 prepared.2 optional_tables
    category_filters return_dataframe.

End Builder.

(** ** Reference kernels

    An implementation of [Pandas] that is exact on integer, text and
    timestamp columns; it is what the examples below run on.  A mean or
    median that is not a whole number has no cell in this model and is
    reported as an error. *)

Definition ref_extreme (pick_right : value -> value -> bool) (vs : list value)
  : result value :=
  match vs with
  | [] => Ok VNull
  | v :: vs' => Ok (fold_left (fun m x => if pick_right m x then x else m) vs' v)
  end.

Definition ints_of (vs : list value) : option (list Z) :=
  mapM (fun v => match v with VInt z => Some z | _ => None end) vs.

Definition ref_mean (vs : list value) : result value :=
  match ints_of vs with
  | Some zs =>
      let total := fold_right Z.add 0%Z zs in
      let n := Z.of_nat (length zs) in
      if (total mod n =? 0)%Z then Ok (VInt (total / n))
      else Raise (TypeError "fractional mean")
  | None => Raise (TypeError "mean")
  end.

Definition ref_median (vs : list value) : result value :=
  match ints_of vs with
  | Some zs =>
      let sorted := merge_sort Z.le zs in
      let n := length sorted in
      if Nat.odd n then Ok (VInt (sorted !!! (n / 2)%nat))
      else
        let total := (sorted !!! (n / 2 - 1)%nat + sorted !!! (n / 2)%nat)%Z in
        if (total mod 2 =? 0)%Z then Ok (VInt (total / 2))
        else Raise (TypeError "fractional median")
  | None => Raise (TypeError "median")
  end.

Definition ref_str (v : value) : string :=
  match v with
  | VNull => "nan"
  | VInt z => pretty z
  | VStr s => s
  | VTime t =>
      let '(y, m, d) := civil_from_days (t / 86400) in
      let secs := (t mod 86400)%Z in
      zfill 4 y +:+ "-" +:+ zfill 2 m +:+ "-" +:+ zfill 2 d +:+ " "
        +:+ zfill 2 (secs / 3600) +:+ ":" +:+ zfill 2 (secs mod 3600 / 60)
        +:+ ":" +:+ zfill 2 (secs mod 60)
  | VDate d =>
      let '(y, m, d) := civil_from_days d in
      zfill 4 y +:+ "-" +:+ zfill 2 m +:+ "-" +:+ zfill 2 d
  end.

Fixpoint parse_digits (acc : Z) (s : string) : option Z :=
  match s with
  | EmptyString => Some acc
  | String a s' =>
      let n := nat_of_ascii a in
      if ((48 <=? n) && (n <=? 57))%nat
      then parse_digits (10 * acc + Z.of_nat (n - 48))%Z s'
      else None
  end.

Definition ref_astype_int (v : value) : result value :=
  match v with
  | VInt z => Ok (VInt z)
  | VNull => Raise IntCastingNaNError
  | VStr (String "-" (String a s)) =>
      match parse_digits 0 (String a s) with
      | Some z => Ok (VInt (- z))
      | None => Raise (ValueError "invalid literal for int()")
      end
  | VStr (String a s) =>
      match parse_digits 0 (String a s) with
      | Some z => Ok (VInt z)
      | None => Raise (ValueError "invalid literal for int()")
      end
  | VStr EmptyString => Raise (ValueError "invalid literal for int()")
  | _ => Raise (TypeError "int()")
  end.

Global Instance reference_pandas : Pandas := {|
  series_max := ref_extreme (fun m x => bool_decide (value_le m x));
  series_min := ref_extreme (fun m x => bool_decide (value_le x m));
  series_mean := ref_mean;
  series_median := ref_median;
  py_str := ref_str;
  astype_int := ref_astype_int;
  astype_int_int := fun z => eq_refl;
  py_str_str := fun s => eq_refl
|}.

(** An engine that returns the second value of a group when there is one
    and puts the rows in the same order. *)
Definition second_value_duckdb : DuckDB := {|
  first_index := fun _ _ _ => 1%nat;
  row_rank := fun _ _ => 0%nat;
  pivot_column := fun _ c => c;
  quoted_clause := fun _ _ => None
|}.

(** An engine that takes the first value in source order, keeps the rows in
    the order the keys are met, leaves the names alone and rejects a filter
    clause with a quote inside a name. *)
Global Instance reference_duckdb : DuckDB := {|
  first_index := fun _ _ _ => 0%nat;
  row_rank := fun _ _ => 0%nat;
  pivot_column := fun _ c => c;
  quoted_clause := fun _ _ => None
|}.

(** ** Notions used to state the properties *)

(** The [(agg_method, col)] pairs in the order the aggregation loop visits
    them. *)
Definition config_pairs (aggregation_config : dict (list string))
  : list (string * string) :=
  concat (map (fun entry => map (fun col => (entry.1, col)) entry.2)
              aggregation_config).

Definition one_hot_sources (aggregation_config : dict (list string)) : list string :=
  map snd (filter (fun p => p.1 = "one_hot_encode") (config_pairs aggregation_config)).

(** The integer [nth_hour] cells of a stay, in row order. *)
Definition nth_hours (hourly_df : DataFrame) (hosp : value) : list Z :=
  omap (fun r => match cell r "nth_hour" with VInt n => Some n | _ => None end)
       (filter (fun r => cell r "hospitalization_id" = hosp) (rows hourly_df)).

(** The event times of a stay in the wide table. *)
Definition event_times (wide_df : DataFrame) (hosp : value) : list Z :=
  omap (fun r => match cell r "event_time" with VTime t => Some t | _ => None end)
       (filter (fun r => cell r "hospitalization_id" = hosp) (rows wide_df)).

Definition required_wide_columns : list string :=
  ["event_time"; "hospitalization_id"; "day_number"].

Section Notions.
Context `{Pandas}.

(** The names of the one-hot columns a configuration produces from the
    rows [rs] of a frame with columns [cols]. *)
Definition one_hot_names (cols : list string) (rs : list row)
    (aggregation_config : dict (list string)) : list string :=
  concat (map (fun col =>
                 if bool_decide (col ∈ cols)
                 then map (one_hot_name col) (dropna (column_values col rs))
                 else [])
              (one_hot_sources aggregation_config)).

(** The keys one [(agg_method, col)] pair writes into [row_data]. *)
Definition written_keys (non_agg_columns group_columns : list string)
    (group_df : list row) (agg_method col : string) : list string :=
  if bool_decide (col ∉ group_columns) then []
  else
    match method_of_name agg_method with
    | Some Max => [col +:+ "_max"]
    | Some Min => [col +:+ "_min"]
    | Some Mean => [col +:+ "_mean"]
    | Some Median => [col +:+ "_median"]
    | Some First =>
        [if bool_decide (col ∈ non_agg_columns) then col +:+ "_c"
         else col +:+ "_first"]
    | Some Last => [col +:+ "_last"]
    | Some Boolean => [col +:+ "_boolean"]
    | Some OneHotEncode =>
        map (one_hot_name col) (dropna (column_values col group_df))
    | None => []
    end.

(** The one-hot column names of the source column [c] over the rows [rs],
    each listed once. *)
Definition hot_names (c : string) (rs : list row) : list string :=
  unique (map (one_hot_name c) (dropna (column_values c rs))).

(** No other writer shares a name with the one-hot columns of [c]:
    neither the keys every row starts with nor the keys of another
    [(agg_method, col)] pair. *)
Definition one_hot_exclusive (non_agg_columns cols : list string)
    (rs : list row) (aggregation_config : dict (list string)) (c : string)
  : Prop :=
  Forall (fun n => n ∉ ["hospitalization_id"; "event_time_hour"; "nth_hour";
                        "hour_bucket"; "patient_id"; "day_number"])
         (hot_names c rs) /\
  Forall (fun p => p = ("one_hot_encode", c) \/
                   Forall (fun k => k ∉ hot_names c rs)
                          (written_keys non_agg_columns cols rs p.1 p.2))
         (config_pairs aggregation_config).

Global Instance one_hot_exclusive_dec na cols rs cfg c :
  Decision (one_hot_exclusive na cols rs cfg c).
Proof. unfold one_hot_exclusive; apply _. Defined.
End Notions.

Definition int_cell (r : row) (c : string) : Z :=
  match cell r c with VInt z => z | _ => 0%Z end.

(** The sum of the integer cells of a row over the columns [cs]. *)
Definition sum_cells (r : row) (cs : list string) : Z :=
  fold_right Z.add 0%Z (map (int_cell r) cs).

(** ** Auxiliary notions of the proofs *)

Definition rev_chars (s : string) : list ascii := rev (list_ascii_of_string s).

(** The columns of the frame after lines 554-573. *)
Definition hour_columns (cols : list string) : list string :=
  add_column "hour_bucket"
    (add_column "nth_hour"
       (add_column "first_event_hour" (add_column "event_time_hour" cols))).

Definition regular_suffixes : list string :=
  ["_max"; "_min"; "_mean"; "_median"; "_c"; "_first"; "_last"; "_boolean"].

Definition base_keys : list string :=
  ["hospitalization_id"; "event_time_hour"; "nth_hour"; "hour_bucket";
   "patient_id"; "day_number"].

(** How [fill_one_hot] relates a row to its image when the columns [T] are
    filled. *)
Definition fill_rel (T : list string) (r r' : row) : Prop :=
  forall c, (c ∉ T -> cell r' c = cell r c) /\
            (forall z, cell r c = VInt z -> cell r' c = VInt z) /\
            (c ∈ T -> cell r c = VNull -> cell r' c = VInt 0).

Definition targets_of (cols : list string) (col : string) : list string :=
  filter (fun c => startswith c (col +:+ "_") = true) cols.

Definition fill_targets (cols : list string) (cfg : dict (list string)) : list string :=
  concat (map (fun entry : string * list string =>
                 if decide (entry.1 = "one_hot_encode")
                 then concat (map (targets_of cols) entry.2) else [])
              cfg).

(** The hour a wide row falls in, and the first hour of a stay. *)
Definition floor_cell (w : row) : value :=
  match cell w "event_time" with
  | VTime t => VTime (floor_hour t)
  | _ => VNull
  end.

Definition first_hour (ws : list row) (hosp : value) : value :=
  min_time (map floor_cell (filter (fun w => cell w "hospitalization_id" = hosp) ws)).

Definition hour_names : list string :=
  ["event_time_hour"; "first_event_hour"; "nth_hour"; "hour_bucket"].

(** ** Example tables *)

Definition wide_row (hosp : string) (t day : Z) (cells : row) : row :=
  [("hospitalization_id", VStr hosp); ("event_time", VTime t);
   ("day_number", VInt day)] ++ cells.

(** A wide table with the required columns and no rows. *)
Definition empty_wide : DataFrame :=
  mkDF ["hospitalization_id"; "event_time"; "day_number"; "heart_rate"] [].

(** 2024-01-01T10:00:00 *)
Definition t_10h : Z := 1704103200.

Definition minutes (h m : Z) : Z := (t_10h + (h - 10) * 3600 + m * 60)%Z.

(** One stay with events at 10:42 and 13:17, and a second stay. *)
Definition wide_two_events : DataFrame :=
  mkDF ["hospitalization_id"; "event_time"; "day_number"; "heart_rate"]
    [wide_row "H1" (minutes 10 42) 1 [("heart_rate", VInt 80)];
     wide_row "H1" (minutes 13 17) 1 [("heart_rate", VInt 85)];
     wide_row "H2" (minutes 9 5) 1 [("heart_rate", VNull)]].

Definition hours_two_events : DataFrame :=
  Eval vm_compute in
    match add_hour_columns wide_two_events with
    | Ok df => df
    | Raise _ => mkDF [] []
    end.

Definition hourly_two_events : DataFrame :=
  Eval vm_compute in
    match (convert_wide_to_hourly wide_two_events []).2 with
    | Ok out => out
    | Raise _ => mkDF [] []
    end.

(** A stay with a vasopressor given once between 10:00 and 10:59 and a
    location recorded under two spellings in that hour. *)
Definition wide_drugs : DataFrame :=
  mkDF ["hospitalization_id"; "event_time"; "day_number"; "norepinephrine"; "loc"]
    [wide_row "H1" (minutes 10 17) 1
       [("norepinephrine", VNull); ("loc", VStr "icu a")];
     wide_row "H1" (minutes 10 40) 1
       [("norepinephrine", VInt 5); ("loc", VStr "icu_a")];
     wide_row "H1" (minutes 13 42) 1
       [("norepinephrine", VNull); ("loc", VNull)]].

Definition config_drugs : dict (list string) :=
  [("boolean", ["norepinephrine"]); ("one_hot_encode", ["loc"])].

Definition hours_drugs : DataFrame :=
  Eval vm_compute in
    match add_hour_columns wide_drugs with
    | Ok df => df
    | Raise _ => mkDF [] []
    end.

Definition hourly_drugs : DataFrame :=
  Eval vm_compute in
    match (convert_wide_to_hourly wide_drugs config_drugs).2 with
    | Ok out => out
    | Raise _ => mkDF [] []
    end.

Definition Z_max_list (l : list Z) : Z :=
  match l with [] => 0%Z | x :: l' => fold_right Z.max x l' end.

Definition Z_min_list (l : list Z) : Z :=
  match l with [] => 0%Z | x :: l' => fold_right Z.min x l' end.

(** The wide rows of a stay that fall in the hour starting at [hour]. *)
Definition wide_rows_of_hour (wide_df : DataFrame) (hosp : value) (hour : Z)
  : list row :=
  filter (fun w => cell w "hospitalization_id" = hosp /\ floor_cell w = VTime hour)
         (rows wide_df).

(** One step of [_add_missing_columns]. *)
Definition add_if_missing (df : DataFrame) (category : string) : DataFrame :=
  if bool_decide (category ∉ columns df)
  then assign category (fun _ => VNull) df
  else df.

(** The categories requested for the tables that were selected. *)
Definition requested_categories (category_filters : option (dict (list string)))
    (optional_tables : option (list string)) : list string :=
  concat (map snd (filter (fun entry => entry.1 ∈ default [] optional_tables)
                          (default [] category_filters))).

(** The filters without the entries of tables that were not selected. *)
Definition selected_filters (category_filters : option (dict (list string)))
    (optional_tables : option (list string)) : option (dict (list string)) :=
  (fun filters => filter (fun entry : string * list string =>
                            entry.1 ∈ default [] optional_tables) filters)
    <$> category_filters.

(** ** Example clinical tables *)

Definition cohort_patient : DataFrame :=
  mkDF ["patient_id"; "sex"]
    [[("patient_id", VStr "P1"); ("sex", VStr "F")];
     [("patient_id", VStr "P2"); ("sex", VStr "M")]].

Definition cohort_hospitalization : DataFrame :=
  mkDF ["patient_id"; "hospitalization_id"]
    [[("patient_id", VStr "P1"); ("hospitalization_id", VStr "H1")];
     [("patient_id", VStr "P2"); ("hospitalization_id", VStr "H2")]].

Definition adt_row (hosp : string) (t : Z) (location : string) : row :=
  [("hospitalization_id", VStr hosp); ("in_dttm", VTime t);
   ("location_category", VStr location)].

(** Both stays are admitted at 09:00. *)
Definition cohort_adt : DataFrame :=
  mkDF ["hospitalization_id"; "in_dttm"; "location_category"]
    [adt_row "H1" (minutes 9 0) "icu"; adt_row "H2" (minutes 9 0) "ward"].

Definition vital_row (hosp : string) (t : Z) (category : string) (v : Z) : row :=
  [("hospitalization_id", VStr hosp); ("recorded_dttm", VTime t);
   ("vital_category", VStr category); ("vital_value", VInt v)].

(** Two vitals of the first stay are taken within the minute 10:00. *)
Definition cohort_vitals : DataFrame :=
  mkDF ["hospitalization_id"; "recorded_dttm"; "vital_category"; "vital_value"]
    [vital_row "H1" t_10h "heart_rate" 80;
     vital_row "H1" (t_10h + 45) "sbp" 120;
     vital_row "H1" (minutes 11 0) "heart_rate" 85].

Definition clif_vitals : dict DataFrame :=
  [("patient", cohort_patient); ("hospitalization", cohort_hospitalization);
   ("adt", cohort_adt); ("vitals", cohort_vitals)].

(** A labs table that has none of the four timestamp columns. *)
Definition labs_untimed : DataFrame :=
  mkDF ["hospitalization_id"; "lab_category"; "lab_value_numeric"]
    [[("hospitalization_id", VStr "H1"); ("lab_category", VStr "lactate");
      ("lab_value_numeric", VInt 2)]].

Definition clif_untimed_labs : dict DataFrame :=
  [("patient", cohort_patient); ("hospitalization", cohort_hospitalization);
   ("adt", cohort_adt); ("lab", labs_untimed)].

(** Only the first stay has a location transfer. *)
Definition clif_one_transfer : dict DataFrame :=
  [("patient", cohort_patient); ("hospitalization", cohort_hospitalization);
   ("adt", mkDF ["hospitalization_id"; "in_dttm"; "location_category"]
             [adt_row "H1" (minutes 9 0) "icu"])].

(** [Series.sample] that draws the first [n] values. *)
Definition head_draw (vs : list value) (n : nat) : list value := take n vs.

Definition labs_timestamp_columns : list string :=
  ["lab_result_dttm"; "lab_collect_dttm"; "recorded_dttm"; "lab_order_dttm"].

(** The vitals of the example with a category that was never recorded, and
    a filter for a table that is not selected. *)
Definition vitals_filters : dict (list string) :=
  [("vitals", ["heart_rate"; "sbp"; "map"]); ("labs", ["lactate"])].

Definition empty_state : build_state := mkState [] [] [].

Definition vitals_prepared : DataFrame * DataFrame * build_state :=
  Eval vm_compute in
    match prepare_tables true [] head_draw clif_vitals (Some ["vitals"])
            (Some vitals_filters) false None None with
    | Ok prepared => prepared
    | Raise _ => (mkDF [] [], mkDF [] [], empty_state)
    end.

Definition vitals_joined : DataFrame :=
  Eval vm_compute in
    match execute_join vitals_prepared.2 vitals_prepared.1.1
            vitals_prepared.1.2 ["vitals"] with
    | Ok joined => joined
    | Raise _ => mkDF [] []
    end.

Definition vitals_final : DataFrame :=
  Eval vm_compute in
    match number_days vitals_joined with
    | Ok final => final
    | Raise _ => mkDF [] []
    end.

Definition untimed_labs_prepared : DataFrame * DataFrame * build_state :=
  Eval vm_compute in
    match prepare_tables true [] head_draw clif_untimed_labs (Some ["labs"])
            None false None None with
    | Ok prepared => prepared
    | Raise _ => (mkDF [] [], mkDF [] [], empty_state)
    end.

(** ** Notions for the join *)

(** The row of [expanded_df] for a cohort row and an event time. *)
Definition expanded_row (event_time : string) (a : row) (t : value) : row :=
  a ++ [(event_time, t); ("combo_id", combo_id (cell a "hospitalization_id") t)].

Definition expanded_rows_of (event_time : string)
    (uni_event_dttm : list (value * value)) (a : row) : list row :=
  match filter (fun b => cell a "hospitalization_id" <> VNull
                         /\ b.1 = cell a "hospitalization_id")
               uni_event_dttm with
  | [] => [expanded_row event_time a VNull]
  | matches => map (fun b => expanded_row event_time a b.2) matches
  end.

(** No two rows of a joined relation carry the same minute key. *)
Definition unique_combo (df : DataFrame) : Prop :=
  NoDup (filter (fun v => v <> VNull) (column_values "combo_id" (rows df))).

Global Instance unique_combo_dec df : Decision (unique_combo df).
Proof. unfold unique_combo; apply _. Defined.




(** The columns the builder computes or drops after the join. *)
Definition computed_columns : list string :=
  ["date"; "day_number"; "hosp_id_day_key"; "combo_id"].

Definition one_transfer_prepared : DataFrame * DataFrame * build_state :=
  Eval vm_compute in
    match prepare_tables true [] head_draw clif_one_transfer None None false None
            None with
    | Ok prepared => prepared
    | Raise _ => (mkDF [] [], mkDF [] [], empty_state)
    end.

(** The cohort row of the stay that has no location transfer. *)
Definition second_stay : row :=
  [("patient_id", VStr "P2"); ("hospitalization_id", VStr "H2"); ("sex", VStr "M")].


Definition vitals_wide : DataFrame :=
  Eval vm_compute in
    drop_columns ["combo_id"; "date"]
      (_add_missing_columns vitals_final (Some vitals_filters) (Some ["vitals"])).


(** ** Notions for the proofs *)

Section Chains.
Context `{Pandas}.

(** The row an hourly group becomes: its dictionary [rd], then the row
    [r0] of [pd.DataFrame], then the filled row [r]. *)
Definition row_chain (wide : DataFrame) (cfg : dict (list string))
    (df out : DataFrame) (g : list value * list row) (r0 r : row) : Prop :=
  exists rd T,
    g ∈ groupby group_cols (rows df) /\
    aggregate_group (extend_first (non_agg_columns_of (columns wide) cfg) cfg)
      (non_agg_columns_of (columns wide) cfg) (columns df) g = Ok rd /\
    (forall c, cell r0 c = cell rd c) /\
    fill_rel T r0 r /\
    (forall c, c ∈ T <->
               c ∈ columns out /\
               exists col, col ∈ one_hot_sources cfg
                           /\ startswith c (col +:+ "_") = true).
End Chains.

(** What the loop keeps true from the frame [df0] it started with: columns
    are only appended, the cells of the columns of [df0] are kept, and every
    appended column is null throughout. *)
Definition ghost_inv (df0 df : DataFrame) : Prop :=
  (exists added, columns df = columns df0 ++ added) /\
  Forall2 (fun r0 r => forall c, c ∈ columns df0 -> cell r c = cell r0 c)
          (rows df0) (rows df) /\
  (forall c, c ∈ columns df -> c ∉ columns df0 ->
             Forall (fun r => cell r c = VNull) (rows df)).


(** ** Notions for the further properties of the aggregator *)

Section MoreNotions.
Context `{Pandas}.

(** The suffix of the column a method other than the one-hot encoding
    writes for the source column [col]. *)
Definition method_suffix (non_agg_columns : list string) (m : method)
    (col : string) : string :=
  match m with
  | Max => "_max"
  | Min => "_min"
  | Mean => "_mean"
  | Median => "_median"
  | First => if bool_decide (col ∈ non_agg_columns) then "_c" else "_first"
  | Last => "_last"
  | Boolean => "_boolean"
  | OneHotEncode => ""
  end.

(** What such a method makes of the non-null cells of a group. *)
Definition method_value (m : method) (col_values : list value) : result value :=
  match m with
  | Max => reduce_or_nan series_max col_values
  | Min => reduce_or_nan series_min col_values
  | Mean => reduce_or_nan series_mean col_values
  | Median => reduce_or_nan series_median col_values
  | First => Ok (default VNull (head col_values))
  | Last => Ok (default VNull (last col_values))
  | Boolean => Ok (VInt (if bool_decide (col_values = []) then 0 else 1))
  | OneHotEncode => Ok VNull
  end.

(** No one-hot encoding writes the output column [k], and the fill loop
    of lines 686-693 does not reach it. *)
Definition plain_column (cols : list string) (rs : list row)
    (aggregation_config : dict (list string)) (k : string) : Prop :=
  (k ∉ one_hot_names cols rs aggregation_config) /\
  Forall (fun col => startswith k (col +:+ "_") = false)
         (one_hot_sources aggregation_config).

Global Instance plain_column_dec cols rs cfg k :
  Decision (plain_column cols rs cfg k).
Proof. unfold plain_column; apply _. Defined.
End MoreNotions.

(** The key of an hourly row: the stay and the hour counted from its
    first event. *)
Definition hour_key (r : row) : value * value :=
  (cell r "hospitalization_id", cell r "nth_hour").

(** The rows of the hour frame that fall in the hour of an hourly row: those
    of its stay with its [nth_hour]. *)
Definition hour_group (df : DataFrame) (r : row) : list row :=
  filter (fun w => hour_key w = hour_key r) (rows df).

Section Kernels.
Context `{Pandas}.

(** The pandas kernel behind the four numeric method names. *)
Definition kernel_of_name (agg_method : string) : list value -> result value :=
  if decide (agg_method = "max") then series_max
  else if decide (agg_method = "min") then series_min
  else if decide (agg_method = "mean") then series_mean
  else series_median.
End Kernels.

Definition numeric_methods : list string := ["max"; "min"; "mean"; "median"].

(** The message of the validation at lines 543-551. *)
Definition missing_column_message (c : string) : string :=
  "wide_df must contain '" +:+ c +:+ "' column".

(** ** Further example tables *)

(** A wide table without [day_number]. *)
Definition wide_without_day : DataFrame :=
  mkDF ["hospitalization_id"; "event_time"; "heart_rate"]
    [[("hospitalization_id", VStr "H1"); ("event_time", VTime (minutes 10 42));
      ("heart_rate", VInt 80)]].

(** A wide table in which one row has no event time. *)
Definition untimed_row : row :=
  [("hospitalization_id", VStr "H1"); ("event_time", VNull);
   ("day_number", VInt 1); ("heart_rate", VInt 90)].

Definition wide_null_event : DataFrame :=
  mkDF ["hospitalization_id"; "event_time"; "day_number"; "heart_rate"]
    [wide_row "H1" (minutes 10 42) 1 [("heart_rate", VInt 80)]; untimed_row].

(** Three heart rates of one stay, two of them in the hour from 10:00, the
    second missing. *)
Definition wide_rates : DataFrame :=
  mkDF ["hospitalization_id"; "event_time"; "day_number"; "heart_rate"]
    [wide_row "H1" (minutes 10 5) 1 [("heart_rate", VInt 80)];
     wide_row "H1" (minutes 10 40) 1 [("heart_rate", VNull)];
     wide_row "H1" (minutes 10 55) 1 [("heart_rate", VInt 95)];
     wide_row "H1" (minutes 12 10) 1 [("heart_rate", VNull)]].

Definition config_rates : dict (list string) :=
  [("first", ["heart_rate"]); ("last", ["heart_rate"]); ("max", ["heart_rate"])].

Definition hours_rates : DataFrame :=
  Eval vm_compute in
    match add_hour_columns wide_rates with
    | Ok df => df
    | Raise _ => mkDF [] []
    end.

Definition hourly_rates : DataFrame :=
  Eval vm_compute in
    match (convert_wide_to_hourly wide_rates config_rates).2 with
    | Ok out => out
    | Raise _ => mkDF [] []
    end.

(** A configuration with a method name the loop does not know and a column
    the table does not have. *)
Definition config_typo : dict (list string) :=
  [("maximum", ["heart_rate"]); ("max", ["resp_rate"])].

Definition hourly_typo : DataFrame :=
  Eval vm_compute in
    match (convert_wide_to_hourly wide_rates config_typo).2 with
    | Ok out => out
    | Raise _ => mkDF [] []
    end.

(** ** Notions for the further properties of the builder *)

(** The dense rank of the date [d] among the dates [dates]: the number of
    distinct dates up to [d]. *)
Definition date_rank (dates : list value) (d : Z) : nat :=
  length (unique (filter (fun v => value_le v (VDate d) /\ v <> VNull) dates)).

(** ** Further example clinical tables *)

(** The second stay has no patient row and no location transfer. *)
Definition clif_orphan_stay : dict DataFrame :=
  [("patient", mkDF ["patient_id"; "sex"]
                 [[("patient_id", VStr "P1"); ("sex", VStr "F")]]);
   ("hospitalization", cohort_hospitalization);
   ("adt", mkDF ["hospitalization_id"; "in_dttm"; "location_category"]
             [adt_row "H1" (minutes 9 0) "icu"])].

Definition orphan_stay_prepared : DataFrame * DataFrame * build_state :=
  Eval vm_compute in
    match prepare_tables true [] head_draw clif_orphan_stay None None false None
            None with
    | Ok prepared => prepared
    | Raise _ => (mkDF [] [], mkDF [] [], empty_state)
    end.

Definition orphan_stay_wide : DataFrame :=
  Eval vm_compute in
    match create_wide_dataset true [] head_draw clif_orphan_stay None None false
            None true None with
    | Ok (Some out) => out
    | _ => mkDF [] []
    end.

Definition clif_no_adt : dict DataFrame :=
  [("patient", cohort_patient); ("hospitalization", cohort_hospitalization)].

(** Location transfers without the time of the transfer. *)
Definition clif_untimed_adt : dict DataFrame :=
  [("patient", cohort_patient); ("hospitalization", cohort_hospitalization);
   ("adt", mkDF ["hospitalization_id"; "location_category"]
             [[("hospitalization_id", VStr "H1"); ("location_category", VStr "icu")]])].

Definition untimed_adt_prepared : DataFrame * DataFrame * build_state :=
  Eval vm_compute in
    match prepare_tables true [] head_draw clif_untimed_adt None None false None
            None with
    | Ok prepared => prepared
    | Raise _ => (mkDF [] [], mkDF [] [], empty_state)
    end.

(** The wide table of the first stay alone, and of a sample. *)
Definition vitals_wide_first : DataFrame :=
  Eval vm_compute in
    match create_wide_dataset true [] head_draw clif_vitals (Some ["vitals"]) None
            false (Some [VStr "H1"]) true None with
    | Ok (Some out) => out
    | _ => mkDF [] []
    end.

Definition vitals_wide_sample : DataFrame :=
  Eval vm_compute in
    match create_wide_dataset true [] head_draw clif_vitals (Some ["vitals"]) None
            true None true None with
    | Ok (Some out) => out
    | _ => mkDF [] []
    end.

(** ** The legacy [_pivot_table]

    Lines 383-458.  The function works on a data frame of the caller and
    returns the pivoted frame or [None].  The model returns the connection
    and the caller's frame as the call leaves them, next to the result: line
    433 adds [combo_id] to the frame in place, unless the category filter of
    line 424 has made a copy.  Every exception of lines 431-454 is caught. *)

(** [df['hospitalization_id'].astype(str) + '_'
     + df[ts].dt.strftime('%Y%m%d%H%M')] on one row. *)
Definition pandas_combo_id `{Pandas} (hosp ts : value) : result value :=
  match ts with
  | VTime t => Ok (VStr (py_str hosp +:+ "_" +:+ strftime_minute t))
  | VNull => Ok VNull
  | _ => Raise (AttributeError "dt")
  end.

Section Legacy.
Context {pandas : Pandas} {duckdb : DuckDB}.
Variable pivot_rejects_empty : bool.

Definition _pivot_table (catalog : dict DataFrame) (df : DataFrame)
    (table_name : string) (category_filters : option (dict (list string)))
  : dict DataFrame * DataFrame * option DataFrame :=
  match dict_get table_name category_col_mapping,
        dict_get table_name value_col_mapping,
        _get_timestamp_column table_name with
  | Some category_col, Some value_col, Some timestamp_col =>
      let timestamp_col :=
        resolve_timestamp_column table_name timestamp_col (columns df) in
      if negb (has_column df category_col && has_column df value_col
               && has_column df timestamp_col)
      then (catalog, df, None)
      else
        let filtered :=
          (fun categories =>
             filter_rows (fun r => isin (cell r category_col) (map VStr categories))
                         df)
            <$> (category_filters ≫= dict_get table_name) in
        let work := default df filtered in
        if bool_decide (rows work = []) then (catalog, df, None)
        else if negb (has_column work "hospitalization_id")
        then (catalog, df, None)
        else
          match assignM "combo_id"
                  (fun r => pandas_combo_id (cell r "hospitalization_id")
                                            (cell r timestamp_col)) work with
          | Raise _ => (catalog, df, None)
          | Ok work =>
              let caller_df := if filtered is Some _ then df else work in
              let catalog := dict_set (table_name +:+ "_data") work catalog in
              let pivot_data :=
                unique (map (fun r => (cell r value_col, cell r category_col,
                                       cell r "combo_id"))
                          (filter (fun r => cell r timestamp_col <> VNull)
                                  (rows work))) in
              if pivot_rejects_empty && bool_decide (pivot_data = [])
              then (catalog, caller_df, None)
              else (catalog, caller_df, Some (pivot_first pivot_data))
          end
  | _, _, _ => (catalog, df, None)
  end.
End Legacy.

(** Whether a cell is a text. *)
Definition is_text (v : value) : bool :=
  match v with VStr _ => true | _ => false end.

(** A vitals table and its pivots. *)
Definition vitals_raw_catalog : dict DataFrame := [("vitals_raw", cohort_vitals)].

Definition vitals_legacy_pivot : DataFrame :=
  Eval vm_compute in
    match (_pivot_table true [] cohort_vitals "vitals" None).2 with
    | Some pivoted => pivoted
    | None => mkDF [] []
    end.

Definition vitals_pivoted_catalog : dict DataFrame :=
  Eval vm_compute in
    (_pivot_table_duckdb true vitals_raw_catalog "vitals" "recorded_dttm"
       (Some vitals_filters)).1.

(** * Basic facts *)

(** ** The error monad *)

Lemma bind_Ok {A B} (m : result A) (f : A -> result B) b :
  m ≫= f = Ok b -> exists a, m = Ok a /\ f a = Ok b.
Proof. destruct m as [a|e]; simpl; [eauto|discriminate]. Qed.

Lemma traverse_Ok {A B} (f : A -> result B) l ys :
  traverse f l = Ok ys -> Forall2 (fun x y => f x = Ok y) l ys.
Proof.
  revert ys; induction l as [|x l IH]; simpl; intros ys Hys.
  - injection Hys as <-. constructor.
  - apply bind_Ok in Hys as (y & Hy & Hys).
    apply bind_Ok in Hys as (ys' & Hys' & Hys).
    injection Hys as <-. constructor; auto.
Qed.

Lemma traverse_Raise {A B} (f : A -> result B) l e0 :
  (forall x e, f x = Raise e -> e = e0) ->
  forall x, x ∈ l -> is_ok (f x) = false -> traverse f l = Raise e0.
Proof.
  intros Hf x Hx Hbad. induction l as [|y l IH]; [inversion Hx|].
  simpl. destruct (f y) as [b|e] eqn:Hy; simpl.
  - apply elem_of_cons in Hx as [->|Hx].
    + rewrite Hy in Hbad; discriminate.
    + by rewrite IH.
  - f_equal. eauto.
Qed.

Lemma foldM_app {A S} (f : S -> A -> result S) s l1 l2 :
  foldM f s (l1 ++ l2) = foldM f s l1 ≫= fun s' => foldM f s' l2.
Proof.
  revert s; induction l1 as [|x l1 IH]; intros s; simpl; [done|].
  destruct (f s x); simpl; auto.
Qed.

(** An invariant-style rule for loops that may raise. *)
Lemma foldM_ind {A S} (P : S -> Prop) (f : S -> A -> result S) l s s' :
  (forall s x s', x ∈ l -> P s -> f s x = Ok s' -> P s') ->
  P s -> foldM f s l = Ok s' -> P s'.
Proof.
  revert s; induction l as [|x l IH]; simpl; intros s Hstep Hs Hfold.
  - by injection Hfold as <-.
  - apply bind_Ok in Hfold as (s1 & H1 & Hfold).
    eapply IH; [|eapply Hstep; [left|done..]|done].
    intros; eapply Hstep; [right|..]; done.
Qed.

(** ** Dictionaries *)

Lemma dict_get_set_eq {V} k (v : V) d : dict_get k (dict_set k v d) = Some v.
Proof.
  induction d as [|[k' v'] d IH]; simpl.
  - by rewrite decide_True.
  - destruct (decide (k' = k)) as [->|Hne]; simpl.
    + by rewrite decide_True.
    + by rewrite decide_False.
Qed.

Lemma dict_get_set_ne {V} k k' (v : V) d :
  k <> k' -> dict_get k' (dict_set k v d) = dict_get k' d.
Proof.
  intros Hne. induction d as [|[k0 v0] d IH]; simpl.
  - by rewrite decide_False.
  - destruct (decide (k0 = k)) as [->|Hne0]; simpl.
    + by rewrite !decide_False.
    + destruct (decide (k0 = k')); auto.
Qed.

Lemma dict_get_Some_keys {V} k (v : V) d : dict_get k d = Some v -> k ∈ dict_keys d.
Proof.
  induction d as [|[k' v'] d IH]; simpl; [discriminate|].
  destruct (decide (k' = k)) as [->|Hne]; intros Hget.
  - left.
  - right. auto.
Qed.

Lemma dict_get_None_keys {V} k (d : dict V) : dict_get k d = None <-> k ∉ dict_keys d.
Proof.
  induction d as [|[k' v'] d IH]; simpl.
  - split; [intros _; apply not_elem_of_nil|done].
  - rewrite not_elem_of_cons. destruct (decide (k' = k)) as [->|Hne].
    + split; [discriminate|intros [? _]; done].
    + rewrite IH. split; [intros ?; split; auto|intros [_ ?]; done].
Qed.

Lemma dict_get_elem_of {V} k (v : V) d : dict_get k d = Some v -> (k, v) ∈ d.
Proof.
  induction d as [|[k' v'] d IH]; simpl; [discriminate|].
  destruct (decide (k' = k)) as [->|Hne]; intros Hget.
  - injection Hget as ->. left.
  - right. auto.
Qed.

Lemma dict_keys_set {V} k (v : V) d :
  dict_keys (dict_set k v d) = add_column k (dict_keys d).
Proof.
  unfold add_column, dict_keys. induction d as [|[k' v'] d IH]; csimpl; [done|].
  destruct (decide (k' = k)) as [->|Hne]; csimpl.
  - rewrite bool_decide_eq_true_2; [done|left].
  - rewrite IH. destruct (bool_decide_reflect (k ∈ d.*1)) as [Hin|Hnin].
    + rewrite bool_decide_eq_true_2; [done|by right].
    + rewrite bool_decide_eq_false_2; [done|].
      rewrite not_elem_of_cons. split; auto.
Qed.

Lemma dict_set_elem_of_ne {V} k (v : V) k' v' d :
  k' <> k -> (k', v') ∈ dict_set k v d <-> (k', v') ∈ d.
Proof.
  intros Hne. induction d as [|[k0 v0] d IH]; simpl.
  - rewrite list_elem_of_singleton. split; [intros [= -> _]; done|inversion 1].
  - destruct (decide (k0 = k)) as [->|Hne0].
    + rewrite !elem_of_cons. split; (intros [[= ? ?]|?]; [congruence|by right]).
    + rewrite !elem_of_cons, IH. done.
Qed.

Lemma cell_set_eq k v r : cell (dict_set k v r) k = v.
Proof. unfold cell. by rewrite dict_get_set_eq. Qed.

Lemma cell_set_ne k k' v r : k <> k' -> cell (dict_set k v r) k' = cell r k'.
Proof. intros. unfold cell. by rewrite dict_get_set_ne. Qed.

Lemma cell_missing r c : c ∉ dict_keys r -> cell r c = VNull.
Proof. intros Hc. unfold cell. apply dict_get_None_keys in Hc. by rewrite Hc. Qed.

Lemma cell_app_l (r1 r2 : row) c : c ∈ dict_keys r1 -> cell (r1 ++ r2) c = cell r1 c.
Proof.
  unfold cell. induction r1 as [|[k v] r1 IH]; simpl; [intros H; inversion H|].
  destruct (decide (k = c)); [done|].
  intros [?|?]%elem_of_cons; [congruence|auto].
Qed.

Lemma cell_app_r (r1 r2 : row) c : c ∉ dict_keys r1 -> cell (r1 ++ r2) c = cell r2 c.
Proof.
  unfold cell. induction r1 as [|[k v] r1 IH]; simpl; [done|].
  rewrite not_elem_of_cons. intros [? ?]. rewrite decide_False; auto.
Qed.

(** ** [unique] *)

Section unique.
Context {A : Type} `{EqDecision A}.
Implicit Types l seen : list A.

Lemma elem_of_unique_from seen l x :
  x ∈ unique_from seen l <-> x ∈ l /\ x ∉ seen.
Proof.
  revert seen; induction l as [|y l IH]; intros seen; simpl.
  - split; [inversion 1|intros [H _]; inversion H].
  - destruct (bool_decide_reflect (y ∈ seen)) as [Hin|Hnin].
    + rewrite IH, elem_of_cons. split; [intros [? ?]; auto|].
      intros [[->|?] ?]; [done|auto].
    + rewrite !elem_of_cons, IH, not_elem_of_cons.
      split.
      * intros [->|(? & ? & ?)]; auto.
      * intros [[->|?] ?]; [by left|].
        destruct (decide (x = y)); [by left|right; auto].
Qed.

Lemma elem_of_unique l x : x ∈ unique l <-> x ∈ l.
Proof.
  unfold unique. rewrite elem_of_unique_from.
  split; [by intros [? _]|intros; split; [done|apply not_elem_of_nil]].
Qed.

Lemma NoDup_unique_from seen l : NoDup (unique_from seen l).
Proof.
  revert seen; induction l as [|y l IH]; intros seen; simpl; [constructor|].
  destruct (bool_decide_reflect (y ∈ seen)); [done|].
  constructor; [|done]. rewrite elem_of_unique_from, not_elem_of_cons.
  intros [_ [? _]]; done.
Qed.

Lemma NoDup_unique l : NoDup (unique l).
Proof. apply NoDup_unique_from. Qed.




End unique.

(** ** The order on cells and keys *)

Global Instance value_le_refl : Reflexive value_le.
Proof. intros []; simpl; try lia. reflexivity. Qed.

Global Instance value_le_trans : Transitive value_le.
Proof.
  intros [] [] []; simpl; try lia; try done.
  intros; etransitivity; eassumption.
Qed.

Global Instance value_le_antisym : AntiSymm (=) value_le.
Proof.
  intros [] []; simpl; try lia; try done; intros H1 H2; f_equal; try lia.
  by apply (anti_symm String.le).
Qed.

Global Instance value_le_total : Total value_le.
Proof.
  intros [] []; simpl; try lia. apply (total String.le).
Qed.

Global Instance key_le_trans : Transitive key_le.
Proof.
  intros k1; induction k1 as [|a k1 IH]; intros [|b k2] [|c k3]; simpl; try done.
  intros [[Hab Hle1]|[-> H1]] [[Hbc Hle2]|[-> H2]].
  - left. split; [|by etransitivity]. intros ->.
    apply Hab. by apply (anti_symm value_le).
  - left; done.
  - left; done.
  - right. split; [done|]. by eapply IH.
Qed.

Global Instance key_le_total : Total key_le.
Proof.
  intros k1; induction k1 as [|a k1 IH]; intros [|b k2]; simpl; auto.
  destruct (decide (a = b)) as [->|Hne].
  - destruct (IH k2); auto.
  - destruct (total value_le a b); [left|right]; left; split; auto.
Qed.

Global Instance rows_le_trans by_cols : Transitive (rows_le by_cols).
Proof. intros r1 r2 r3. unfold rows_le. apply key_le_trans. Qed.

Global Instance rows_le_total by_cols : Total (rows_le by_cols).
Proof. intros r1 r2. unfold rows_le. apply key_le_total. Qed.

Lemma sort_values_Ok by_cols df df' :
  sort_values by_cols df = Ok df' ->
  Forall (fun c => c ∈ columns df) by_cols /\
  columns df' = columns df /\
  rows df' = merge_sort (rows_le by_cols) (rows df).
Proof.
  unfold sort_values.
  destruct (filter _ by_cols) as [|c l] eqn:Hf; [|discriminate].
  intros [= <-]. split; [|done].
  apply Forall_forall. intros c Hc.
  destruct (decide (c ∈ columns df)) as [|Hn]; [done|].
  assert (c ∈ filter (fun c => c ∉ columns df) by_cols) as Hin
    by (apply list_elem_of_filter; done).
  rewrite Hf in Hin. inversion Hin.
Qed.

(** ** [groupby] *)

Lemma elem_of_groupby by_cols rs k g :
  (k, g) ∈ groupby by_cols rs <->
  g = filter (fun r => row_key by_cols r = k) (filter (keyed by_cols) rs)
  /\ exists r, r ∈ rs /\ keyed by_cols r /\ row_key by_cols r = k.
Proof.
  unfold groupby. rewrite list_elem_of_fmap. split.
  - intros (k' & [= -> ->] & Hk). split; [done|].
    rewrite merge_sort_Permutation, elem_of_unique, list_elem_of_fmap in Hk.
    destruct Hk as (r & -> & Hr). apply list_elem_of_filter in Hr as [? ?].
    eauto.
  - intros [-> (r & Hr & Hkeyed & <-)]. eexists; split; [done|].
    rewrite merge_sort_Permutation, elem_of_unique, list_elem_of_fmap.
    exists r. split; [done|]. by apply list_elem_of_filter.
Qed.

Lemma groupby_keys_NoDup by_cols rs : NoDup (groupby by_cols rs).*1.
Proof.
  unfold groupby. rewrite <- list_fmap_compose.
  erewrite (list_fmap_ext _ id); [|by intros]. rewrite list_fmap_id.
  rewrite merge_sort_Permutation. apply NoDup_unique.
Qed.

Lemma elem_of_concat {A} (x : A) (ls : list (list A)) :
  x ∈ concat ls <-> exists l, l ∈ ls /\ x ∈ l.
Proof.
  rewrite list_elem_of_In, in_concat. split.
  - intros (l & Hl & Hx). exists l. by rewrite !list_elem_of_In.
  - intros (l & Hl & Hx). exists l. by rewrite <- !list_elem_of_In.
Qed.

(** ** [pd.DataFrame] of a list of dictionaries *)

Lemma cell_fmap_cells (d : row) cols c :
  cell (map (fun c => (c, cell d c)) cols) c = if bool_decide (c ∈ cols) then cell d c else VNull.
Proof.
  unfold cell at 1. induction cols as [|c' cols IH].
  - case_bool_decide as Hc; [inversion Hc|done].
  - cbn [map dict_get]. destruct (decide (c' = c)) as [->|Hne].
    + by rewrite bool_decide_eq_true_2 by left.
    + rewrite IH. repeat case_bool_decide; try done.
      * exfalso. apply H0. by right.
      * apply elem_of_cons in H0 as [?|?]; congruence.
Qed.

Lemma pd_DataFrame_rows data :
  Forall2 (fun d r => forall c, cell r c = cell d c) data (rows (pd_DataFrame data)).
Proof.
  unfold pd_DataFrame. simpl. apply Forall2_fmap_r, Forall_Forall2_diag.
  apply Forall_forall. intros d Hd c. rewrite cell_fmap_cells.
  case_bool_decide as Hc; [done|]. symmetry. apply cell_missing.
  intros Hk. apply Hc, elem_of_unique, elem_of_concat.
  exists (dict_keys d). split; [|done]. by apply list_elem_of_fmap_2.
Qed.

Lemma pd_DataFrame_columns data c :
  c ∈ columns (pd_DataFrame data) <-> exists d, d ∈ data /\ c ∈ dict_keys d.
Proof.
  unfold pd_DataFrame. simpl. rewrite elem_of_unique, elem_of_concat. split.
  - intros (l & (d & -> & Hd)%list_elem_of_fmap & Hc). eauto.
  - intros (d & Hd & Hc). exists (dict_keys d). split; [|done].
    by apply list_elem_of_fmap_2.
Qed.

(** ** Strings *)

Lemma list_ascii_of_string_app s1 s2 :
  list_ascii_of_string (s1 +:+ s2) = list_ascii_of_string s1 ++ list_ascii_of_string s2.
Proof. induction s1 as [|a s1 IH]; simpl; [done|]. by rewrite IH. Qed.

Lemma rev_chars_app s1 s2 : rev_chars (s1 +:+ s2) = rev_chars s2 ++ rev_chars s1.
Proof. unfold rev_chars. by rewrite list_ascii_of_string_app, rev_app_distr. Qed.

(** Two names that end differently are different. *)
Ltac suffix_clash H :=
  apply (f_equal rev_chars) in H; rewrite ?rev_chars_app in H;
  unfold rev_chars in H; simpl in H; discriminate H.

Lemma append_inj_l s1 s2 t : s1 +:+ t = s2 +:+ t -> s1 = s2.
Proof.
  intros Heq. apply (f_equal list_ascii_of_string) in Heq.
  rewrite !list_ascii_of_string_app in Heq. apply app_inv_tail in Heq.
  apply (f_equal string_of_list_ascii) in Heq.
  by rewrite !string_of_list_ascii_of_string in Heq.
Qed.

Lemma re_sub_nonword_app s1 s2 :
  re_sub_nonword (s1 +:+ s2) = re_sub_nonword s1 +:+ re_sub_nonword s2.
Proof. induction s1 as [|a s1 IH]; simpl; [done|]. by rewrite IH. Qed.

Lemma prefix_app s1 s2 : String.prefix s1 (s1 +:+ s2) = true.
Proof.
  induction s1 as [|a s1 IH]; simpl; [by destruct s2|].
  destruct (ascii_dec a a); [done|congruence].
Qed.

(** ** Lists related pointwise *)

Lemma Forall2_elem_of_l {A B} (R : A -> B -> Prop) l k x :
  Forall2 R l k -> x ∈ l -> exists y, y ∈ k /\ R x y.
Proof.
  induction 1 as [|a b l k Hab _ IH]; [inversion 1|].
  intros [->|Hx]%elem_of_cons.
  - exists b. split; [left|done].
  - destruct (IH Hx) as (y & ? & ?). exists y. split; [by right|done].
Qed.

Lemma Forall2_elem_of_r {A B} (R : A -> B -> Prop) l k y :
  Forall2 R l k -> y ∈ k -> exists x, x ∈ l /\ R x y.
Proof.
  induction 1 as [|a b l k Hab _ IH]; [inversion 1|].
  intros [->|Hy]%elem_of_cons.
  - exists a. split; [left|done].
  - destruct (IH Hy) as (x & ? & ?). exists x. split; [by right|done].
Qed.

Lemma Forall2_compose {A B C} (R : A -> B -> Prop) (S : B -> C -> Prop)
    (Q : A -> C -> Prop) l1 l2 l3 :
  (forall x y z, R x y -> S y z -> Q x z) ->
  Forall2 R l1 l2 -> Forall2 S l2 l3 -> Forall2 Q l1 l3.
Proof.
  intros HQ H12. revert l3. induction H12; intros l3 H23; inversion H23; subst;
    constructor; eauto.
Qed.

(** A pointwise relation can be transported along a permutation of one
    side. *)
Lemma Forall2_Permutation_r {A B} (R : A -> B -> Prop) l k k' :
  Forall2 R l k -> k ≡ₚ k' -> exists l', l ≡ₚ l' /\ Forall2 R l' k'.
Proof.
  intros HR Hperm. revert l HR.
  induction Hperm as [|y k k' _ IH|y1 y2 k|k1 k2 k3 _ IH1 _ IH2]; intros l HR.
  - inversion HR; subst. exists []. split; [done|constructor].
  - inversion HR as [|x ? l0 ? Hxy Hrest]; subst.
    destruct (IH _ Hrest) as (l' & Hl & HR'). exists (x :: l').
    split; [by constructor|by constructor].
  - inversion HR as [|x1 ? l0 ? H1 Hrest]; subst.
    inversion Hrest as [|x2 ? l1 ? H2 Hrest']; subst.
    exists (x2 :: x1 :: l1). split; [apply perm_swap|by repeat constructor].
  - destruct (IH1 _ HR) as (l1 & Hl1 & HR1).
    destruct (IH2 _ HR1) as (l2 & Hl2 & HR2).
    exists l2. split; [by etransitivity|done].
Qed.

Lemma StronglySorted_Forall2 {A B} (R : relation A) (R' : relation B)
    (Q : A -> B -> Prop) l l' :
  (forall x y x' y', R x y -> Q x x' -> Q y y' -> R' x' y') ->
  StronglySorted R l -> Forall2 Q l l' -> StronglySorted R' l'.
Proof.
  intros HRR' Hs HQ. induction HQ as [|x x' l l' Hxx' HQ IH]; [constructor|].
  apply StronglySorted_inv in Hs as [Hs Hx]. constructor; [auto|].
  apply Forall_forall. intros y' Hy'.
  destruct (Forall2_elem_of_r _ _ _ _ HQ Hy') as (y & Hy & Hyy').
  rewrite Forall_forall in Hx. eauto.
Qed.

Lemma StronglySorted_omap_filter {A} (R : relation A) (P : A -> Prop)
    `{!forall x, Decision (P x)} (f : A -> option Z) l :
  (forall x y a b, R x y -> P x -> P y -> f x = Some a -> f y = Some b -> (a <= b)%Z) ->
  StronglySorted R l -> StronglySorted Z.le (omap f (filter P l)).
Proof.
  intros HR. induction 1 as [|x l Hs IH Hx]; [constructor|].
  rewrite filter_cons. destruct (decide (P x)) as [HP|HP]; [|done].
  simpl. destruct (f x) as [a|] eqn:Hfx; [|done].
  constructor; [done|]. apply Forall_forall. intros b Hb.
  apply list_elem_of_omap in Hb as (y & Hy & Hfy).
  apply list_elem_of_filter in Hy as [HPy Hy].
  rewrite Forall_forall in Hx. eauto.
Qed.

(** ** Least and greatest element of a list of integers *)

Lemma list_Z_extremes (l : list Z) :
  l <> [] ->
  exists lo hi, lo ∈ l /\ hi ∈ l /\ forall x, x ∈ l -> (lo <= x <= hi)%Z.
Proof.
  induction l as [|a l IH]; [done|]. intros _.
  destruct l as [|b l].
  - exists a, a. repeat split; [left|left|..];
      apply list_elem_of_singleton in H; lia.
  - destruct IH as (lo & hi & Hlo & Hhi & Hall); [done|].
    exists (Z.min a lo), (Z.max a hi). split; [|split].
    + destruct (Z.min_spec a lo) as [[_ ->]|[_ ->]]; [left|by right].
    + destruct (Z.max_spec a hi) as [[_ ->]|[_ ->]]; [by right|left].
    + intros x [->|Hx]%elem_of_cons; [lia|]. specialize (Hall x Hx). lia.
Qed.

Lemma floor_hour_mono a b : (a <= b)%Z -> (floor_hour a <= floor_hour b)%Z.
Proof.
  intros. unfold floor_hour.
  apply Z.mul_le_mono_nonneg_l; [lia|]. apply Z.div_le_mono; lia.
Qed.

Lemma floor_hour_offset t b t0 :
  b = floor_hour t0 ->
  floor_hour t = (b + 3600 * ((floor_hour t - b) / 3600))%Z.
Proof.
  intros ->. unfold floor_hour.
  replace (3600 * (t / 3600) - 3600 * (t0 / 3600))%Z
    with ((t / 3600 - t0 / 3600) * 3600)%Z by lia.
  rewrite Z.div_mul by lia. lia.
Qed.

(** ** [min_time] *)

Lemma min_time_cases vs :
  (min_time vs = VNull /\ forall t, VTime t ∉ vs) \/
  (exists m, min_time vs = VTime m /\ VTime m ∈ vs
             /\ forall t, VTime t ∈ vs -> (m <= t)%Z).
Proof.
  induction vs as [|v vs IH]; simpl.
  - left. split; [done|]. intros t Ht. inversion Ht.
  - destruct v as [|z|s|t|d];
      try (destruct IH as [[Hn Hnone]|(m & Hm & Hin & Hle)];
           [left; split; [done|]; intros t [?|?]%elem_of_cons; [done|by eapply Hnone]
           |right; exists m; split; [done|]; split; [by right|];
            intros t [?|?]%elem_of_cons; [done|auto]]).
    destruct IH as [[Hn Hnone]|(m & Hm & Hin & Hle)].
    + right. exists t. rewrite Hn. split; [done|]. split; [left|].
      intros t' [[= ->]|Ht']%elem_of_cons; [lia|]. by apply Hnone in Ht'.
    + right. exists (Z.min t m). rewrite Hm. split; [done|]. split.
      * destruct (Z.min_spec t m) as [[_ ->]|[_ ->]]; [left|by right].
      * intros t' [[= ->]|Ht']%elem_of_cons; [lia|]. apply Hle in Ht'. lia.
Qed.

Lemma Forall2_and_l {A B} (R : A -> B -> Prop) (P : A -> Prop) l k :
  Forall2 R l k -> Forall P l -> Forall2 (fun x y => P x /\ R x y) l k.
Proof.
  induction 1; intros HP; [constructor|].
  apply Forall_cons in HP as [? ?]. constructor; auto.
Qed.

Lemma Forall2_elem_l {A B} (R : A -> B -> Prop) l k :
  Forall2 R l k -> Forall2 (fun x y => x ∈ l /\ R x y) l k.
Proof.
  intros HR. apply Forall2_and_l; [done|]. by apply Forall_forall.
Qed.

Lemma length_omap_total {A B} (f : A -> option B) l :
  Forall (fun x => is_Some (f x)) l -> length (omap f l) = length l.
Proof.
  induction 1 as [|x l [y Hy] _ IH]; [done|]. simpl. rewrite Hy. simpl. f_equal. exact IH.
Qed.

Lemma foldM_concat {A S} (f : S -> A -> result S) s (ls : list (list A)) :
  foldM f s (concat ls) = foldM (fun s l => foldM f s l) s ls.
Proof.
  revert s; induction ls as [|l ls IH]; intros s; simpl; [done|].
  rewrite foldM_app. destruct (foldM f s l); simpl; auto.
Qed.

Lemma foldM_map {A B S} (f : S -> B -> result S) (g : A -> B) s l :
  foldM f s (map g l) = foldM (fun s x => f s (g x)) s l.
Proof.
  revert s; induction l as [|x l IH]; intros s; simpl; [done|].
  destruct (f s (g x)); simpl; auto.
Qed.

Lemma foldM_ext {A S} (f g : S -> A -> result S) s l :
  (forall s x, f s x = g s x) -> foldM f s l = foldM g s l.
Proof.
  intros Hfg. revert s; induction l as [|x l IH]; intros s; simpl; [done|].
  rewrite Hfg. destruct (g s x); simpl; auto.
Qed.

(** The last write to a key decides its value: every step either keeps the
    key or writes [v], and some step writes [v]. *)
Lemma foldM_last_write {A} (f : row -> A -> result row) key v l (rd rd' : row) :
  foldM f rd l = Ok rd' ->
  (forall x rd1 rd2, x ∈ l -> f rd1 x = Ok rd2 ->
     dict_get key rd2 = dict_get key rd1 \/ dict_get key rd2 = Some v) ->
  (dict_get key rd = Some v \/
   exists x, x ∈ l /\ forall rd1 rd2, f rd1 x = Ok rd2 -> dict_get key rd2 = Some v) ->
  dict_get key rd' = Some v.
Proof.
  revert rd. induction l as [|x l IH]; simpl; intros rd Hfold Hstep Hhit.
  - injection Hfold as <-. destruct Hhit as [?|(x & Hx & _)]; [done|inversion Hx].
  - apply bind_Ok in Hfold as (rd1 & H1 & Hfold).
    apply (IH rd1); [done|intros; eapply Hstep; [by right|done]|].
    destruct Hhit as [Hrd|(y & [->|Hy]%elem_of_cons & Hw)].
    + left. destruct (Hstep x rd rd1) as [Heq|?]; [left|done| |done]. congruence.
    + left. eauto.
    + right. eauto.
Qed.

Lemma append_assoc s1 s2 s3 : (s1 +:+ s2) +:+ s3 = s1 +:+ (s2 +:+ s3).
Proof.
  induction s1 as [|a s1 IH]; [done|].
  change (String a ((s1 +:+ s2) +:+ s3) = String a (s1 +:+ (s2 +:+ s3))).
  by rewrite IH.
Qed.

(** Counting the members of a duplicate-free list inside another one. *)
Lemma sum_indicator (A B : list string) (f : string -> Z) :
  NoDup A -> NoDup B -> (forall x, x ∈ B -> x ∈ A) ->
  (forall x, x ∈ A -> f x = if bool_decide (x ∈ B) then 1%Z else 0%Z) ->
  fold_right Z.add 0%Z (map f A) = Z.of_nat (length B).
Proof.
  intros HA HB Hsub Hf.
  assert (fold_right Z.add 0%Z (map f A)
          = Z.of_nat (length (filter (fun x => x ∈ B) A))) as ->.
  { clear HA Hsub. induction A as [|a A IH]; [done|].
    rewrite filter_cons. cbn [map fold_right].
    rewrite IH by (intros; apply Hf; by right).
    rewrite (Hf a) by left.
    destruct (decide (a ∈ B)).
    - rewrite bool_decide_eq_true_2 by done. simpl length. lia.
    - rewrite bool_decide_eq_false_2 by done. lia. }
  f_equal. apply Permutation_length, NoDup_Permutation; [|done|].
  - by apply NoDup_filter.
  - intros x. rewrite list_elem_of_filter. split; [tauto|]. auto.
Qed.

Lemma bind_ext {A B} (m : result A) (f g : A -> result B) :
  (forall a, m = Ok a -> f a = g a) -> m ≫= f = m ≫= g.
Proof. destruct m; simpl; auto. Qed.

(** ** Failure *)

Lemma not_ok_Raise {A} (m : result A) : is_ok m = false -> exists e, m = Raise e.
Proof. destruct m; [discriminate|eauto]. Qed.

Lemma bind_not_ok_l {A B} (m : result A) (f : A -> result B) :
  is_ok m = false -> is_ok (m ≫= f) = false.
Proof. by destruct m. Qed.

Lemma bind_not_ok_r {A B} (m : result A) (f : A -> result B) :
  (forall a, is_ok (f a) = false) -> is_ok (m ≫= f) = false.
Proof. destruct m; simpl; auto. Qed.

Lemma traverse_not_ok {A B} (f : A -> result B) l x :
  x ∈ l -> is_ok (f x) = false -> is_ok (traverse f l) = false.
Proof.
  intros Hx Hbad. induction l as [|y l IH]; [inversion Hx|].
  simpl. apply elem_of_cons in Hx as [->|Hx].
  - by apply bind_not_ok_l.
  - apply bind_not_ok_r. intros b. apply bind_not_ok_l. auto.
Qed.

Lemma filter_none {A} (P : A -> Prop) `{forall x, Decision (P x)} l :
  Forall (fun x => ~ P x) l -> filter P l = [].
Proof.
  induction 1 as [|x l Hx _ IH]; [done|]. by rewrite filter_cons_False.
Qed.

(** ** Nested lists *)

Lemma concat_map_singleton {A} (l : list A) : concat (map (fun x => [x]) l) = l.
Proof. induction l as [|x l IH]; simpl; [done|by f_equal]. Qed.

Lemma concat_map_concat {A B} (f : A -> list B) (ls : list (list A)) :
  concat (map f (concat ls)) = concat (map (fun l => concat (map f l)) ls).
Proof.
  induction ls as [|l ls IH]; simpl; [done|].
  by rewrite map_app, concat_app, IH.
Qed.

Lemma filter_concat_map {A B} (P : B -> Prop) `{!forall x, Decision (P x)}
    (f : A -> list B) (l : list A) :
  filter P (concat (map f l)) = concat (map (fun x => filter P (f x)) l).
Proof.
  induction l as [|x l IH]; simpl; [done|]. by rewrite filter_app, IH.
Qed.

Lemma concat_map_nil {A B} (f : A -> list B) (l : list A) :
  Forall (fun x => f x = []) l -> concat (map f l) = [].
Proof. induction 1 as [|x l Hx _ IH]; simpl; [done|]. by rewrite Hx, IH. Qed.

Lemma traverse_total {A B} (f : A -> result B) l :
  Forall (fun x => is_ok (f x) = true) l -> exists ys, traverse f l = Ok ys.
Proof.
  induction 1 as [|x l Hx _ [ys IH]]; simpl; [eauto|].
  destruct (f x) as [y|]; [|discriminate]. simpl. rewrite IH. simpl. eauto.
Qed.

Lemma Forall2_filter {A B} (R : A -> B -> Prop) (P : A -> Prop) (Q : B -> Prop)
    `{!forall x, Decision (P x)} `{!forall y, Decision (Q y)} l k :
  (forall x y, R x y -> P x <-> Q y) ->
  Forall2 R l k -> Forall2 R (filter P l) (filter Q k).
Proof.
  intros HPQ. induction 1 as [|x y l k Hxy _ IH]; [constructor|].
  rewrite !filter_cons. destruct (decide (P x)) as [HP|HP].
  - rewrite decide_True by (by apply (HPQ x y)). by constructor.
  - rewrite decide_False by (by rewrite <- (HPQ x y)). done.
Qed.

Lemma Forall2_map_eq {A B C} (R : A -> B -> Prop) (f : A -> C) (g : B -> C) l k :
  (forall x y, R x y -> f x = g y) -> Forall2 R l k -> map f l = map g k.
Proof. intros Hfg. induction 1; simpl; [done|]. f_equal; auto. Qed.


Lemma keys_of_cells {A} (name : A -> string) (f : A -> value) (l : list A) :
  dict_keys (map (fun c => (name c, f c)) l) = map name l.
Proof. unfold dict_keys. induction l as [|c l IH]; simpl; [done|by f_equal]. Qed.


Lemma filter_all {A} (P : A -> Prop) `{!forall x, Decision (P x)} l :
  Forall P l -> filter P l = l.
Proof.
  induction 1 as [|x l Hx _ IH]; [done|]. by rewrite filter_cons_True, IH.
Qed.




Lemma filter_ext_elem {A} (P Q : A -> Prop) `{!forall x, Decision (P x)}
    `{!forall x, Decision (Q x)} (l : list A) :
  (forall x, x ∈ l -> P x <-> Q x) -> filter P l = filter Q l.
Proof.
  induction l as [|x l IH]; intros HPQ; [done|].
  rewrite !filter_cons, IH by (intros; apply HPQ; by right).
  destruct (decide (P x)) as [HP|HP].
  - rewrite decide_True; [done|]. apply HPQ; [left|done].
  - rewrite decide_False; [done|]. rewrite <- HPQ; [done|left].
Qed.

(** ** The minute key *)



(** * The hourly aggregator *)

Lemma filter_add_column (P : string -> Prop) `{!forall c, Decision (P c)} c cols :
  ~ P c -> filter P (add_column c cols) = filter P cols.
Proof.
  intros HP. unfold add_column. case_bool_decide; [done|].
  rewrite filter_app, filter_cons, decide_False by done.
  by rewrite filter_nil, app_nil_r.
Qed.

Lemma elem_of_add_column c c' cols :
  c' ∈ add_column c cols <-> c' = c \/ c' ∈ cols.
Proof.
  unfold add_column. case_bool_decide.
  - split; [by right|]. intros [->|?]; done.
  - rewrite elem_of_app, list_elem_of_singleton. tauto.
Qed.

Lemma assignM_Ok c f df df' :
  assignM c f df = Ok df' ->
  columns df' = add_column c (columns df) /\
  Forall2 (fun r r' => exists v, f r = Ok v /\ r' = dict_set c v r) (rows df) (rows df').
Proof.
  unfold assignM. intros (rs & Hrs & [= <-])%bind_Ok. split; [done|].
  apply traverse_Ok in Hrs. simpl.
  eapply Forall2_impl; [exact Hrs|]. simpl. intros r r' (v & Hv & [= <-])%bind_Ok.
  eauto.
Qed.

Lemma add_hour_columns_columns wide df :
  add_hour_columns wide = Ok df -> columns df = hour_columns (columns wide).
Proof.
  unfold add_hour_columns.
  intros (df1 & H1 & Hrest)%bind_Ok.
  destruct (has_column df1 "first_event_hour"); [discriminate|].
  apply bind_Ok in Hrest as (df2 & H2 & [= <-]).
  apply assignM_Ok in H1 as [Hc1 _]. apply assignM_Ok in H2 as [Hc2 _].
  simpl in *. unfold hour_columns. by rewrite Hc2, Hc1.
Qed.

Lemma non_agg_columns_hour cols cfg :
  non_agg_columns_of (hour_columns cols) cfg = non_agg_columns_of cols cfg.
Proof.
  unfold non_agg_columns_of, hour_columns, group_cols.
  rewrite !filter_add_column; [done|..]; intros (_ & Hg & ? & ? & ? & ? & ?);
    first [congruence | apply Hg; rewrite !elem_of_cons; tauto].
Qed.

(** ** The hour columns *)

Lemma dt_floor_hour_Ok (w : row) v :
  dt_floor_hour (cell w "event_time") = Ok v -> v = floor_cell w.
Proof.
  unfold floor_cell. destruct (cell w "event_time"); simpl; congruence.
Qed.

Lemma floored_column ws rows1 hosp :
  Forall2 (fun w r1 => exists v, dt_floor_hour (cell w "event_time") = Ok v
                                 /\ r1 = dict_set "event_time_hour" v w) ws rows1 ->
  column_values "event_time_hour"
    (filter (fun r => cell r "hospitalization_id" = hosp) rows1)
  = map floor_cell (filter (fun w => cell w "hospitalization_id" = hosp) ws).
Proof.
  unfold column_values.
  induction 1 as [|w r1 ws rows1 (v & Hv & ->) _ IH]; [done|].
  rewrite !filter_cons, cell_set_ne by discriminate.
  destruct (decide (cell w "hospitalization_id" = hosp)); [|done].
  cbn [map]. rewrite cell_set_eq. f_equal; [by apply dt_floor_hour_Ok|exact IH].
Qed.

Lemma add_hour_columns_rows wide df :
  add_hour_columns wide = Ok df ->
  Forall2 (fun w r => exists t b,
      cell w "event_time" = VTime t /\
      cell w "hospitalization_id" <> VNull /\
      first_hour (rows wide) (cell w "hospitalization_id") = VTime b /\
      cell r "event_time_hour" = VTime (floor_hour t) /\
      cell r "nth_hour" = VInt ((floor_hour t - b) / 3600) /\
      forall c, c ∉ hour_names -> cell r c = cell w c)
    (rows wide) (rows df).
Proof.
  unfold add_hour_columns.
  intros (df1 & H1 & Hrest)%bind_Ok.
  destruct (has_column df1 "first_event_hour"); [discriminate|].
  apply bind_Ok in Hrest as (df3 & H3 & [= <-]).
  apply assignM_Ok in H1 as [_ H1]. apply assignM_Ok in H3 as [_ H3].
  simpl in *. apply Forall2_fmap_r. apply Forall2_fmap_l in H3.
  eapply Forall2_compose; [|exact H1|exact H3].
  intros w r1 r3 (v & Hv & ->) (v3 & Hv3 & ->).
  repeat (progress (rewrite ?cell_set_eq, ?cell_set_ne in Hv3 by discriminate)).
  apply dt_floor_hour_Ok in Hv as Hfc. subst v.
  unfold first_event_hour_of in Hv3. rewrite (floored_column _ _ _ H1) in Hv3.
  fold (first_hour (rows wide) (cell w "hospitalization_id")) in Hv3.
  unfold floor_cell in Hv3 |- *.
  destruct (cell w "event_time") as [| | |t|] eqn:Ht; try discriminate.
  destruct (cell w "hospitalization_id") as [| | | |] eqn:Hh; simpl in Hv3;
    try discriminate;
    (destruct (first_hour _ _) as [| | |b|] eqn:Hb; try discriminate;
     injection Hv3 as <-; exists t, b;
     repeat split; try done;
     [by repeat (progress (rewrite ?cell_set_eq, ?cell_set_ne by discriminate))
     |by repeat (progress (rewrite ?cell_set_eq, ?cell_set_ne by discriminate))
     |intros c Hc; unfold hour_names in Hc;
      repeat (apply not_elem_of_cons in Hc as [? Hc]);
      by rewrite !cell_set_ne by done]).
Qed.

Lemma first_hour_spec ws hosp b :
  first_hour ws hosp = VTime b ->
  (exists w t, w ∈ ws /\ cell w "hospitalization_id" = hosp
               /\ cell w "event_time" = VTime t /\ b = floor_hour t) /\
  (forall w t, w ∈ ws -> cell w "hospitalization_id" = hosp ->
               cell w "event_time" = VTime t -> (b <= floor_hour t)%Z).
Proof.
  unfold first_hour. intros Hb.
  destruct (min_time_cases
              (map floor_cell (filter (fun w => cell w "hospitalization_id" = hosp) ws)))
    as [[Hn _]|(m & Hm & Hin & Hle)]; [congruence|].
  rewrite Hm in Hb. injection Hb as ->. split.
  - apply list_elem_of_fmap in Hin as (w & Hw & Hin).
    apply list_elem_of_filter in Hin as [Hh Hin].
    unfold floor_cell in Hw. destruct (cell w "event_time") as [| | |t|] eqn:Ht;
      try discriminate. injection Hw as ->. exists w, t. done.
  - intros w t Hw Hh Ht. apply Hle. apply list_elem_of_fmap. exists w.
    split; [unfold floor_cell; by rewrite Ht|]. by apply list_elem_of_filter.
Qed.

Section Aggregator.
Context `{Pandas}.

(** What a successful call went through. *)
Lemma convert_Ok_inv wide cfg out :
  (convert_wide_to_hourly wide cfg).2 = Ok out ->
  Forall (fun c => c ∈ columns wide) required_wide_columns /\
  exists df rds hourly,
    let non_agg := non_agg_columns_of (columns wide) cfg in
    let cfg' := extend_first non_agg cfg in
    add_hour_columns wide = Ok df /\
    (convert_wide_to_hourly wide cfg).1 = cfg' /\
    traverse (aggregate_group cfg' non_agg (columns df))
             (groupby group_cols (rows df)) = Ok rds /\
    sort_values ["hospitalization_id"; "nth_hour"] (pd_DataFrame rds) = Ok hourly /\
    fill_one_hot cfg' hourly = Ok out.
Proof.
  unfold convert_wide_to_hourly, has_column, required_wide_columns.
  repeat case_bool_decide; simpl; try discriminate.
  destruct (add_hour_columns wide) as [df|e] eqn:Hdf; simpl; [|discriminate].
  rewrite (add_hour_columns_columns _ _ Hdf), non_agg_columns_hour.
  rewrite <- (add_hour_columns_columns _ _ Hdf).
  intros (rds & Hrds & (hourly & Hsort & Hfill)%bind_Ok)%bind_Ok.
  split; [repeat constructor; done|].
  exists df, rds, hourly. auto.
Qed.

(** A missing required column raises the validation error, whatever the
    configuration. *)
Lemma convert_missing_column wide cfg :
  ~ Forall (fun c => c ∈ columns wide) required_wide_columns ->
  exists msg, convert_wide_to_hourly wide cfg = (cfg, Raise (ValueError msg)).
Proof.
  unfold convert_wide_to_hourly, has_column, required_wide_columns.
  rewrite !Forall_cons, Forall_nil.
  repeat case_bool_decide; simpl; eauto. tauto.
Qed.

(** ** The extended configuration *)

Lemma extend_first_get non_agg cfg :
  non_agg <> [] ->
  dict_get "first" (extend_first non_agg cfg)
  = Some (default [] (dict_get "first" cfg) ++ non_agg).
Proof.
  intros Hne. unfold extend_first. destruct non_agg as [|c non_agg]; [done|].
  rewrite dict_get_set_eq. case_bool_decide as Hin; [done|].
  apply dict_get_None_keys in Hin. by rewrite Hin, dict_get_set_eq.
Qed.

Lemma extend_first_elem_of non_agg cfg m cols :
  m <> "first" -> (m, cols) ∈ extend_first non_agg cfg <-> (m, cols) ∈ cfg.
Proof.
  intros Hm. unfold extend_first. destruct non_agg as [|c non_agg]; [done|].
  rewrite dict_set_elem_of_ne by done.
  case_bool_decide; [done|]. by rewrite dict_set_elem_of_ne.
Qed.

(** ** Which keys a reduction writes *)

Lemma fold_dict_set_frame {A} (name : A -> string) (v0 : value) vals (rd : row) k :
  k ∉ map name vals ->
  dict_get k (fold_left (fun rd val => dict_set (name val) v0 rd) vals rd)
  = dict_get k rd.
Proof.
  revert rd; induction vals as [|x vals IH]; intros rd Hk; simpl; [done|].
  apply not_elem_of_cons in Hk as [Hx Hk].
  rewrite IH by done. by apply dict_get_set_ne.
Qed.

Lemma fold_dict_set_hit {A} (name : A -> string) (v0 : value) vals (rd : row) k :
  k ∈ map name vals ->
  dict_get k (fold_left (fun rd val => dict_set (name val) v0 rd) vals rd)
  = Some v0.
Proof.
  revert rd; induction vals as [|x vals IH]; intros rd Hk; simpl; [inversion Hk|].
  destruct (decide (k ∈ map name vals)) as [Hin|Hnin]; [by apply IH|].
  apply elem_of_cons in Hk as [->|?]; [|done].
  rewrite fold_dict_set_frame by done. apply dict_get_set_eq.
Qed.

Lemma elem_of_map_unique {A B} `{EqDecision A} (f : A -> B) l y :
  y ∈ map f (unique l) <-> y ∈ map f l.
Proof.
  rewrite !list_elem_of_fmap. by setoid_rewrite elem_of_unique.
Qed.

Lemma aggregate_column_frame na cols g m c rd rd' k :
  aggregate_column na cols g m c rd = Ok rd' ->
  k ∉ written_keys na cols g m c ->
  dict_get k rd' = dict_get k rd.
Proof.
  unfold aggregate_column, written_keys.
  case_bool_decide; [by intros [= <-]|].
  destruct (method_of_name m) as [[]|]; simpl;
    try (intros (v & _ & [= <-])%bind_Ok Hk; apply not_elem_of_cons in Hk as [Hk _];
         by apply dict_get_set_ne);
    try (intros [= <-] Hk; apply not_elem_of_cons in Hk as [Hk _];
         by apply dict_get_set_ne).
  - case_bool_decide; intros [= <-] Hk; apply not_elem_of_cons in Hk as [Hk _];
      by apply dict_get_set_ne.
  - intros [= <-] Hk. apply fold_dict_set_frame. by rewrite elem_of_map_unique.
  - by intros [= <-].
Qed.

Lemma elem_of_config_pairs cfg m c :
  (m, c) ∈ config_pairs cfg <-> exists cols, (m, cols) ∈ cfg /\ c ∈ cols.
Proof.
  unfold config_pairs. rewrite elem_of_concat. split.
  - intros (l & ([m' cols] & -> & Hentry)%list_elem_of_fmap & Hin).
    apply list_elem_of_fmap in Hin as (c' & [= -> ->] & Hc). eauto.
  - intros (cols & Hentry & Hc). exists (map (fun col => (m, col)) cols). split.
    + apply list_elem_of_fmap. by exists (m, cols).
    + by apply list_elem_of_fmap_2.
Qed.

Lemma apply_aggregations_frame cfg na cols g rd rd' k :
  apply_aggregations cfg na cols g rd = Ok rd' ->
  (forall m c, (m, c) ∈ config_pairs cfg -> k ∉ written_keys na cols g m c) ->
  dict_get k rd' = dict_get k rd.
Proof.
  unfold apply_aggregations. intros Hfold Hk.
  eapply (foldM_ind (fun rd' => dict_get k rd' = dict_get k rd)); [|done|exact Hfold].
  intros rd1 [m mcols] rd2 Hentry Hrd1 Hinner. simpl in Hinner.
  eapply (foldM_ind (fun rd' => dict_get k rd' = dict_get k rd)); [|exact Hrd1|exact Hinner].
  intros rd3 c rd4 Hc Hrd3 Hstep. rewrite <- Hrd3.
  eapply aggregate_column_frame; [exact Hstep|].
  apply Hk, elem_of_config_pairs. eauto.
Qed.

Lemma method_of_name_one_hot m :
  method_of_name m = Some OneHotEncode <-> m = "one_hot_encode".
Proof.
  unfold method_of_name. repeat case_decide; subst; split; try done.
Qed.

Lemma written_keys_cases na cols g m c k :
  k ∈ written_keys na cols g m c ->
  (exists suffix, suffix ∈ regular_suffixes /\ k = c +:+ suffix
                  /\ m <> "one_hot_encode") \/
  (m = "one_hot_encode" /\ c ∈ cols
   /\ k ∈ map (one_hot_name c) (dropna (column_values c g))).
Proof.
  unfold written_keys, regular_suffixes. case_bool_decide as Hc; [inversion 1|].
  destruct (method_of_name m) as [[]|] eqn:Hm; try case_bool_decide;
    try (intros ->%list_elem_of_singleton; left; eexists; split;
         [|split; [reflexivity|intros ->; discriminate]];
         rewrite !elem_of_cons; tauto).
  - intros Hk. right. by apply method_of_name_one_hot in Hm.
  - inversion 1.
Qed.

Lemma suffixed_not_base c suffix :
  suffix ∈ regular_suffixes -> c +:+ suffix ∉ base_keys.
Proof.
  unfold regular_suffixes, base_keys. intros Hs Hb.
  repeat (apply elem_of_cons in Hs as [->|Hs]);
    try (by inversion Hs);
    repeat (apply elem_of_cons in Hb as [Hb|Hb]; [suffix_clash Hb|]);
    inversion Hb.
Qed.

(** ** The dictionary of a group *)

Lemma base_row_data_cells cols k g :
  cell (base_row_data cols k g) "hospitalization_id" = k !!! 0%nat /\
  cell (base_row_data cols k g) "event_time_hour" = k !!! 1%nat /\
  cell (base_row_data cols k g) "nth_hour" = k !!! 2%nat.
Proof.
  unfold base_row_data. repeat case_bool_decide;
    rewrite ?cell_set_ne by discriminate; done.
Qed.

Lemma base_row_data_keys cols k g key :
  key ∉ base_keys -> dict_get key (base_row_data cols k g) = None.
Proof.
  unfold base_keys, base_row_data. intros Hk.
  repeat (apply not_elem_of_cons in Hk as [? Hk]).
  repeat case_bool_decide; rewrite ?dict_get_set_ne by done;
    simpl; by rewrite !decide_False by done.
Qed.

(** ** Filling the one-hot columns *)

Lemma fill_rel_nil r : fill_rel [] r r.
Proof. intros c. split; [done|]. split; [done|]. inversion 1. Qed.

Lemma fill_rel_trans T1 T2 r1 r2 r3 :
  fill_rel T1 r1 r2 -> fill_rel T2 r2 r3 -> fill_rel (T1 ++ T2) r1 r3.
Proof.
  intros H12 H23 c. destruct (H12 c) as (Ha & Hb & Hc), (H23 c) as (Ha' & Hb' & Hc').
  split; [|split].
  - intros [? ?]%not_elem_of_app. rewrite Ha', Ha; done.
  - intros z Hz. eauto.
  - intros Hin Hnull. destruct (decide (c ∈ T1)) as [Hin1|Hnin1].
    + apply Hb'. auto.
    + apply elem_of_app in Hin as [?|Hin2]; [done|].
      apply Hc'; [done|]. rewrite Ha; done.
Qed.

Lemma fill_column_Ok df c df' :
  fill_column df c = Ok df' -> c ∈ columns df ->
  columns df' = columns df /\ Forall2 (fill_rel [c]) (rows df) (rows df').
Proof.
  unfold fill_column. intros [Hcols Hrows]%assignM_Ok Hc. split.
  - rewrite Hcols. unfold add_column. by rewrite bool_decide_eq_true_2.
  - eapply Forall2_impl; [exact Hrows|]. simpl.
    intros r r' (v & Hv & ->) c'. unfold fillna0_astype_int in Hv.
    destruct (decide (c' = c)) as [->|Hne].
    + rewrite cell_set_eq. split; [intros Hn; exfalso; apply Hn; left|].
      split.
      * intros z Hz. rewrite Hz, astype_int_int in Hv. congruence.
      * intros _ Hz. rewrite Hz, astype_int_int in Hv. congruence.
    + rewrite cell_set_ne by done. split; [done|]. split; [done|].
      intros Hin. apply list_elem_of_singleton in Hin. done.
Qed.

Lemma fill_columns_Ok L df df' :
  foldM fill_column df L = Ok df' -> Forall (fun c => c ∈ columns df) L ->
  columns df' = columns df /\ Forall2 (fill_rel L) (rows df) (rows df').
Proof.
  revert df. induction L as [|c L IH]; simpl; intros df Hfold HL.
  - injection Hfold as <-. split; [done|].
    apply Forall_Forall2_diag, Forall_forall. intros; apply fill_rel_nil.
  - apply bind_Ok in Hfold as (df1 & H1 & Hfold).
    apply Forall_cons in HL as [Hc HL].
    apply fill_column_Ok in H1 as [Hc1 Hr1]; [|done].
    apply IH in Hfold as [Hc2 Hr2]; [|by rewrite Hc1].
    split; [congruence|].
    eapply Forall2_compose; [|exact Hr1|exact Hr2].
    intros. by apply (fill_rel_trans [c] L x y z).
Qed.

Lemma fill_sources_Ok cols_list df df' :
  foldM (fun df col => foldM fill_column df (targets_of (columns df) col))
        df cols_list = Ok df' ->
  columns df' = columns df /\
  Forall2 (fill_rel (concat (map (targets_of (columns df)) cols_list)))
          (rows df) (rows df').
Proof.
  revert df. induction cols_list as [|col L IH]; simpl; intros df Hfold.
  - injection Hfold as <-. split; [done|].
    apply Forall_Forall2_diag, Forall_forall. intros; apply fill_rel_nil.
  - apply bind_Ok in Hfold as (df1 & H1 & Hfold).
    apply fill_columns_Ok in H1 as [Hc1 Hr1].
    2:{ apply Forall_forall. intros c Hc. unfold targets_of in Hc.
        by apply list_elem_of_filter in Hc as [_ ?]. }
    apply IH in Hfold as [Hc2 Hr2]. rewrite Hc1 in Hr2.
    split; [congruence|].
    eapply Forall2_compose; [|exact Hr1|exact Hr2].
    intros. by eapply fill_rel_trans.
Qed.

Lemma fill_one_hot_Ok cfg df df' :
  fill_one_hot cfg df = Ok df' ->
  columns df' = columns df /\
  Forall2 (fill_rel (fill_targets (columns df) cfg)) (rows df) (rows df').
Proof.
  unfold fill_one_hot, fill_targets.
  revert df. induction cfg as [|entry cfg IH]; simpl; intros df Hfold.
  - injection Hfold as <-. split; [done|].
    apply Forall_Forall2_diag, Forall_forall. intros; apply fill_rel_nil.
  - apply bind_Ok in Hfold as (df1 & H1 & Hfold).
    apply IH in Hfold as [Hc2 Hr2].
    destruct (decide (entry.1 = "one_hot_encode")).
    + apply fill_sources_Ok in H1 as [Hc1 Hr1]. rewrite Hc1 in Hr2.
      split; [congruence|].
      eapply Forall2_compose; [|exact Hr1|exact Hr2].
      intros. by eapply fill_rel_trans.
    + injection H1 as <-. done.
Qed.

Lemma elem_of_one_hot_sources cfg col :
  col ∈ one_hot_sources cfg <-> exists cols, ("one_hot_encode", cols) ∈ cfg /\ col ∈ cols.
Proof.
  unfold one_hot_sources. rewrite list_elem_of_fmap. split.
  - intros ([m c] & -> & [Hm Hin]%list_elem_of_filter). simpl in *. subst m.
    by apply elem_of_config_pairs.
  - intros Hex. exists ("one_hot_encode", col). split; [done|].
    apply list_elem_of_filter. split; [done|]. by apply elem_of_config_pairs.
Qed.

Lemma elem_of_fill_targets cols cfg c :
  c ∈ fill_targets cols cfg <->
  c ∈ cols /\ exists col, col ∈ one_hot_sources cfg /\ startswith c (col +:+ "_") = true.
Proof.
  unfold fill_targets. rewrite elem_of_concat. split.
  - intros (l & ([m mcols] & -> & Hentry)%list_elem_of_fmap & Hc). simpl in Hc.
    destruct (decide (m = "one_hot_encode")) as [->|]; [|inversion Hc].
    apply elem_of_concat in Hc as (l & (col & -> & Hcol)%list_elem_of_fmap & Hc).
    apply list_elem_of_filter in Hc as [Hs Hc]. split; [done|].
    exists col. split; [|done]. apply elem_of_one_hot_sources. eauto.
  - intros (Hc & col & (mcols & Hentry & Hcol)%elem_of_one_hot_sources & Hs).
    exists (concat (map (targets_of cols) mcols)). split.
    + apply list_elem_of_fmap. exists ("one_hot_encode", mcols). split; [|done].
      reflexivity.
    + apply elem_of_concat. exists (targets_of cols col). split.
      * by apply list_elem_of_fmap_2.
      * apply list_elem_of_filter. done.
Qed.

(** ** From the groups to the rows of the result *)

Lemma one_hot_sources_extend_first na cfg col :
  col ∈ one_hot_sources (extend_first na cfg) <-> col ∈ one_hot_sources cfg.
Proof.
  rewrite !elem_of_one_hot_sources.
  by setoid_rewrite (extend_first_elem_of na cfg "one_hot_encode").
Qed.

Lemma hourly_rows wide cfg df out :
  add_hour_columns wide = Ok df ->
  (convert_wide_to_hourly wide cfg).2 = Ok out ->
  (exists rows0,
     StronglySorted (rows_le ["hospitalization_id"; "nth_hour"]) rows0 /\
     Forall2 (fun r0 r => exists g, row_chain wide cfg df out g r0 r)
             rows0 (rows out)) /\
  (exists gs, gs ≡ₚ groupby group_cols (rows df)
              /\ Forall2 (fun g r => exists r0, row_chain wide cfg df out g r0 r)
                         gs (rows out)) /\
  (forall c, c ∈ columns out <->
             exists g rd, g ∈ groupby group_cols (rows df) /\
               aggregate_group (extend_first (non_agg_columns_of (columns wide) cfg) cfg)
                 (non_agg_columns_of (columns wide) cfg) (columns df) g = Ok rd /\
               c ∈ dict_keys rd).
Proof.
  intros Hdf Hout.
  apply convert_Ok_inv in Hout as (_ & df' & rds & hourly & Hdf' & _ & Hrds & Hsort & Hfill).
  rewrite Hdf in Hdf'. injection Hdf' as <-.
  set (na := non_agg_columns_of (columns wide) cfg) in *.
  set (cfg' := extend_first na cfg) in *.
  apply traverse_Ok, Forall2_elem_l in Hrds.
  apply sort_values_Ok in Hsort as (_ & Hcols & Hrows).
  apply fill_one_hot_Ok in Hfill as [Hcols' Hfill].
  pose proof (pd_DataFrame_rows rds) as Hnorm.
  assert (forall c, c ∈ fill_targets (columns hourly) cfg' <->
                    c ∈ columns out /\
                    exists col, col ∈ one_hot_sources cfg
                                /\ startswith c (col +:+ "_") = true) as HT.
  { intros c. rewrite elem_of_fill_targets, Hcols'.
    split; intros (Hc & col & Hcol & Hs); (split; [done|]); exists col;
      (split; [|done]); by apply (one_hot_sources_extend_first na cfg). }
  assert (Forall2 (fun g r0 => exists rd,
                     g ∈ groupby group_cols (rows df) /\
                     aggregate_group cfg' na (columns df) g = Ok rd /\
                     forall c, cell r0 c = cell rd c)
                  (groupby group_cols (rows df)) (rows (pd_DataFrame rds))) as Hgr.
  { eapply Forall2_compose; [|exact Hrds|exact Hnorm].
    intros g rd r0 [Hg Hagg] Hcells. eauto. }
  assert (rows (pd_DataFrame rds) ≡ₚ rows hourly) as Hperm
    by (rewrite Hrows; symmetry; apply merge_sort_Permutation).
  destruct (Forall2_Permutation_r _ _ _ _ Hgr Hperm) as (gs & Hgs & Hgs2).
  split; [|split].
  - exists (rows hourly). split.
    { rewrite Hrows. apply StronglySorted_merge_sort; apply _. }
    apply Forall2_flip in Hgs2.
    assert (Forall (fun r0 => exists g rd,
                      g ∈ groupby group_cols (rows df) /\
                      aggregate_group cfg' na (columns df) g = Ok rd /\
                      forall c, cell r0 c = cell rd c) (rows hourly)) as Hall.
    { apply Forall_forall. intros r0 Hr0.
      destruct (Forall2_elem_of_l _ _ _ _ Hgs2 Hr0) as (g & _ & rd & ? & ? & ?).
      eauto. }
    eapply Forall2_impl; [apply (Forall2_and_l _ _ _ _ Hfill Hall)|].
    simpl. intros r0 r [(g & rd & ? & ? & ?) ?].
    exists g, rd, (fill_targets (columns hourly) cfg'). auto.
  - exists gs. split; [by symmetry|].
    eapply Forall2_compose; [|exact Hgs2|exact Hfill].
    intros g r0 r (rd & ? & ? & ?) ?.
    exists r0, rd, (fill_targets (columns hourly) cfg'). auto.
  - intros c. rewrite Hcols', Hcols, pd_DataFrame_columns. split.
    + intros (rd & Hrd & Hc).
      destruct (Forall2_elem_of_r _ _ _ _ Hrds Hrd) as (g & _ & Hg & Hagg). eauto.
    + intros (g & rd & Hg & Hagg & Hc).
      destruct (Forall2_elem_of_l _ _ _ _ Hrds Hg) as (rd' & Hrd' & _ & Hagg').
      rewrite Hagg in Hagg'. injection Hagg' as <-. eauto.
Qed.

(** ** The key cells of an hourly row *)

Lemma groupby_rows by_cols rs k g r :
  (k, g) ∈ groupby by_cols rs -> r ∈ g -> r ∈ rs /\ row_key by_cols r = k.
Proof.
  intros [-> _]%elem_of_groupby Hr.
  apply list_elem_of_filter in Hr as [Hk Hr].
  apply list_elem_of_filter in Hr as [_ Hr]. done.
Qed.

Lemma groupby_witness by_cols rs k g :
  (k, g) ∈ groupby by_cols rs -> exists r, r ∈ g /\ r ∈ rs /\ row_key by_cols r = k.
Proof.
  intros [-> (r & Hr & Hkeyed & Hk)]%elem_of_groupby. exists r.
  split; [|done]. apply list_elem_of_filter. split; [done|].
  by apply list_elem_of_filter.
Qed.

Lemma one_hot_names_intro cols rs cfg c v :
  c ∈ one_hot_sources cfg -> c ∈ cols -> v ∈ dropna (column_values c rs) ->
  one_hot_name c v ∈ one_hot_names cols rs cfg.
Proof.
  intros Hc Hcols Hv. unfold one_hot_names. apply elem_of_concat.
  eexists. split; [apply list_elem_of_fmap; exists c; split; [reflexivity|done]|].
  rewrite bool_decide_eq_true_2 by done. by apply list_elem_of_fmap_2.
Qed.

Lemma dropna_column_subset c (g rs : list row) v :
  (forall r, r ∈ g -> r ∈ rs) ->
  v ∈ dropna (column_values c g) -> v ∈ dropna (column_values c rs).
Proof.
  unfold dropna, column_values. intros Hsub [Hv Hin]%list_elem_of_filter.
  apply list_elem_of_filter. split; [done|].
  apply list_elem_of_fmap in Hin as (r & -> & Hr).
  apply list_elem_of_fmap. eauto.
Qed.

(** Inside a group a one-hot pair writes names of the whole frame. *)
Lemma written_one_hot_names na cfg df k g m c key :
  (k, g) ∈ groupby group_cols (rows df) ->
  (m, c) ∈ config_pairs (extend_first na cfg) ->
  m = "one_hot_encode" -> c ∈ columns df ->
  key ∈ map (one_hot_name c) (dropna (column_values c g)) ->
  key ∈ one_hot_names (columns df) (rows df) cfg.
Proof.
  intros Hg Hpair -> Hc Hkey.
  apply list_elem_of_fmap in Hkey as (v & -> & Hv).
  apply one_hot_names_intro; [|done|].
  - apply (one_hot_sources_extend_first na cfg), elem_of_one_hot_sources.
    by apply elem_of_config_pairs.
  - eapply dropna_column_subset; [|exact Hv].
    intros r Hr. by apply (groupby_rows _ _ _ _ _ Hg Hr).
Qed.

Lemma group_base_cell na cfg df g rd key :
  g ∈ groupby group_cols (rows df) ->
  aggregate_group (extend_first na cfg) na (columns df) g = Ok rd ->
  key ∈ base_keys ->
  key ∉ one_hot_names (columns df) (rows df) cfg ->
  dict_get key rd = dict_get key (base_row_data (columns df) g.1 g.2).
Proof.
  destruct g as [k g]. intros Hg Hagg Hbase Hname.
  unfold aggregate_group in Hagg. simpl in *.
  eapply apply_aggregations_frame; [exact Hagg|].
  intros m c Hpair Hw.
  apply written_keys_cases in Hw as [(suffix & Hs & -> & _)|(Hm & Hc & Hw)].
  - by apply (suffixed_not_base c suffix).
  - apply Hname. eapply written_one_hot_names; eauto.
Qed.

Lemma hour_frame_row wide df r1 :
  add_hour_columns wide = Ok df -> r1 ∈ rows df ->
  exists w t b,
    w ∈ rows wide /\
    cell w "event_time" = VTime t /\
    cell w "hospitalization_id" <> VNull /\
    first_hour (rows wide) (cell w "hospitalization_id") = VTime b /\
    cell r1 "hospitalization_id" = cell w "hospitalization_id" /\
    cell r1 "event_time_hour" = VTime (floor_hour t) /\
    cell r1 "nth_hour" = VInt ((floor_hour t - b) / 3600) /\
    forall c, c ∉ hour_names -> cell r1 c = cell w c.
Proof.
  intros Hdf Hr1. apply add_hour_columns_rows in Hdf.
  destruct (Forall2_elem_of_r _ _ _ _ Hdf Hr1)
    as (w & Hw & t & b & Ht & Hh & Hb & Heth & Hnth & Hrest).
  exists w, t, b. repeat split; try done.
  apply Hrest. unfold hour_names. rewrite !not_elem_of_cons.
  repeat split; try discriminate. apply not_elem_of_nil.
Qed.

Lemma wide_row_in_frame wide df w :
  add_hour_columns wide = Ok df -> w ∈ rows wide ->
  exists r1 t b,
    r1 ∈ rows df /\
    cell w "event_time" = VTime t /\
    cell w "hospitalization_id" <> VNull /\
    first_hour (rows wide) (cell w "hospitalization_id") = VTime b /\
    cell r1 "hospitalization_id" = cell w "hospitalization_id" /\
    cell r1 "event_time_hour" = VTime (floor_hour t) /\
    cell r1 "nth_hour" = VInt ((floor_hour t - b) / 3600) /\
    forall c, c ∉ hour_names -> cell r1 c = cell w c.
Proof.
  intros Hdf Hw. apply add_hour_columns_rows in Hdf.
  destruct (Forall2_elem_of_l _ _ _ _ Hdf Hw)
    as (r1 & Hr1 & t & b & Ht & Hh & Hb & Heth & Hnth & Hrest).
  exists r1, t, b. repeat split; try done.
  apply Hrest. unfold hour_names. rewrite !not_elem_of_cons.
  repeat split; try discriminate. apply not_elem_of_nil.
Qed.

Lemma hour_frame_keyed wide df r1 :
  add_hour_columns wide = Ok df -> r1 ∈ rows df -> keyed group_cols r1.
Proof.
  intros Hdf Hr1.
  destruct (hour_frame_row _ _ _ Hdf Hr1)
    as (w & t & b & _ & _ & Hh & _ & Hh1 & Heth & Hnth & _).
  unfold keyed, row_key, group_cols. simpl.
  rewrite Hh1, Heth, Hnth. simpl.
  destruct (cell w "hospitalization_id"); done.
Qed.

Lemma chain_key_cells wide cfg df out g r0 r :
  add_hour_columns wide = Ok df ->
  "hospitalization_id" ∉ one_hot_names (columns df) (rows df) cfg ->
  "nth_hour" ∉ one_hot_names (columns df) (rows df) cfg ->
  Forall (fun col => startswith "hospitalization_id" (col +:+ "_") = false)
         (one_hot_sources cfg) ->
  row_chain wide cfg df out g r0 r ->
  exists r1, r1 ∈ rows df /\ r1 ∈ g.2 /\
    cell r0 "hospitalization_id" = cell r1 "hospitalization_id" /\
    cell r0 "nth_hour" = cell r1 "nth_hour" /\
    cell r "hospitalization_id" = cell r1 "hospitalization_id" /\
    cell r "nth_hour" = cell r1 "nth_hour".
Proof.
  intros Hdf Hhosp Hnth Hfill (rd & T & Hg & Hagg & Hr0 & Hrel & HT).
  destruct g as [k g].
  destruct (groupby_witness _ _ _ _ Hg) as (r1 & Hr1g & Hr1 & Hk).
  pose proof (group_base_cell _ _ _ _ _ "hospitalization_id" Hg Hagg) as Hc1.
  pose proof (group_base_cell _ _ _ _ _ "nth_hour" Hg Hagg) as Hc2.
  destruct (base_row_data_cells (columns df) k g) as (Hb1 & _ & Hb2).
  assert (cell r0 "hospitalization_id" = cell r1 "hospitalization_id") as E1.
  { rewrite Hr0. unfold cell in Hb1 |- *. simpl in Hc1.
    rewrite Hc1; [|unfold base_keys; rewrite !elem_of_cons; tauto|done].
    rewrite Hb1, <- Hk. done. }
  assert (cell r0 "nth_hour" = cell r1 "nth_hour") as E2.
  { rewrite Hr0. unfold cell in Hb2 |- *. simpl in Hc2.
    rewrite Hc2; [|unfold base_keys; rewrite !elem_of_cons; tauto|done].
    rewrite Hb2, <- Hk. done. }
  exists r1. repeat split; try done.
  - destruct (Hrel "hospitalization_id") as (Hkeep & _ & _).
    rewrite Hkeep; [done|]. rewrite HT. intros (_ & col & Hcol & Hs).
    rewrite Forall_forall in Hfill. rewrite (Hfill _ Hcol) in Hs. discriminate.
  - destruct (hour_frame_row _ _ _ Hdf Hr1) as (w & t & b & _ & _ & _ & _ & _ & _ & Hn & _).
    destruct (Hrel "nth_hour") as (_ & Hint & _).
    rewrite <- E2 in Hn. rewrite (Hint _ Hn). congruence.
Qed.

(** ** [nth_hour] within a stay *)

Lemma out_row_in_frame wide cfg df out r :
  add_hour_columns wide = Ok df ->
  (convert_wide_to_hourly wide cfg).2 = Ok out ->
  "hospitalization_id" ∉ one_hot_names (columns df) (rows df) cfg ->
  "nth_hour" ∉ one_hot_names (columns df) (rows df) cfg ->
  Forall (fun col => startswith "hospitalization_id" (col +:+ "_") = false)
         (one_hot_sources cfg) ->
  r ∈ rows out ->
  exists r1, r1 ∈ rows df /\
    cell r "hospitalization_id" = cell r1 "hospitalization_id" /\
    cell r "nth_hour" = cell r1 "nth_hour".
Proof.
  intros Hdf Hout H1 H2 H3 Hr.
  destruct (hourly_rows _ _ _ _ Hdf Hout) as ((rows0 & _ & Hchain) & _ & _).
  destruct (Forall2_elem_of_r _ _ _ _ Hchain Hr) as (r0 & _ & g & Hg).
  destruct (chain_key_cells _ _ _ _ _ _ _ Hdf H1 H2 H3 Hg)
    as (r1 & Hr1 & _ & _ & _ & ? & ?).
  eauto.
Qed.

Lemma frame_row_in_out wide cfg df out r1 :
  add_hour_columns wide = Ok df ->
  (convert_wide_to_hourly wide cfg).2 = Ok out ->
  "hospitalization_id" ∉ one_hot_names (columns df) (rows df) cfg ->
  "nth_hour" ∉ one_hot_names (columns df) (rows df) cfg ->
  Forall (fun col => startswith "hospitalization_id" (col +:+ "_") = false)
         (one_hot_sources cfg) ->
  r1 ∈ rows df ->
  exists r, r ∈ rows out /\
    cell r "hospitalization_id" = cell r1 "hospitalization_id" /\
    cell r "nth_hour" = cell r1 "nth_hour".
Proof.
  intros Hdf Hout H1 H2 H3 Hr1.
  destruct (hourly_rows _ _ _ _ Hdf Hout) as (_ & (gs & Hperm & Hgs) & _).
  pose proof (hour_frame_keyed _ _ _ Hdf Hr1) as Hkeyed.
  set (g := filter (fun r => row_key group_cols r = row_key group_cols r1)
                   (filter (keyed group_cols) (rows df))).
  assert ((row_key group_cols r1, g) ∈ groupby group_cols (rows df)) as Hg
    by (apply elem_of_groupby; split; [done|]; eauto).
  rewrite <- Hperm in Hg.
  destruct (Forall2_elem_of_l _ _ _ _ Hgs Hg) as (r & Hr & r0 & Hchain).
  destruct (chain_key_cells _ _ _ _ _ _ _ Hdf H1 H2 H3 Hchain)
    as (r1' & _ & Hin & _ & _ & E1 & E2).
  simpl in Hin. apply list_elem_of_filter in Hin as [Hk _].
  exists r. split; [done|]. rewrite E1, E2.
  unfold row_key, group_cols in Hk. simpl in Hk. by injection Hk as -> _ ->.
Qed.

(** The rows of the hour frame with the key of a given one are its group. *)
Lemma hour_group_of_frame_row wide df r1 :
  add_hour_columns wide = Ok df -> r1 ∈ rows df ->
  filter (fun w => row_key group_cols w = row_key group_cols r1)
         (filter (keyed group_cols) (rows df))
  = filter (fun w => hour_key w = hour_key r1) (rows df).
Proof.
  intros Hdf Hr1.
  rewrite (filter_all (keyed group_cols))
    by (apply Forall_forall; intros w Hw; by eapply hour_frame_keyed).
  apply filter_ext_elem. intros w Hw.
  unfold row_key, group_cols, hour_key. simpl. split.
  - by intros [= -> _ ->].
  - intros [= Hh Hn]. rewrite Hh, Hn. do 2 f_equal.
    destruct (hour_frame_row _ _ _ Hdf Hw)
      as (w0 & t & b & _ & _ & _ & Hb & Hw0 & Heth & Hnth & _).
    destruct (hour_frame_row _ _ _ Hdf Hr1)
      as (w1 & t' & b' & _ & _ & _ & Hb' & Hw1 & Heth' & Hnth' & _).
    rewrite <- Hw0 in Hb. rewrite <- Hw1, <- Hh, Hb in Hb'. injection Hb' as <-.
    rewrite Hw0 in Hb.
    apply first_hour_spec in Hb as [(w2 & t0 & _ & _ & _ & Hb0) _].
    rewrite Heth, Heth'. f_equal.
    rewrite (floor_hour_offset t _ _ Hb0), (floor_hour_offset t' _ _ Hb0).
    rewrite Hnth, Hnth' in Hn. injection Hn as ->. done.
Qed.

(** The group an hourly row comes from: the rows of the hour frame with
    its stay and its [nth_hour]. *)
Lemma out_row_group wide cfg df out r :
  add_hour_columns wide = Ok df ->
  (convert_wide_to_hourly wide cfg).2 = Ok out ->
  "hospitalization_id" ∉ one_hot_names (columns df) (rows df) cfg ->
  "nth_hour" ∉ one_hot_names (columns df) (rows df) cfg ->
  Forall (fun col => startswith "hospitalization_id" (col +:+ "_") = false)
         (one_hot_sources cfg) ->
  r ∈ rows out ->
  exists k r0,
    row_chain wide cfg df out (k, hour_group df r) r0 r /\
    hour_group df r <> [].
Proof.
  intros Hdf Hout H1 H2 H3 Hr.
  destruct (hourly_rows _ _ _ _ Hdf Hout) as ((rows0 & _ & Hchain) & _ & _).
  destruct (Forall2_elem_of_r _ _ _ _ Hchain Hr) as (r0 & _ & [k g] & Hg).
  destruct (chain_key_cells _ _ _ _ _ _ _ Hdf H1 H2 H3 Hg)
    as (r1 & Hr1 & Hin & _ & _ & E1 & E2).
  pose proof Hg as (rd & T & Hgin & _). simpl in Hin.
  destruct (groupby_rows _ _ _ _ _ Hgin Hin) as [_ Hk].
  apply elem_of_groupby in Hgin as [Hgeq _].
  rewrite <- Hk, (hour_group_of_frame_row _ _ _ Hdf Hr1) in Hgeq.
  assert (g = hour_group df r) as <-.
  { rewrite Hgeq. unfold hour_group, hour_key. by rewrite E1, E2. }
  exists k, r0. split; [done|]. intros ->. inversion Hin.
Qed.

(** The rows of the hour frame are the rows of the wide table, in order,
    with the hour columns set. *)
Lemma hour_frame_rows wide df :
  add_hour_columns wide = Ok df ->
  Forall2 (fun w r1 => forall c, c ∉ hour_names -> cell r1 c = cell w c)
          (rows wide) (rows df).
Proof.
  intros Hdf. apply add_hour_columns_rows in Hdf.
  eapply Forall2_impl; [exact Hdf|]. simpl.
  by intros w r1 (t & b & _ & _ & _ & _ & _ & Hrest).
Qed.

(** C2, as amended: for a stay [hosp] of the hourly output, every row has
    an integer [nth_hour]; the least is 0; [nth_hour] does not decrease
    along the rows of the stay; and the greatest is the number of hours
    from the hour of the earliest event to the hour of the latest one,
    [(floor_hour tmax - floor_hour tmin) / 3600], not the floor of the
    elapsed time [tmax - tmin].  The key columns must not be overwritten
    by a one-hot column of the same name. *)
Theorem nth_hour_of_stay wide cfg df out hosp :
  add_hour_columns wide = Ok df ->
  (convert_wide_to_hourly wide cfg).2 = Ok out ->
  "hospitalization_id" ∉ one_hot_names (columns df) (rows df) cfg ->
  "nth_hour" ∉ one_hot_names (columns df) (rows df) cfg ->
  Forall (fun col => startswith "hospitalization_id" (col +:+ "_") = false)
         (one_hot_sources cfg) ->
  hosp ∈ column_values "hospitalization_id" (rows out) ->
  let ns := nth_hours out hosp in
  let ts := event_times wide hosp in
  length ns
    = length (filter (fun r => cell r "hospitalization_id" = hosp) (rows out)) /\
  (0 ∈ ns /\ forall n, n ∈ ns -> 0 <= n)%Z /\
  Sorted Z.le ns /\
  exists tmin tmax,
    tmin ∈ ts /\ tmax ∈ ts /\ (forall t, t ∈ ts -> tmin <= t <= tmax)%Z /\
    ((floor_hour tmax - floor_hour tmin) / 3600)%Z ∈ ns /\
    forall n, n ∈ ns -> (n <= (floor_hour tmax - floor_hour tmin) / 3600)%Z.
Proof.
  intros Hdf Hout H1 H2 H3 Hhosp ns ts.
  (* the first hour of the stay *)
  apply list_elem_of_fmap in Hhosp as (r & Hrh & Hr).
  destruct (out_row_in_frame _ _ _ _ _ Hdf Hout H1 H2 H3 Hr) as (r1 & Hr1 & E1 & _).
  destruct (hour_frame_row _ _ _ Hdf Hr1)
    as (w & t0 & b & Hw & Ht0 & _ & Hb & Hh1 & _).
  assert (cell w "hospitalization_id" = hosp) as Hwh by congruence.
  rewrite Hwh in Hb. clear r Hrh Hr r1 Hr1 E1 Hh1.
  destruct (first_hour_spec _ _ _ Hb) as ((wb & tb & Hwb & Hwbh & Hwbt & Hbeq) & Hble).
  (* membership in [ts] and [ns] *)
  assert (forall t, t ∈ ts <->
            exists w, w ∈ rows wide /\ cell w "hospitalization_id" = hosp
                      /\ cell w "event_time" = VTime t) as Hts.
  { intros t. unfold ts, event_times. rewrite list_elem_of_omap. split.
    - intros (w' & [? ?]%list_elem_of_filter & Hf).
      exists w'. destruct (cell w' "event_time"); try discriminate.
      injection Hf as ->. done.
    - intros (w' & ? & ? & Ht). exists w'.
      split; [by apply list_elem_of_filter|]. by rewrite Ht. }
  assert (forall n, n ∈ ns <->
            exists r, r ∈ rows out /\ cell r "hospitalization_id" = hosp
                      /\ cell r "nth_hour" = VInt n) as Hns0.
  { intros n. unfold ns, nth_hours. rewrite list_elem_of_omap. split.
    - intros (r & [? ?]%list_elem_of_filter & Hf).
      exists r. destruct (cell r "nth_hour"); try discriminate.
      injection Hf as ->. done.
    - intros (r & ? & ? & Hn). exists r.
      split; [by apply list_elem_of_filter|]. by rewrite Hn. }
  assert (forall n, n ∈ ns <-> exists t, t ∈ ts /\ n = ((floor_hour t - b) / 3600)%Z)
    as Hns.
  { intros n. rewrite Hns0. split.
    - intros (r & Hr & Hrh & Hrn).
      destruct (out_row_in_frame _ _ _ _ _ Hdf Hout H1 H2 H3 Hr) as (r1 & Hr1 & E1 & E2).
      destruct (hour_frame_row _ _ _ Hdf Hr1)
        as (w' & t & b' & Hw' & Ht & _ & Hb' & Hh1 & _ & Hn & _).
      assert (cell w' "hospitalization_id" = hosp) as Hw'h by congruence.
      rewrite Hw'h, Hb in Hb'. injection Hb' as <-.
      exists t. split; [apply Hts; eauto|]. congruence.
    - intros (t & (w' & Hw' & Hw'h & Ht)%Hts & ->).
      destruct (wide_row_in_frame _ _ _ Hdf Hw')
        as (r1 & t' & b' & Hr1 & Ht' & _ & Hb' & Hh1 & _ & Hn & _).
      rewrite Ht in Ht'. injection Ht' as <-.
      rewrite Hw'h, Hb in Hb'. injection Hb' as <-.
      destruct (frame_row_in_out _ _ _ _ _ Hdf Hout H1 H2 H3 Hr1) as (r & Hr & E1 & E2).
      exists r. split; [done|]. split; congruence. }
  assert (ts <> []) as Hne.
  { intros Hnil. assert (t0 ∈ ts) as Hin by (apply Hts; eauto).
    rewrite Hnil in Hin. inversion Hin. }
  destruct (list_Z_extremes ts Hne) as (tmin & tmax & Hmin & Hmax & Hbounds).
  assert (b = floor_hour tmin) as Hbmin.
  { apply Hts in Hmin as Hmin'. destruct Hmin' as (wm & Hwm & Hwmh & Hwmt).
    pose proof (Hble _ _ Hwm Hwmh Hwmt).
    assert (tb ∈ ts) as Htb by (apply Hts; eauto).
    pose proof (floor_hour_mono tmin tb (proj1 (Hbounds _ Htb))). lia. }
  split; [|split; [|split]].
  - apply length_omap_total, Forall_forall.
    intros r [Hrh Hr]%list_elem_of_filter.
    destruct (out_row_in_frame _ _ _ _ _ Hdf Hout H1 H2 H3 Hr) as (r1 & Hr1 & _ & E2).
    destruct (hour_frame_row _ _ _ Hdf Hr1) as (? & ? & ? & _ & _ & _ & _ & _ & _ & Hn & _).
    rewrite E2, Hn. eauto.
  - split.
    + apply Hns. exists tmin. split; [done|]. rewrite Hbmin, Z.sub_diag. done.
    + intros n (t & Ht & ->)%Hns. apply Z.div_pos; [|lia].
      pose proof (floor_hour_mono tmin t (proj1 (Hbounds _ Ht))). lia.
  - apply StronglySorted_Sorted.
    destruct (hourly_rows _ _ _ _ Hdf Hout) as ((rows0 & Hsorted & Hchain) & _ & _).
    eapply (StronglySorted_omap_filter
              (rows_le ["hospitalization_id"; "nth_hour"])).
    2:{ eapply (StronglySorted_Forall2 _ _ _ _ _ _ Hsorted Hchain). }
    + intros x y a c Hle Hx Hy Hfx Hfy.
      unfold rows_le, row_key in Hle. simpl in Hle.
      rewrite Hx, Hy in Hle.
      destruct (cell x "nth_hour"); try discriminate. injection Hfx as ->.
      destruct (cell y "nth_hour"); try discriminate. injection Hfy as ->.
      destruct Hle as [[? _]|[_ [[_ Hle]|[[= ->] _]]]]; [done|exact Hle|lia].
  - exists tmin, tmax. repeat split; try done; try apply Hbounds; try done.
    + apply Hns. exists tmax. split; [done|]. by rewrite Hbmin.
    + intros n (t & Ht & ->)%Hns. rewrite Hbmin.
      apply Z.div_le_mono; [lia|].
      pose proof (floor_hour_mono t tmax (proj2 (Hbounds _ Ht))). lia.
  Unshelve.
  intros x y x' y' Hle (gx & Hx) (gy & Hy).
  destruct (chain_key_cells _ _ _ _ _ _ _ Hdf H1 H2 H3 Hx) as (? & _ & _ & A1 & A2 & A3 & A4).
  destruct (chain_key_cells _ _ _ _ _ _ _ Hdf H1 H2 H3 Hy) as (? & _ & _ & B1 & B2 & B3 & B4).
  unfold rows_le, row_key in *. simpl in *.
  by rewrite A3, A4, B3, B4, <- A1, <- A2, <- B1, <- B2.
Qed.

(** ** The boolean reduction *)

Lemma apply_aggregations_flat cfg na cols g rd :
  apply_aggregations cfg na cols g rd
  = foldM (fun rd p => aggregate_column na cols g p.1 p.2 rd) rd (config_pairs cfg).
Proof.
  unfold apply_aggregations, config_pairs. rewrite foldM_concat, foldM_map.
  apply foldM_ext. intros rd' [m mcols]. simpl. by rewrite foldM_map.
Qed.

Lemma dropna_nil_iff c (g : list row) :
  dropna (column_values c g) = [] <-> ~ Exists (fun w => cell w c <> VNull) g.
Proof.
  unfold dropna, column_values. rewrite Exists_exists. split.
  - intros Hnil (w & Hw & Hc).
    assert (cell w c ∈ filter (fun v => v <> VNull) (map (fun r => cell r c) g)) as Hin
      by (apply list_elem_of_filter; split;
          [done|by apply (list_elem_of_fmap_2 (fun r => cell r c))]).
    rewrite Hnil in Hin. inversion Hin.
  - intros Hno. apply elem_of_nil_inv. intros v [Hv Hin]%list_elem_of_filter.
    apply list_elem_of_fmap in Hin as (w & -> & Hw). apply Hno. eauto.
Qed.

Lemma boolean_value c (g : list row) :
  (if bool_decide (dropna (column_values c g) = []) then 0 else 1)%Z
  = (if bool_decide (Exists (fun w => cell w c <> VNull) g) then 1 else 0)%Z.
Proof.
  pose proof (dropna_nil_iff c g). repeat case_bool_decide; tauto.
Qed.

Lemma boolean_writer na cols g m c b :
  (b +:+ "_boolean") ∈ written_keys na cols g m c ->
  (method_of_name m = Some Boolean /\ c = b /\ c ∈ cols) \/
  (m = "one_hot_encode" /\ c ∈ cols /\
   (b +:+ "_boolean") ∈ map (one_hot_name c) (dropna (column_values c g))).
Proof.
  unfold written_keys. case_bool_decide as Hc; [inversion 1|].
  destruct (method_of_name m) as [[]|] eqn:Hm; try case_bool_decide;
    try (intros Hk%list_elem_of_singleton; suffix_clash Hk).
  - intros Hk%list_elem_of_singleton. left. split; [done|].
    split; [|done]. symmetry. by apply append_inj_l in Hk.
  - intros Hk. right. by apply method_of_name_one_hot in Hm.
  - inversion 1.
Qed.

(** The cell of a boolean column in the row a group becomes. *)
Lemma boolean_chain wide cfg df out g r0 r b cols :
  row_chain wide cfg df out g r0 r ->
  ("boolean", cols) ∈ cfg -> b ∈ cols -> b ∈ columns df ->
  (b +:+ "_boolean") ∉ one_hot_names (columns df) (rows df) cfg ->
  cell r (b +:+ "_boolean")
  = VInt (if bool_decide (Exists (fun w => cell w b <> VNull) g.2)
          then 1 else 0).
Proof.
  destruct g as [k g].
  intros (rd & T & Hg & Hagg & Hr0 & Hrel & _) Hentry Hb Hbcol Hname. simpl.
  set (na := non_agg_columns_of (columns wide) cfg) in *.
  set (v := VInt (if bool_decide (Exists (fun w => cell w b <> VNull) g)
                  then 1 else 0)).
  assert (dict_get (b +:+ "_boolean") rd = Some v) as Hget.
  { unfold aggregate_group in Hagg. simpl in Hagg.
    rewrite apply_aggregations_flat in Hagg.
    eapply foldM_last_write; [exact Hagg|..].
    - intros [m c] rd1 rd2 Hpair Hstep. simpl in Hstep.
      destruct (decide ((b +:+ "_boolean") ∈ written_keys na (columns df) g m c))
        as [Hw|Hw]; [|left; by eapply aggregate_column_frame].
      right. apply boolean_writer in Hw as [(Hm & -> & Hc)|(Hm & Hc & Hw)].
      + unfold aggregate_column in Hstep.
        rewrite bool_decide_eq_false_2, Hm in Hstep by (by intros ?).
        injection Hstep as <-. rewrite dict_get_set_eq. unfold v.
        by rewrite boolean_value.
      + exfalso. apply Hname. eapply written_one_hot_names; eauto.
    - right. exists ("boolean", b). split.
      + apply elem_of_config_pairs. exists cols. split; [|done].
        by apply extend_first_elem_of.
      + intros rd1 rd2 Hstep. simpl in Hstep.
        unfold aggregate_column in Hstep.
        rewrite bool_decide_eq_false_2 in Hstep by (by intros ?).
        simpl in Hstep. injection Hstep as <-. rewrite dict_get_set_eq.
        unfold v. by rewrite boolean_value. }
  destruct (Hrel (b +:+ "_boolean")) as (_ & Hint & _).
  apply (Hint _). rewrite Hr0. unfold cell. by rewrite Hget.
Qed.

(** C5: every column [b] listed under [boolean] that is a column of the
    frame gives an output column [b_boolean].  The rows of the hour frame
    are the wide rows with the hour columns set; every stay and hour of
    the frame has an output row; and in each output row [b_boolean] is 1
    when some row of the frame with the stay and the [nth_hour] of that
    output row has a non-null [b], and 0 otherwise.  (A one-hot column of
    the name of the cell or of a key column would share the cell.) *)
Theorem boolean_column wide cfg df out b cols :
  add_hour_columns wide = Ok df ->
  (convert_wide_to_hourly wide cfg).2 = Ok out ->
  ("boolean", cols) ∈ cfg -> b ∈ cols -> b ∈ columns df ->
  (b +:+ "_boolean") ∉ one_hot_names (columns df) (rows df) cfg ->
  plain_column (columns df) (rows df) cfg "hospitalization_id" ->
  "nth_hour" ∉ one_hot_names (columns df) (rows df) cfg ->
  Forall2 (fun w r1 => forall c, c ∉ hour_names -> cell r1 c = cell w c)
          (rows wide) (rows df) /\
  (forall r1, r1 ∈ rows df ->
              exists r, r ∈ rows out /\ hour_key r = hour_key r1) /\
  Forall (fun r =>
            hour_group df r <> [] /\
            cell r (b +:+ "_boolean")
            = VInt (if bool_decide
                         (Exists (fun w => cell w b <> VNull) (hour_group df r))
                    then 1 else 0))
         (rows out).
Proof.
  intros Hdf Hout Hentry Hb Hbcol Hname [H1 H3] H2.
  split; [by apply hour_frame_rows|]. split.
  - intros r1 Hr1.
    destruct (frame_row_in_out _ _ _ _ _ Hdf Hout H1 H2 H3 Hr1)
      as (r & Hr & E1 & E2).
    exists r. split; [done|]. unfold hour_key. by rewrite E1, E2.
  - apply Forall_forall. intros r Hr.
    destruct (out_row_group _ _ _ _ _ Hdf Hout H1 H2 H3 Hr)
      as (k & r0 & Hchain & Hne).
    split; [done|].
    by apply (boolean_chain _ _ _ _ _ _ _ _ _ Hchain Hentry Hb Hbcol Hname).
Qed.

(** ** The one-hot reduction *)

Lemma written_keys_mono na cols (g rs : list row) m c key :
  (forall r, r ∈ g -> r ∈ rs) ->
  key ∈ written_keys na cols g m c -> key ∈ written_keys na cols rs m c.
Proof.
  intros Hsub. unfold written_keys. case_bool_decide; [done|].
  destruct (method_of_name m) as [[]|]; try done.
  intros (v & -> & Hv)%list_elem_of_fmap. apply list_elem_of_fmap.
  exists v. split; [done|]. by eapply dropna_column_subset.
Qed.

Lemma elem_of_hot_names c rs n :
  n ∈ hot_names c rs <-> n ∈ map (one_hot_name c) (dropna (column_values c rs)).
Proof. unfold hot_names. apply elem_of_unique. Qed.

Lemma hot_names_mono c (g rs : list row) n :
  (forall r, r ∈ g -> r ∈ rs) -> n ∈ hot_names c g -> n ∈ hot_names c rs.
Proof.
  rewrite !elem_of_hot_names. intros Hsub (v & -> & Hv)%list_elem_of_fmap.
  apply list_elem_of_fmap. exists v. split; [done|].
  by eapply dropna_column_subset.
Qed.

Lemma one_hot_name_prefix c v :
  re_sub_nonword c = c -> startswith (one_hot_name c v) (c +:+ "_") = true.
Proof.
  intros Hc. unfold startswith, one_hot_name.
  rewrite !re_sub_nonword_app, Hc, <- append_assoc. apply prefix_app.
Qed.

(** The dictionary of a group holds 1 under the one-hot names of the
    values met in the group, and nothing under the other names of [c]. *)
Lemma group_one_hot_cells na cfg df k g rd c cols n :
  (k, g) ∈ groupby group_cols (rows df) ->
  aggregate_group (extend_first na cfg) na (columns df) (k, g) = Ok rd ->
  ("one_hot_encode", cols) ∈ cfg -> c ∈ cols -> c ∈ columns df ->
  one_hot_exclusive na (columns df) (rows df) (extend_first na cfg) c ->
  n ∈ hot_names c (rows df) ->
  dict_get n rd = if bool_decide (n ∈ hot_names c g) then Some (VInt 1) else None.
Proof.
  intros Hg Hagg Hentry Hc Hccol [Hbase Hexcl] Hn.
  assert (forall r, r ∈ g -> r ∈ rows df) as Hsub
    by (intros r Hr; by apply (groupby_rows _ _ _ _ _ Hg Hr)).
  assert (forall m c', (m, c') ∈ config_pairs (extend_first na cfg) ->
            n ∈ written_keys na (columns df) g m c' ->
            (m, c') = ("one_hot_encode", c)) as Honly.
  { intros m c' Hpair Hw. rewrite Forall_forall in Hexcl.
    destruct (Hexcl _ Hpair) as [?|Hnone]; [done|]. exfalso.
    rewrite Forall_forall in Hnone.
    apply (Hnone n); [|done]. simpl. by eapply written_keys_mono. }
  unfold aggregate_group in Hagg. simpl in Hagg.
  rewrite apply_aggregations_flat in Hagg.
  case_bool_decide as Hin.
  - eapply foldM_last_write; [exact Hagg|..].
    + intros [m c'] rd1 rd2 Hpair Hstep. simpl in Hstep.
      destruct (decide (n ∈ written_keys na (columns df) g m c')) as [Hw|Hw];
        [|left; by eapply aggregate_column_frame].
      right. apply Honly in Hw as [= -> ->]; [|done].
      unfold aggregate_column in Hstep.
      rewrite bool_decide_eq_false_2 in Hstep by (by intros ?).
      simpl in Hstep. injection Hstep as <-.
      apply fold_dict_set_hit. rewrite elem_of_map_unique.
      by apply elem_of_hot_names.
    + right. exists ("one_hot_encode", c). split.
      * apply elem_of_config_pairs. exists cols. split; [|done].
        by apply extend_first_elem_of.
      * intros rd1 rd2 Hstep. simpl in Hstep. unfold aggregate_column in Hstep.
        rewrite bool_decide_eq_false_2 in Hstep by (by intros ?).
        simpl in Hstep. injection Hstep as <-.
        apply fold_dict_set_hit. rewrite elem_of_map_unique.
        by apply elem_of_hot_names.
  - rewrite <- (base_row_data_keys (columns df) k g n).
    2:{ rewrite Forall_forall in Hbase. by apply Hbase. }
    rewrite <- apply_aggregations_flat in Hagg.
    eapply apply_aggregations_frame; [exact Hagg|].
    intros m c' Hpair Hw. apply Hin.
    apply Honly in Hw as Heq; [|done]. injection Heq as -> ->.
    unfold written_keys in Hw.
    rewrite bool_decide_eq_false_2 in Hw by (by intros ?). simpl in Hw.
    by apply elem_of_hot_names.
Qed.

(** Every one-hot name of [c] met in the frame is a column of the result. *)
Lemma one_hot_cover wide cfg df out c cols :
  add_hour_columns wide = Ok df ->
  (convert_wide_to_hourly wide cfg).2 = Ok out ->
  ("one_hot_encode", cols) ∈ cfg -> c ∈ cols -> c ∈ columns df ->
  re_sub_nonword c = c ->
  one_hot_exclusive (non_agg_columns_of (columns wide) cfg) (columns df) (rows df)
    (extend_first (non_agg_columns_of (columns wide) cfg) cfg) c ->
  Forall (fun n => n ∈ columns out) (hot_names c (rows df)).
Proof.
  intros Hdf Hout Hentry Hc Hccol Hclean Hexcl.
  set (na := non_agg_columns_of (columns wide) cfg) in *.
  destruct (hourly_rows _ _ _ _ Hdf Hout) as (_ & (gs & Hperm & Hgs) & Hcols).
  apply Forall_forall. intros n Hn.
  apply elem_of_hot_names in Hn as Hn'.
  apply list_elem_of_fmap in Hn' as (v & -> & [Hv Hin]%list_elem_of_filter).
  apply list_elem_of_fmap in Hin as (r1 & -> & Hr1).
  pose proof (hour_frame_keyed _ _ _ Hdf Hr1) as Hkeyed.
  set (g := filter (fun r => row_key group_cols r = row_key group_cols r1)
                   (filter (keyed group_cols) (rows df))).
  assert ((row_key group_cols r1, g) ∈ groupby group_cols (rows df)) as Hg
    by (apply elem_of_groupby; split; [done|]; eauto).
  assert (r1 ∈ g) as Hr1g.
  { apply list_elem_of_filter. split; [done|]. by apply list_elem_of_filter. }
  pose proof Hg as Hg'. rewrite <- Hperm in Hg'.
  destruct (Forall2_elem_of_l _ _ _ _ Hgs Hg')
    as (r & _ & r0 & rd & T & _ & Hagg & _).
  apply Hcols. exists (row_key group_cols r1, g), rd.
  split; [done|]. split; [done|].
  eapply dict_get_Some_keys.
  erewrite (group_one_hot_cells na cfg df _ g rd c cols); try done.
  rewrite bool_decide_eq_true_2; [done|].
  apply elem_of_hot_names, list_elem_of_fmap. exists (cell r1 c).
  split; [done|]. apply list_elem_of_filter. split; [done|].
  by apply (list_elem_of_fmap_2 (fun r => cell r c)).
Qed.

(** The one-hot cells of [c] in the row a group becomes. *)
Lemma one_hot_chain wide cfg df out g r0 r c cols :
  row_chain wide cfg df out g r0 r ->
  ("one_hot_encode", cols) ∈ cfg -> c ∈ cols -> c ∈ columns df ->
  re_sub_nonword c = c ->
  one_hot_exclusive (non_agg_columns_of (columns wide) cfg) (columns df) (rows df)
    (extend_first (non_agg_columns_of (columns wide) cfg) cfg) c ->
  Forall (fun n => n ∈ columns out) (hot_names c (rows df)) ->
  (forall n, n ∈ hot_names c (rows df) ->
     cell r n = VInt (if bool_decide (n ∈ hot_names c g.2) then 1 else 0)) /\
  sum_cells r (hot_names c (rows df)) = Z.of_nat (length (hot_names c g.2)).
Proof.
  destruct g as [k g].
  intros (rd & T & Hg & Hagg & Hr0 & Hrel & HT) Hentry Hc Hccol Hclean Hexcl Hcover.
  simpl. set (na := non_agg_columns_of (columns wide) cfg) in *.
  assert (forall r', r' ∈ g -> r' ∈ rows df) as Hsub
    by (intros r' Hr'; by apply (groupby_rows _ _ _ _ _ Hg Hr')).
  assert (forall n, n ∈ hot_names c (rows df) ->
            cell r n = VInt (if bool_decide (n ∈ hot_names c g) then 1 else 0))
    as Hcells.
  { intros n Hn.
    pose proof (group_one_hot_cells na cfg df k g rd c cols n Hg Hagg Hentry Hc
                  Hccol Hexcl Hn) as Hget.
    destruct (Hrel n) as (_ & Hint & Hnull).
    case_bool_decide as Hin.
    - apply (Hint _). rewrite Hr0. unfold cell. by rewrite Hget.
    - apply Hnull.
      + apply HT. split; [by rewrite Forall_forall in Hcover; apply Hcover|].
        exists c. split; [apply elem_of_one_hot_sources; eauto|].
        apply elem_of_hot_names, list_elem_of_fmap in Hn as (v & -> & _).
        by apply one_hot_name_prefix.
      + rewrite Hr0. unfold cell. by rewrite Hget. }
  split; [done|].
  unfold sum_cells. apply sum_indicator.
  - apply NoDup_unique.
  - apply NoDup_unique.
  - intros n. by apply hot_names_mono.
  - intros n Hn. unfold int_cell. rewrite (Hcells n Hn). done.
Qed.

(** C6, as amended: for a column [c] under [one_hot_encode] whose name the
    cleaning leaves unchanged and whose one-hot names no other reduction
    writes, the output has a column for the cleaned name of every non-null
    value of [c] in the input.  In each output row such a cell is 1 when a
    value of that cleaned name occurs among the rows of the frame with the
    stay and the [nth_hour] of the output row, and 0 otherwise; so the row
    sum is the number of distinct cleaned names met in that hour.  Values
    that differ only in characters the cleaning replaces share one
    column. *)
Theorem one_hot_columns wide cfg df out c cols :
  add_hour_columns wide = Ok df ->
  (convert_wide_to_hourly wide cfg).2 = Ok out ->
  ("one_hot_encode", cols) ∈ cfg -> c ∈ cols -> c ∈ columns df ->
  re_sub_nonword c = c ->
  one_hot_exclusive (non_agg_columns_of (columns wide) cfg) (columns df) (rows df)
    (extend_first (non_agg_columns_of (columns wide) cfg) cfg) c ->
  plain_column (columns df) (rows df) cfg "hospitalization_id" ->
  "nth_hour" ∉ one_hot_names (columns df) (rows df) cfg ->
  Forall2 (fun w r1 => forall c, c ∉ hour_names -> cell r1 c = cell w c)
          (rows wide) (rows df) /\
  (forall r1, r1 ∈ rows df ->
              exists r, r ∈ rows out /\ hour_key r = hour_key r1) /\
  Forall (fun n => n ∈ columns out) (hot_names c (rows df)) /\
  Forall (fun r =>
            hour_group df r <> [] /\
            (forall n, n ∈ hot_names c (rows df) ->
               cell r n = VInt (if bool_decide (n ∈ hot_names c (hour_group df r))
                                then 1 else 0)) /\
            sum_cells r (hot_names c (rows df))
            = Z.of_nat (length (hot_names c (hour_group df r))))
         (rows out).
Proof.
  intros Hdf Hout Hentry Hc Hccol Hclean Hexcl [H1 H3] H2.
  pose proof (one_hot_cover _ _ _ _ _ _ Hdf Hout Hentry Hc Hccol Hclean Hexcl)
    as Hcover.
  split; [by apply hour_frame_rows|]. split; [|split; [done|]].
  - intros r1 Hr1.
    destruct (frame_row_in_out _ _ _ _ _ Hdf Hout H1 H2 H3 Hr1)
      as (r & Hr & E1 & E2).
    exists r. split; [done|]. unfold hour_key. by rewrite E1, E2.
  - apply Forall_forall. intros r Hr.
    destruct (out_row_group _ _ _ _ _ Hdf Hout H1 H2 H3 Hr)
      as (k & r0 & Hchain & Hne).
    split; [done|].
    by apply (one_hot_chain _ _ _ _ _ _ _ _ _ Hchain Hentry Hc Hccol Hclean
                Hexcl Hcover).
Qed.

(** ** Empty input *)

Lemma add_hour_columns_empty cols :
  add_hour_columns (mkDF cols []) =
    if bool_decide ("first_event_hour" ∈ add_column "event_time_hour" cols)
    then Raise (KeyError "first_event_hour")
    else Ok (mkDF (hour_columns cols) []).
Proof.
  unfold add_hour_columns, assignM, has_column. simpl.
  case_bool_decide; done.
Qed.

(** C3 (the code departs from the claim): a wide table that has the three
    required columns and no rows does not come back as an empty hourly
    table.  No group is aggregated, [pd.DataFrame([])] has no columns, and
    sorting it by [hospitalization_id] raises a KeyError (or the merge of
    [first_event_hour] already failed). *)
Theorem convert_empty_wide_raises wide cfg :
  rows wide = [] ->
  Forall (fun c => c ∈ columns wide) required_wide_columns ->
  (convert_wide_to_hourly wide cfg).2 =
    Raise (KeyError (if bool_decide ("first_event_hour" ∈ columns wide)
                     then "first_event_hour" else "hospitalization_id")).
Proof.
  destruct wide as [cols rs]. simpl. intros -> Hreq.
  unfold required_wide_columns in Hreq. rewrite !Forall_cons in Hreq.
  destruct Hreq as (Het & Hh & Hd & _). simpl in *.
  unfold convert_wide_to_hourly, has_column. simpl.
  rewrite !bool_decide_eq_true_2 by done. simpl.
  rewrite add_hour_columns_empty.
  case_bool_decide as Hfe.
  - apply elem_of_add_column in Hfe as [Hfe|Hfe]; [discriminate|].
    by rewrite bool_decide_eq_true_2.
  - rewrite elem_of_add_column in Hfe.
    rewrite bool_decide_eq_false_2 by tauto. reflexivity.
Qed.

(** ** The caller's configuration *)

Lemma non_agg_columns_explicit cols cfg :
  non_agg_columns_of cols cfg
  = filter (fun c => (c ∉ concat (map snd cfg)) /\
                     c ∉ ["hospitalization_id"; "event_time_hour"; "nth_hour";
                          "patient_id"; "day_number"; "first_event_hour";
                          "hour_bucket"; "event_time"])
           cols.
Proof.
  unfold non_agg_columns_of, group_cols. apply filter_ext_elem. intros c _.
  rewrite !not_elem_of_cons. split.
  - intros (? & (? & ? & ? & _) & ? & ? & ? & ? & ?).
    repeat split; try done. apply not_elem_of_nil.
  - intros (? & ? & ? & ? & ? & ? & ? & ? & ? & _).
    repeat split; try done. apply not_elem_of_nil.
Qed.

(** C9, as amended: when the call gets past the validation and the hour
    columns (lines 543-573), the caller's dictionary is changed in place.
    The columns appended are the wide columns, in table order, that no
    list of the configuration names and that are none of
    [hospitalization_id], [event_time_hour], [nth_hour], [patient_id],
    [day_number], [first_event_hour], [hour_bucket], [event_time].  When
    there is none the dictionary is as passed; otherwise its list under
    ['first'] is the passed one followed by these columns, the key being
    added last when it was absent, every other entry is kept, and the
    dictionary differs from the one passed. *)
Theorem convert_extends_first wide cfg df :
  Forall (fun c => c ∈ columns wide) required_wide_columns ->
  add_hour_columns wide = Ok df ->
  let implicit :=
    filter (fun c => (c ∉ concat (map snd cfg)) /\
                     c ∉ ["hospitalization_id"; "event_time_hour"; "nth_hour";
                          "patient_id"; "day_number"; "first_event_hour";
                          "hour_bucket"; "event_time"])
           (columns wide) in
  let after := (convert_wide_to_hourly wide cfg).1 in
  (implicit = [] -> after = cfg) /\
  (implicit <> [] ->
   dict_get "first" after = Some (default [] (dict_get "first" cfg) ++ implicit) /\
   (forall m, m <> "first" -> dict_get m after = dict_get m cfg) /\
   dict_keys after
   = (if bool_decide ("first" ∈ dict_keys cfg) then dict_keys cfg
      else dict_keys cfg ++ ["first"]) /\
   after <> cfg).
Proof.
  intros Hreq Hdf implicit after.
  unfold required_wide_columns in Hreq. rewrite !Forall_cons in Hreq.
  destruct Hreq as (Het & Hh & Hd & _).
  assert (after = extend_first implicit cfg) as Hcfg.
  { unfold after, convert_wide_to_hourly, has_column.
    rewrite !bool_decide_eq_true_2 by done. simpl. rewrite Hdf. simpl.
    by rewrite (add_hour_columns_columns _ _ Hdf), non_agg_columns_hour,
               non_agg_columns_explicit. }
  split; [intros Hnil; by rewrite Hcfg, Hnil|].
  intros Hne. rewrite Hcfg.
  pose proof (extend_first_get implicit cfg Hne) as Hget.
  split; [done|]. split; [|split].
  - intros m Hm. unfold extend_first.
    destruct implicit as [|c0 implicit']; [done|].
    rewrite dict_get_set_ne by done.
    case_bool_decide; [done|]. by rewrite dict_get_set_ne.
  - unfold extend_first. destruct implicit as [|c0 implicit']; [done|].
    rewrite dict_keys_set.
    destruct (bool_decide_reflect ("first" ∈ dict_keys cfg)) as [Hin|Hin].
    + unfold add_column. by rewrite bool_decide_eq_true_2.
    + rewrite dict_keys_set. unfold add_column.
      rewrite (bool_decide_eq_false_2 _ Hin).
      rewrite bool_decide_eq_true_2; [done|].
      rewrite elem_of_app, list_elem_of_singleton. by right.
  - intros Heq. rewrite Heq in Hget.
    destruct (dict_get "first" cfg) as [old|]; [|discriminate].
    simpl in Hget. injection Hget as Hget.
    apply (f_equal length) in Hget. rewrite length_app in Hget.
    destruct implicit; [done|]. simpl in Hget. lia.
Qed.

End Aggregator.

(** ** The properties on the example tables *)

Ltac by_computation :=
  lazymatch goal with
  | |- _ = _ => vm_compute; reflexivity
  | |- _ => compute_done
  end.

Lemma convert_empty_wide_raises_witness :
  rows empty_wide = [] /\
  Forall (fun c => c ∈ columns empty_wide) required_wide_columns /\
  (convert_wide_to_hourly empty_wide []).2 =
    Raise (KeyError (if bool_decide ("first_event_hour" ∈ columns empty_wide)
                     then "first_event_hour" else "hospitalization_id")).
Proof.
  assert (rows empty_wide = []) as H1 by reflexivity.
  assert (Forall (fun c => c ∈ columns empty_wide) required_wide_columns) as H2
    by by_computation.
  exact (conj H1 (conj H2 (convert_empty_wide_raises empty_wide [] H1 H2))).
Defined.

(** C4 (the code departs from the claim): the three required columns are
    present, the configuration names an unknown method and an absent column,
    and the call still aborts, with the KeyError of the empty input. *)
Theorem convert_aborts_with_required_columns :
  Forall (fun c => c ∈ columns empty_wide) required_wide_columns /\
  convert_wide_to_hourly empty_wide [("bogus", ["heart_rate"]); ("max", ["absent"])]
  = ([("bogus", ["heart_rate"]); ("max", ["absent"])],
     Raise (KeyError "hospitalization_id")).
Proof. split; by_computation. Qed.

Lemma convert_extends_first_witness :
  (Forall (fun c => c ∈ columns wide_drugs) required_wide_columns) /\
  (add_hour_columns wide_drugs = Ok hours_drugs) /\
  let cfg := [("boolean", ["norepinephrine"])] in
  let implicit :=
    filter (fun c => (c ∉ concat (map snd cfg)) /\
                     c ∉ ["hospitalization_id"; "event_time_hour"; "nth_hour";
                          "patient_id"; "day_number"; "first_event_hour";
                          "hour_bucket"; "event_time"])
           (columns wide_drugs) in
  let after := (convert_wide_to_hourly wide_drugs cfg).1 in
  (implicit = [] -> after = cfg) /\
  (implicit <> [] ->
   dict_get "first" after = Some (default [] (dict_get "first" cfg) ++ implicit) /\
   (forall m, m <> "first" -> dict_get m after = dict_get m cfg) /\
   dict_keys after
   = (if bool_decide ("first" ∈ dict_keys cfg) then dict_keys cfg
      else dict_keys cfg ++ ["first"]) /\
   after <> cfg).
Proof.
  assert (Forall (fun c => c ∈ columns wide_drugs) required_wide_columns) as H1
    by by_computation.
  assert (add_hour_columns wide_drugs = Ok hours_drugs) as H2
    by by_computation.
  exact (conj H1 (conj H2 
    (convert_extends_first wide_drugs [("boolean", ["norepinephrine"])] hours_drugs H1 H2))).
Defined.

(** C9, the claim as stated fails: the table lacks [day_number], the call
    stops at the validation of line 550, and the dictionary is the one
    passed although [heart_rate] is a column that it does not name. *)
Lemma config_unchanged_counterexample :
  let cfg := [("max", ["resp_rate"])] in
  filter (fun c => (c ∉ concat (map snd cfg)) /\
                   c ∉ ["hospitalization_id"; "event_time_hour"; "nth_hour";
                        "patient_id"; "day_number"; "first_event_hour";
                        "hour_bucket"; "event_time"])
         (columns wide_without_day) = ["heart_rate"] /\
  convert_wide_to_hourly wide_without_day cfg
  = (cfg, Raise (ValueError "wide_df must contain 'day_number' column")).
Proof. split; by_computation. Qed.

Lemma nth_hour_of_stay_witness :
  add_hour_columns wide_two_events = Ok hours_two_events /\
  (convert_wide_to_hourly wide_two_events []).2 = Ok hourly_two_events /\
  ("hospitalization_id"
     ∉ one_hot_names (columns hours_two_events) (rows hours_two_events) []) /\
  ("nth_hour"
     ∉ one_hot_names (columns hours_two_events) (rows hours_two_events) []) /\
  Forall (fun col => startswith "hospitalization_id" (col +:+ "_") = false)
         (one_hot_sources []) /\
  VStr "H1" ∈ column_values "hospitalization_id" (rows hourly_two_events) /\
  let ns := nth_hours hourly_two_events (VStr "H1") in
  let ts := event_times wide_two_events (VStr "H1") in
  length ns
    = length (filter (fun r => cell r "hospitalization_id" = VStr "H1")
                     (rows hourly_two_events)) /\
  (0 ∈ ns /\ forall n, n ∈ ns -> 0 <= n)%Z /\
  Sorted Z.le ns /\
  exists tmin tmax,
    tmin ∈ ts /\ tmax ∈ ts /\ (forall t, t ∈ ts -> tmin <= t <= tmax)%Z /\
    ((floor_hour tmax - floor_hour tmin) / 3600)%Z ∈ ns /\
    forall n, n ∈ ns -> (n <= (floor_hour tmax - floor_hour tmin) / 3600)%Z.
Proof.
  assert (add_hour_columns wide_two_events = Ok hours_two_events) as H1
    by by_computation.
  assert ((convert_wide_to_hourly wide_two_events []).2 = Ok hourly_two_events) as H2
    by by_computation.
  assert ("hospitalization_id"
            ∉ one_hot_names (columns hours_two_events) (rows hours_two_events) [])
    as H3 by by_computation.
  assert ("nth_hour"
            ∉ one_hot_names (columns hours_two_events) (rows hours_two_events) [])
    as H4 by by_computation.
  assert (Forall (fun col => startswith "hospitalization_id" (col +:+ "_") = false)
                 (one_hot_sources [])) as H5 by by_computation.
  assert (VStr "H1" ∈ column_values "hospitalization_id" (rows hourly_two_events))
    as H6 by by_computation.
  exact (conj H1 (conj H2 (conj H3 (conj H4 (conj H5 (conj H6
           (nth_hour_of_stay wide_two_events [] hours_two_events hourly_two_events
              (VStr "H1") H1 H2 H3 H4 H5 H6))))))).
Defined.

(** C2, the claim as stated fails: the events of the stay are at 10:42 and
    13:17, so the elapsed time is 2 h 35 min and its floor is 2, while the
    greatest [nth_hour] is 3 (from the 10:00 bucket to the 13:00 bucket). *)
Lemma nth_hour_max_counterexample :
  (convert_wide_to_hourly wide_two_events []).2 = Ok hourly_two_events /\
  let ns := nth_hours hourly_two_events (VStr "H1") in
  let ts := event_times wide_two_events (VStr "H1") in
  Z_max_list ns <> ((Z_max_list ts - Z_min_list ts) / 3600)%Z.
Proof. split; [by_computation|]. vm_compute. discriminate. Qed.

Lemma boolean_column_witness :
  (add_hour_columns wide_drugs = Ok hours_drugs) /\
  ((convert_wide_to_hourly wide_drugs config_drugs).2 = Ok hourly_drugs) /\
  (("boolean", ["norepinephrine"]) ∈ config_drugs) /\
  ("norepinephrine" ∈ ["norepinephrine"]) /\
  ("norepinephrine" ∈ columns hours_drugs) /\
  (("norepinephrine" +:+ "_boolean")
     ∉ one_hot_names (columns hours_drugs) (rows hours_drugs) config_drugs) /\
  (plain_column (columns hours_drugs) (rows hours_drugs) config_drugs
     "hospitalization_id") /\
  ("nth_hour" ∉ one_hot_names (columns hours_drugs) (rows hours_drugs) config_drugs) /\
  Forall2 (fun w r1 => forall c, c ∉ hour_names -> cell r1 c = cell w c)
          (rows wide_drugs) (rows hours_drugs) /\
  (forall r1, r1 ∈ rows hours_drugs ->
              exists r, r ∈ rows hourly_drugs /\ hour_key r = hour_key r1) /\
  Forall (fun r =>
            hour_group hours_drugs r <> [] /\
            cell r ("norepinephrine" +:+ "_boolean")
            = VInt (if bool_decide
                         (Exists (fun w => cell w "norepinephrine" <> VNull)
                                 (hour_group hours_drugs r))
                    then 1 else 0))
         (rows hourly_drugs).
Proof.
  assert (add_hour_columns wide_drugs = Ok hours_drugs) as H1
    by by_computation.
  assert ((convert_wide_to_hourly wide_drugs config_drugs).2 = Ok hourly_drugs) as H2
    by by_computation.
  assert (("boolean", ["norepinephrine"]) ∈ config_drugs) as H3
    by by_computation.
  assert ("norepinephrine" ∈ ["norepinephrine"]) as H4
    by by_computation.
  assert ("norepinephrine" ∈ columns hours_drugs) as H5
    by by_computation.
  assert (("norepinephrine" +:+ "_boolean")
     ∉ one_hot_names (columns hours_drugs) (rows hours_drugs) config_drugs) as H6
    by by_computation.
  assert (plain_column (columns hours_drugs) (rows hours_drugs) config_drugs
     "hospitalization_id") as H7
    by by_computation.
  assert ("nth_hour" ∉ one_hot_names (columns hours_drugs) (rows hours_drugs) config_drugs) as H8
    by by_computation.
  exact (conj H1 (conj H2 (conj H3 (conj H4 (conj H5 (conj H6 (conj H7 (conj H8 
    (boolean_column wide_drugs config_drugs hours_drugs hourly_drugs
       "norepinephrine" ["norepinephrine"] H1 H2 H3 H4 H5 H6 H7 H8))))))))).
Defined.

Lemma one_hot_columns_witness :
  (add_hour_columns wide_drugs = Ok hours_drugs) /\
  ((convert_wide_to_hourly wide_drugs config_drugs).2 = Ok hourly_drugs) /\
  (("one_hot_encode", ["loc"]) ∈ config_drugs) /\
  ("loc" ∈ ["loc"]) /\
  ("loc" ∈ columns hours_drugs) /\
  (re_sub_nonword "loc" = "loc") /\
  (one_hot_exclusive (non_agg_columns_of (columns wide_drugs) config_drugs)
     (columns hours_drugs) (rows hours_drugs)
     (extend_first (non_agg_columns_of (columns wide_drugs) config_drugs)
        config_drugs) "loc") /\
  (plain_column (columns hours_drugs) (rows hours_drugs) config_drugs
     "hospitalization_id") /\
  ("nth_hour" ∉ one_hot_names (columns hours_drugs) (rows hours_drugs) config_drugs) /\
  Forall2 (fun w r1 => forall c, c ∉ hour_names -> cell r1 c = cell w c)
          (rows wide_drugs) (rows hours_drugs) /\
  (forall r1, r1 ∈ rows hours_drugs ->
              exists r, r ∈ rows hourly_drugs /\ hour_key r = hour_key r1) /\
  Forall (fun n => n ∈ columns hourly_drugs) (hot_names "loc" (rows hours_drugs)) /\
  Forall (fun r =>
            hour_group hours_drugs r <> [] /\
            (forall n, n ∈ hot_names "loc" (rows hours_drugs) ->
               cell r n = VInt (if bool_decide
                                     (n ∈ hot_names "loc" (hour_group hours_drugs r))
                                then 1 else 0)) /\
            sum_cells r (hot_names "loc" (rows hours_drugs))
            = Z.of_nat (length (hot_names "loc" (hour_group hours_drugs r))))
         (rows hourly_drugs).
Proof.
  assert (add_hour_columns wide_drugs = Ok hours_drugs) as H1
    by by_computation.
  assert ((convert_wide_to_hourly wide_drugs config_drugs).2 = Ok hourly_drugs) as H2
    by by_computation.
  assert (("one_hot_encode", ["loc"]) ∈ config_drugs) as H3
    by by_computation.
  assert ("loc" ∈ ["loc"]) as H4
    by by_computation.
  assert ("loc" ∈ columns hours_drugs) as H5
    by by_computation.
  assert (re_sub_nonword "loc" = "loc") as H6
    by by_computation.
  assert (one_hot_exclusive (non_agg_columns_of (columns wide_drugs) config_drugs)
     (columns hours_drugs) (rows hours_drugs)
     (extend_first (non_agg_columns_of (columns wide_drugs) config_drugs)
        config_drugs) "loc") as H7
    by by_computation.
  assert (plain_column (columns hours_drugs) (rows hours_drugs) config_drugs
     "hospitalization_id") as H8
    by by_computation.
  assert ("nth_hour" ∉ one_hot_names (columns hours_drugs) (rows hours_drugs) config_drugs) as H9
    by by_computation.
  exact (conj H1 (conj H2 (conj H3 (conj H4 (conj H5 (conj H6 (conj H7 (conj H8 (conj H9 
    (one_hot_columns wide_drugs config_drugs hours_drugs hourly_drugs
       "loc" ["loc"] H1 H2 H3 H4 H5 H6 H7 H8 H9)))))))))).
Defined.

(** C6, the claim as stated fails: between 10:00 and 10:59 the column [loc]
    takes the two values ["icu a"] and ["icu_a"]; both are cleaned to the
    one column [loc_icu_a], so the one-hot cells of the row sum to 1. *)
Lemma one_hot_sum_counterexample :
  (convert_wide_to_hourly wide_drugs config_drugs).2 = Ok hourly_drugs /\
  exists r,
    rows hourly_drugs !! 0%nat = Some r /\
    cell r "hospitalization_id" = VStr "H1" /\
    cell r "event_time_hour" = VTime (minutes 10 0) /\
    sum_cells r (filter (fun c => startswith c "loc_" = true) (columns hourly_drugs))
    <> Z.of_nat (length (unique (dropna (column_values "loc"
                   (wide_rows_of_hour wide_drugs (VStr "H1") (minutes 10 0)))))).
Proof.
  split; [by_computation|]. eexists. split; [reflexivity|].
  split; [by_computation|]. split; [by_computation|]. vm_compute. discriminate.
Qed.

(** * The wide-dataset builder *)

(** ** Ghost columns *)

Lemma fold_left_concat {A S} (f : S -> A -> S) (ls : list (list A)) s :
  fold_left f (concat ls) s = fold_left (fun s l => fold_left f l s) ls s.
Proof.
  revert s; induction ls as [|l ls IH]; intros s; simpl; [done|].
  by rewrite fold_left_app, IH.
Qed.

Lemma _add_missing_columns_flat df category_filters optional_tables :
  _add_missing_columns df category_filters optional_tables
  = fold_left add_if_missing
      (requested_categories category_filters optional_tables) df.
Proof.
  unfold _add_missing_columns, requested_categories.
  generalize (default [] category_filters) as filters.
  intros filters. revert df. induction filters as [|[source cats] filters IH];
    intros df; simpl; [done|].
  rewrite filter_cons. simpl. case_bool_decide as Hin.
  - rewrite decide_True by done. simpl. rewrite fold_left_app. apply IH.
  - rewrite decide_False by done. apply IH.
Qed.

Lemma add_if_missing_columns df c c' :
  c' ∈ columns (add_if_missing df c) <-> c' = c \/ c' ∈ columns df.
Proof.
  unfold add_if_missing. case_bool_decide as Hc; simpl.
  - unfold add_column. rewrite bool_decide_eq_false_2 by done.
    rewrite elem_of_app, list_elem_of_singleton. tauto.
  - split; [by right|]. intros [->|?]; done.
Qed.

Lemma ghost_inv_refl df : ghost_inv df df.
Proof.
  split; [exists []; by rewrite app_nil_r|]. split.
  - apply Forall_Forall2_diag, Forall_forall. done.
  - intros c ? ?. done.
Qed.

Lemma ghost_inv_step df0 df c :
  ghost_inv df0 df -> ghost_inv df0 (add_if_missing df c).
Proof.
  intros Hinv. unfold add_if_missing.
  case_bool_decide as Hc; [|exact Hinv].
  destruct Hinv as ([added Hcols] & Hrows & Hnull).
  unfold assign. cbn [columns rows].
  assert (c ∉ columns df0) as Hc0.
  { intros Hin. apply Hc. rewrite Hcols. apply elem_of_app. by left. }
  split; [|split].
  - exists (added ++ [c]). unfold add_column.
    rewrite bool_decide_eq_false_2 by done. by rewrite Hcols, app_assoc.
  - apply Forall2_fmap_r. eapply Forall2_impl; [exact Hrows|]. simpl.
    intros r0 r Hr c' Hc'. rewrite cell_set_ne; [auto|]. by intros ->.
  - intros c' Hc' Hc'0. apply Forall_fmap, Forall_forall. intros r Hr. simpl.
    destruct (decide (c = c')) as [->|Hne]; [apply cell_set_eq|].
    rewrite cell_set_ne by done.
    apply elem_of_add_column in Hc' as [?|Hc']; [congruence|].
    specialize (Hnull c' Hc' Hc'0). rewrite Forall_forall in Hnull. auto.
Qed.

Lemma add_missing_flat_spec cats df0 :
  ghost_inv df0 (fold_left add_if_missing cats df0) /\
  forall c, c ∈ cats -> c ∈ columns (fold_left add_if_missing cats df0).
Proof.
  assert (forall df, ghost_inv df0 df ->
            ghost_inv df0 (fold_left add_if_missing cats df) /\
            (forall c, c ∈ columns df -> c ∈ columns (fold_left add_if_missing cats df)) /\
            forall c, c ∈ cats -> c ∈ columns (fold_left add_if_missing cats df)) as Hgen.
  { induction cats as [|c cats IH]; intros df Hinv; simpl.
    - split; [done|]. split; [done|]. intros c Hc. inversion Hc.
    - destruct (IH (add_if_missing df c) (ghost_inv_step _ _ _ Hinv))
        as (Hinv' & Hkeep & Hnew).
      split; [done|]. split.
      + intros c' Hc'. apply Hkeep, add_if_missing_columns. by right.
      + intros c' [->|Hc']%elem_of_cons; [|by apply Hnew].
        apply Hkeep, add_if_missing_columns. by left. }
  destruct (Hgen df0 (ghost_inv_refl df0)) as (? & _ & ?). done.
Qed.

Lemma elem_of_requested_categories category_filters optional_tables c :
  c ∈ requested_categories category_filters optional_tables <->
  exists source categories,
    (source, categories) ∈ default [] category_filters /\
    source ∈ default [] optional_tables /\ c ∈ categories.
Proof.
  unfold requested_categories. rewrite elem_of_concat. split.
  - intros (l & ([source cats] & -> & [Hs Hin]%list_elem_of_filter)%list_elem_of_fmap & Hc).
    exists source, cats. done.
  - intros (source & cats & Hin & Hs & Hc). exists cats. split; [|done].
    apply list_elem_of_fmap. exists (source, cats). split; [done|].
    by apply list_elem_of_filter.
Qed.

Lemma cell_filter_keys (r : list (string * value)) (cs : list string) c :
  c ∉ cs -> cell (filter (fun kv => kv.1 ∉ cs) r) c = cell r c.
Proof.
  intros Hc. unfold cell. induction r as [|[k v] r IH]; [done|].
  rewrite filter_cons. simpl. destruct (decide (k ∉ cs)) as [Hk|Hk]; simpl.
  - destruct (decide (k = c)); [done|apply IH].
  - rewrite decide_False; [apply IH|]. intros ->. done.
Qed.

Lemma dict_get_filter {V} (P : string -> Prop) `{!forall k, Decision (P k)}
    (d : list (string * V)) k :
  P k -> dict_get k (filter (fun e => P e.1) d) = dict_get k d.
Proof.
  intros HP. induction d as [|[k' v] d IH]; [done|].
  rewrite filter_cons. simpl. destruct (decide (P k')) as [HP'|HP']; simpl.
  - destruct (decide (k' = k)); [done|apply IH].
  - rewrite decide_False; [apply IH|]. intros ->. done.
Qed.

Lemma foldM_ext_elem {A S} (f g : S -> A -> result S) s l :
  (forall s x, x ∈ l -> f s x = g s x) -> foldM f s l = foldM g s l.
Proof.
  revert s; induction l as [|x l IH]; intros s Hfg; simpl; [done|].
  rewrite Hfg by left. destruct (g s x); simpl; [|done].
  apply IH. intros; apply Hfg; by right.
Qed.

Section Builder.
Context {pandas : Pandas} {duckdb : DuckDB}.
Variable pivot_rejects_empty : bool.

Lemma selected_filters_get cf opt table_name :
  table_name ∈ default [] opt ->
  selected_filters cf opt ≫= dict_get table_name = cf ≫= dict_get table_name.
Proof.
  intros Hin. unfold selected_filters. destruct cf as [filters|]; [|done]. simpl.
  pose proof (dict_get_filter (fun k => k ∈ default [] opt) filters table_name Hin)
    as Hget.
  exact Hget.
Qed.

Lemma requested_selected_filters cf opt :
  requested_categories (selected_filters cf opt) opt = requested_categories cf opt.
Proof.
  unfold requested_categories, selected_filters. destruct cf as [filters|]; [|done].
  simpl. f_equal. f_equal. induction filters as [|e filters IH]; [done|].
  rewrite !filter_cons. destruct (decide (e.1 ∈ default [] opt)); [|done].
  rewrite filter_cons, decide_True by done. by rewrite IH.
Qed.

Lemma load_optional_table_selected clif required_ids cf opt st table_name :
  table_name ∈ default [] opt ->
  load_optional_table pivot_rejects_empty clif required_ids (selected_filters cf opt)
    st table_name
  = load_optional_table pivot_rejects_empty clif required_ids cf st table_name.
Proof.
  intros Hin. unfold load_optional_table, _pivot_table_duckdb.
  by rewrite (selected_filters_get cf opt table_name Hin).
Qed.

(** Entries of the filters for tables that were not selected change
    nothing in the call. *)
Lemma create_wide_dataset_selected_filters session draw clif opt cf sample ids rd btc :
  create_wide_dataset pivot_rejects_empty session draw clif opt
    (selected_filters cf opt) sample ids rd btc
  = create_wide_dataset pivot_rejects_empty session draw clif opt cf sample ids rd btc.
Proof.
  unfold create_wide_dataset.
  assert (prepare_tables pivot_rejects_empty session draw clif opt
            (selected_filters cf opt) sample ids btc
          = prepare_tables pivot_rejects_empty session draw clif opt cf sample
              ids btc) as ->.
  { unfold prepare_tables.
    do 6 (apply bind_ext; intros ? _).
    f_equal. apply foldM_ext_elem. intros st x Hx.
    by apply load_optional_table_selected. }
  apply bind_ext. intros [[base_cohort adt_df] st] _. simpl.
  unfold finish_wide_dataset.
  destruct (event_time_queries st); [done|].
  apply bind_ext; intros joined _. apply bind_ext; intros final _.
  by rewrite !_add_missing_columns_flat, requested_selected_filters.
Qed.

(** ** Columns along the pipeline *)

Lemma left_join_columns (L R : DataFrame) c :
  c ∈ columns L -> c ∈ columns (left_join_using_combo L R).
Proof. intros Hc. unfold left_join_using_combo. simpl. apply elem_of_app. by left. Qed.

Lemma fold_left_join_columns srcs (L : DataFrame) c :
  c ∈ columns L -> c ∈ columns (fold_left left_join_using_combo srcs L).
Proof.
  revert L. induction srcs as [|R srcs IH]; intros L Hc; simpl; [done|].
  by apply IH, left_join_columns.
Qed.

Lemma execute_join_columns st base_cohort adt_df opt joined :
  execute_join st base_cohort adt_df opt = Ok joined ->
  "combo_id" ∈ columns joined /\
  forall c, c ∈ columns base_cohort -> c ∈ columns joined.
Proof.
  unfold execute_join. repeat case_match; try discriminate.
  intros (srcs & _ & [= <-])%bind_Ok. simpl. split.
  - apply fold_left_join_columns. unfold expanded_df. simpl.
    rewrite elem_of_app. right. right. left.
  - intros c Hc. apply fold_left_join_columns. unfold expanded_df. simpl.
    rewrite elem_of_app. by left.
Qed.

Lemma number_days_columns joined final :
  number_days joined = Ok final ->
  columns final
  = add_column "hosp_id_day_key"
      (add_column "day_number" (add_column "date" (columns joined))).
Proof.
  unfold number_days. case_match; [discriminate|].
  intros (df1 & H1 & (df2 & H2 & (df3 & H3 & [= <-])%bind_Ok)%bind_Ok)%bind_Ok.
  apply assignM_Ok in H1 as [Hc1 _]. apply sort_values_Ok in H2 as (_ & Hc2 & _).
  apply assignM_Ok in H3 as [Hc3 _]. simpl. by rewrite Hc3, Hc2, Hc1.
Qed.

(** C7: when the join is reached, every category requested in
    [category_filters] for a table that is in [optional_tables], and for
    which the joined frame has no column of that name, is a column of the
    result that is null in every row; and the entries of the filters for
    tables that are not in [optional_tables] have no effect at all: the
    call returns the same with those entries removed. *)
Theorem ghost_columns session draw clif opt cf sample ids btc
    base_cohort adt_df st joined final :
  prepare_tables pivot_rejects_empty session draw clif opt cf sample ids btc
    = Ok (base_cohort, adt_df, st) ->
  event_time_queries st <> [] ->
  execute_join st base_cohort adt_df (default [] opt) = Ok joined ->
  number_days joined = Ok final ->
  (exists out,
     create_wide_dataset pivot_rejects_empty session draw clif opt cf sample ids
       true btc = Ok (Some out) /\
     forall source categories category,
       (source, categories) ∈ default [] cf ->
       source ∈ default [] opt ->
       category ∈ categories ->
       category ∉ columns final ->
       category ∈ columns out /\
       Forall (fun r => cell r category = VNull) (rows out)) /\
  create_wide_dataset pivot_rejects_empty session draw clif opt
    (selected_filters cf opt) sample ids true btc
  = create_wide_dataset pivot_rejects_empty session draw clif opt cf sample ids
      true btc.
Proof.
  intros Hprep Hq Hjoin Hdays.
  split; [|apply create_wide_dataset_selected_filters].
  exists (drop_columns ["combo_id"; "date"] (_add_missing_columns final cf opt)).
  split.
  { unfold create_wide_dataset. rewrite Hprep. simpl.
    unfold finish_wide_dataset. destruct (event_time_queries st); [done|].
    rewrite Hjoin. simpl. rewrite Hdays. simpl. reflexivity. }
  intros source categories category Hentry Hsource Hcat Habsent.
  rewrite _add_missing_columns_flat.
  destruct (add_missing_flat_spec (requested_categories cf opt) final)
    as ((_ & _ & Hnull) & Hin).
  assert (category ∈ requested_categories cf opt) as Hreq
    by (apply elem_of_requested_categories; eauto).
  assert (category ∉ ["combo_id"; "date"]) as Hkeep.
  { intros Hd. apply Habsent. rewrite (number_days_columns _ _ Hdays).
    rewrite !elem_of_add_column.
    apply elem_of_cons in Hd as [->|Hd]; [right; right; right|].
    - exact (proj1 (execute_join_columns _ _ _ _ _ Hjoin)).
    - apply list_elem_of_singleton in Hd as ->. auto. }
  unfold drop_columns. simpl. split.
  - apply list_elem_of_filter. split; [done|]. by apply Hin.
  - apply Forall_fmap, Forall_forall. intros r Hr. simpl.
    rewrite cell_filter_keys by done.
    specialize (Hnull category (Hin _ Hreq) Habsent).
    rewrite Forall_forall in Hnull. auto.
Qed.

(** ** A labs table without a timestamp column *)

Lemma resolve_labs_timestamp cols :
  resolve_timestamp_column "labs" "lab_result_dttm" cols
  = default "lab_result_dttm"
      (head (filter (fun c => c ∈ cols) labs_timestamp_columns)).
Proof.
  unfold resolve_timestamp_column, labs_timestamp_columns.
  destruct (decide ("lab_result_dttm" ∈ cols)) as [Hc|Hc].
  - rewrite bool_decide_eq_true_2 by done.
    by rewrite (filter_cons_True _ "lab_result_dttm").
  - rewrite bool_decide_eq_false_2 by done. rewrite decide_True by done.
    by rewrite (filter_cons_False _ "lab_result_dttm").
Qed.

Lemma resolve_untimed_labs cols :
  Forall (fun c => c ∉ cols) labs_timestamp_columns ->
  resolve_timestamp_column "labs" "lab_result_dttm" cols = "lab_result_dttm"
  /\ "lab_result_dttm" ∉ cols.
Proof.
  intros Hnone. rewrite resolve_labs_timestamp.
  replace (filter (fun c => c ∈ cols) labs_timestamp_columns) with (@nil string).
  - split; [done|]. by inversion Hnone.
  - symmetry. by apply filter_none.
Qed.

(** Lines 117-139: the first loop leaves such a table out. *)
Lemma load_untimed_labs clif required_ids cf st table_df :
  dict_get "lab" clif = Some table_df ->
  "hospitalization_id" ∈ columns table_df ->
  Forall (fun c => c ∉ columns table_df) labs_timestamp_columns ->
  exists st',
    load_optional_table pivot_rejects_empty clif required_ids cf st "labs" = Ok st' /\
    event_time_queries st' = event_time_queries st /\
    pivoted_tables st' = pivoted_tables st.
Proof.
  intros Hget Hhosp Hnone. unfold load_optional_table.
  rewrite decide_True by done. rewrite Hget. unfold where_isin, has_column.
  rewrite (bool_decide_eq_true_2 ("hospitalization_id" ∈ columns table_df))
    by done.
  simpl.
  destruct (resolve_untimed_labs _ Hnone) as [-> Habsent].
  rewrite bool_decide_eq_false_2 by done.
  eexists. split; [reflexivity|done].
Qed.

Lemma raw_join_untimed_labs st opt raw :
  "labs" ∈ opt ->
  "labs" ∉ dict_keys (pivoted_tables st) ->
  dict_get "labs_raw" (catalog st) = Some raw ->
  Forall (fun c => c ∉ columns raw) labs_timestamp_columns ->
  is_ok (raw_join_tables st opt) = false.
Proof.
  intros Hopt Hpiv Hraw Hnone. unfold raw_join_tables.
  case_bool_decide; [|done].
  apply (traverse_not_ok _ _ "labs").
  - apply list_elem_of_filter. split; [|done].
    split; [done|]. split; [|done].
    change ("labs" +:+ "_raw") with "labs_raw". rewrite Hraw. by eexists.
  - change ("labs" +:+ "_raw") with "labs_raw". rewrite Hraw. simpl.
    destruct (resolve_untimed_labs _ Hnone) as [-> Habsent].
    unfold with_combo, has_column. by rewrite bool_decide_eq_false_2.
Qed.

(** C8: the timestamp column of labs is the first of [lab_result_dttm],
    [lab_collect_dttm], [recorded_dttm], [lab_order_dttm] that is a column
    of the table.  When labs is selected and loaded with none of the four,
    and some table gave event times, the build does not continue: the join
    query names [lab_result_dttm] and the call ends in an error. *)
Theorem untimed_labs_abort session draw clif opt cf sample ids rd btc
    base_cohort adt_df st raw :
  prepare_tables pivot_rejects_empty session draw clif opt cf sample ids btc
    = Ok (base_cohort, adt_df, st) ->
  event_time_queries st <> [] ->
  "labs" ∈ default [] opt ->
  "labs" ∉ dict_keys (pivoted_tables st) ->
  dict_get "labs_raw" (catalog st) = Some raw ->
  Forall (fun c => c ∉ columns raw) labs_timestamp_columns ->
  (forall cols,
     resolve_timestamp_column "labs" "lab_result_dttm" cols
     = default "lab_result_dttm"
         (head (filter (fun c => c ∈ cols) labs_timestamp_columns))) /\
  exists e,
    create_wide_dataset pivot_rejects_empty session draw clif opt cf sample ids
      rd btc = Raise e.
Proof.
  intros Hprep Hq Hopt Hpiv Hraw Hnone. split; [apply resolve_labs_timestamp|].
  apply not_ok_Raise. unfold create_wide_dataset. rewrite Hprep. simpl.
  unfold finish_wide_dataset. destruct (event_time_queries st); [done|].
  apply bind_not_ok_l. unfold execute_join.
  repeat case_match; try done.
  apply bind_not_ok_l. unfold join_sources.
  do 2 (apply bind_not_ok_r; intros ?). apply bind_not_ok_l.
  by eapply raw_join_untimed_labs.
Qed.

End Builder.

Lemma ghost_columns_witness :
  prepare_tables true [] head_draw clif_vitals (Some ["vitals"])
    (Some vitals_filters) false None None
    = Ok (vitals_prepared.1.1, vitals_prepared.1.2, vitals_prepared.2) /\
  event_time_queries vitals_prepared.2 <> [] /\
  execute_join vitals_prepared.2 vitals_prepared.1.1 vitals_prepared.1.2
    (default [] (Some ["vitals"])) = Ok vitals_joined /\
  number_days vitals_joined = Ok vitals_final /\
  (exists out,
     create_wide_dataset true [] head_draw clif_vitals (Some ["vitals"])
       (Some vitals_filters) false None true None = Ok (Some out) /\
     forall source categories category,
       (source, categories) ∈ default [] (Some vitals_filters) ->
       source ∈ default [] (Some ["vitals"]) ->
       category ∈ categories ->
       category ∉ columns vitals_final ->
       category ∈ columns out /\
       Forall (fun r => cell r category = VNull) (rows out)) /\
  create_wide_dataset true [] head_draw clif_vitals (Some ["vitals"])
    (selected_filters (Some vitals_filters) (Some ["vitals"])) false None true None
  = create_wide_dataset true [] head_draw clif_vitals (Some ["vitals"])
      (Some vitals_filters) false None true None.
Proof.
  assert (prepare_tables true [] head_draw clif_vitals (Some ["vitals"])
            (Some vitals_filters) false None None
          = Ok (vitals_prepared.1.1, vitals_prepared.1.2, vitals_prepared.2))
    as H1 by by_computation.
  assert (event_time_queries vitals_prepared.2 <> []) as H2 by by_computation.
  assert (execute_join vitals_prepared.2 vitals_prepared.1.1 vitals_prepared.1.2
            (default [] (Some ["vitals"])) = Ok vitals_joined)
    as H3 by by_computation.
  assert (number_days vitals_joined = Ok vitals_final) as H4 by by_computation.
  exact (conj H1 (conj H2 (conj H3 (conj H4
           (ghost_columns true [] head_draw clif_vitals (Some ["vitals"])
              (Some vitals_filters) false None None _ _ _ _ _ H1 H2 H3 H4))))).
Defined.

Lemma untimed_labs_abort_witness :
  prepare_tables true [] head_draw clif_untimed_labs (Some ["labs"]) None false
    None None
    = Ok (untimed_labs_prepared.1.1, untimed_labs_prepared.1.2,
          untimed_labs_prepared.2) /\
  event_time_queries untimed_labs_prepared.2 <> [] /\
  "labs" ∈ default [] (Some ["labs"]) /\
  ("labs" ∉ dict_keys (pivoted_tables untimed_labs_prepared.2)) /\
  dict_get "labs_raw" (catalog untimed_labs_prepared.2) = Some labs_untimed /\
  Forall (fun c => c ∉ columns labs_untimed) labs_timestamp_columns /\
  (forall cols,
     resolve_timestamp_column "labs" "lab_result_dttm" cols
     = default "lab_result_dttm"
         (head (filter (fun c => c ∈ cols) labs_timestamp_columns))) /\
  exists e,
    create_wide_dataset true [] head_draw clif_untimed_labs (Some ["labs"]) None
      false None true None = Raise e.
Proof.
  assert (prepare_tables true [] head_draw clif_untimed_labs (Some ["labs"]) None
            false None None
          = Ok (untimed_labs_prepared.1.1, untimed_labs_prepared.1.2,
                untimed_labs_prepared.2)) as H1 by by_computation.
  assert (event_time_queries untimed_labs_prepared.2 <> []) as H2 by by_computation.
  assert ("labs" ∈ default [] (Some ["labs"])) as H3 by by_computation.
  assert ("labs" ∉ dict_keys (pivoted_tables untimed_labs_prepared.2)) as H4
    by by_computation.
  assert (dict_get "labs_raw" (catalog untimed_labs_prepared.2) = Some labs_untimed)
    as H5 by by_computation.
  assert (Forall (fun c => c ∉ columns labs_untimed) labs_timestamp_columns) as H6
    by by_computation.
  exact (conj H1 (conj H2 (conj H3 (conj H4 (conj H5 (conj H6
           (untimed_labs_abort true [] head_draw clif_untimed_labs (Some ["labs"])
              None false None true None _ _ _ _ H1 H2 H3 H4 H5 H6))))))).
Defined.

(** The error of the example is the binder's, for the column
    [lab_result_dttm], whichever way the engine treats an empty pivot. *)
Lemma untimed_labs_binder_error (pivot_rejects_empty return_dataframe : bool) :
  create_wide_dataset pivot_rejects_empty [] head_draw clif_untimed_labs
    (Some ["labs"]) None false None return_dataframe None
  = Raise (BinderError "lab_result_dttm").
Proof. destruct pivot_rejects_empty, return_dataframe; by_computation. Qed.

(** * The join *)

Lemma pd_merge_inner_keys left right key df :
  pd_merge_inner left right key = Ok df ->
  Forall (fun a => dict_keys a = columns df) (rows df).
Proof.
  unfold pd_merge_inner. case_match; [discriminate|]. intros [= <-]. simpl.
  apply Forall_forall. intros a (l & Hl & Ha)%elem_of_concat.
  apply list_elem_of_fmap in Hl as (l0 & -> & _).
  apply list_elem_of_fmap in Ha as (r & -> & _).
  unfold dict_keys. rewrite fmap_app. f_equal; apply keys_of_cells.
Qed.

Lemma expanded_df_rows base_cohort times :
  rows (expanded_df base_cohort times)
  = unique (concat (map (expanded_rows_of
                           (fresh_name (columns base_cohort) "event_time") times)
                        (rows base_cohort))).
Proof. reflexivity. Qed.

Lemma fresh_name_absent taken c : c ∉ taken -> fresh_name taken c = c.
Proof. intros Hc. unfold fresh_name. by rewrite bool_decide_eq_false_2. Qed.

Lemma elem_of_expanded_rows_of et times a e :
  e ∈ expanded_rows_of et times a ->
  exists t, e = expanded_row et a t /\
            (t = VNull \/ (cell a "hospitalization_id", t) ∈ times).
Proof.
  unfold expanded_rows_of.
  destruct (filter _ times) as [|b ms] eqn:Hf.
  - intros ->%list_elem_of_singleton. eauto.
  - intros (b' & -> & Hb')%list_elem_of_fmap. exists b'.2. split; [done|]. right.
    rewrite <- Hf in Hb'. apply list_elem_of_filter in Hb' as [[_ <-] Hb'].
    by destruct b'.
Qed.

Lemma expanded_rows_of_none et times a :
  (forall t, (cell a "hospitalization_id", t) ∉ times) ->
  expanded_rows_of et times a = [expanded_row et a VNull].
Proof.
  intros Hnone. unfold expanded_rows_of. rewrite filter_none; [done|].
  apply Forall_forall. intros [h t] Hb [_ Hh]. simpl in Hh. subst h.
  by apply (Hnone t).
Qed.


Lemma expanded_row_cells et a t c :
  c ∈ dict_keys a -> cell (expanded_row et a t) c = cell a c.
Proof. apply cell_app_l. Qed.

Lemma expanded_row_event_time et a t :
  et ∉ dict_keys a -> cell (expanded_row et a t) et = t.
Proof.
  intros Hc. unfold expanded_row. rewrite cell_app_r by done.
  unfold cell. simpl. by rewrite decide_True.
Qed.


(** ** [LEFT JOIN ... USING (combo_id)] row by row *)

Lemma NoDup_matches (f : list (string * value) -> value) rs v :
  NoDup (filter (fun v => v <> VNull) (map f rs)) ->
  length (filter (fun r => v <> VNull /\ f r = v) rs) <= 1.
Proof.
  induction rs as [|r rs IH]; simpl; [lia|].
  rewrite !filter_cons. destruct (decide (f r <> VNull)) as [Hr|Hr].
  - intros [Hnew Hnd]%NoDup_cons. destruct (decide (v <> VNull /\ f r = v)) as [[Hv <-]|Hne].
    + simpl. rewrite filter_none; [simpl; lia|].
      apply Forall_forall. intros r' Hr' [_ Heq]. apply Hnew.
      apply list_elem_of_filter. split; [done|].
      rewrite <- Heq. by apply (list_elem_of_fmap_2 f).
    + auto.
  - intros Hnd. rewrite decide_False; [auto|].
    intros [Hv Heq]. apply Hr. by rewrite Heq.
Qed.

Lemma left_join_rows (L R : DataFrame) :
  exists (x : list (string * value) -> list (list (string * value)))
         (s : value -> list (list (string * value))),
    rows (left_join_using_combo L R) = concat (map x (rows L)) /\
    (forall l, x l <> [] /\ Forall (fun r => l `prefix_of` r) (x l) /\
               (unique_combo R -> length (x l) = 1)) /\
    forall l, x l = map (app l) (s (cell l "combo_id")).
Proof.
  set (rcols := filter (fun c => c <> "combo_id") (columns R)).
  set (names := dedup_names (columns L) rcols).
  set (sfx := fun r : option (list (string * value)) =>
                zip names (map (fun c => from_option (fun r => cell r c) VNull r)
                               rcols)).
  exists (fun l => match filter (fun r => cell l "combo_id" <> VNull
                                          /\ cell r "combo_id" = cell l "combo_id")
                                (rows R) with
                   | [] => [l ++ sfx None]
                   | matches => map (fun r => l ++ sfx (Some r)) matches
                   end),
         (fun cb => match filter (fun r => cb <> VNull /\ cell r "combo_id" = cb)
                                 (rows R) with
                    | [] => [sfx None]
                    | matches => map (fun r => sfx (Some r)) matches
                    end).
  split; [reflexivity|]. split.
  - intros l.
    pose proof (NoDup_matches (fun r => cell r "combo_id") (rows R)
                  (cell l "combo_id")) as Hone.
    destruct (filter _ (rows R)) as [|r ms]; simpl.
    + split; [done|]. split; [|done]. repeat constructor. by eexists.
    + split; [done|]. split.
      * constructor; [by eexists|]. apply Forall_fmap, Forall_forall.
        intros ? _. by eexists.
      * intros Hu. specialize (Hone Hu). simpl in Hone.
        destruct ms; simpl in *; [done|lia].
  - intros l. destruct (filter _ (rows R)) as [|r ms]; [done|].
    by rewrite map_map.
Qed.

Lemma map_app_concat {A} (l : list A) {B} (f : B -> list (list A)) xs :
  map (app l) (concat (map f xs)) = concat (map (fun x => map (app l) (f x)) xs).
Proof.
  induction xs as [|x xs IH]; simpl; [done|]. by rewrite map_app, IH.
Qed.

Lemma fold_join_rows srcs : forall L : DataFrame,
  exists (X : list (string * value) -> list (list (string * value)))
         (S : value -> list (list (string * value))),
    rows (fold_left left_join_using_combo srcs L) = concat (map X (rows L)) /\
    (forall l, X l <> [] /\ Forall (fun r => l `prefix_of` r) (X l) /\
               (Forall unique_combo srcs -> length (X l) = 1)) /\
    forall l, "combo_id" ∈ dict_keys l -> X l = map (app l) (S (cell l "combo_id")).
Proof.
  induction srcs as [|R srcs IH]; intros L; simpl.
  - exists (fun l => [l]), (fun _ => [[]]).
    split; [by rewrite concat_map_singleton|]. split.
    + intros l. split; [done|]. split; [|done]. by repeat constructor.
    + intros l _. simpl. by rewrite app_nil_r.
  - destruct (left_join_rows L R) as (x & s & Hx & Hxs & Hxs').
    destruct (IH (left_join_using_combo L R)) as (X & S & HX & HXs & HXs').
    exists (fun l => concat (map X (x l))),
           (fun cb => concat (map (fun sfx => map (app sfx) (S cb)) (s cb))).
    split; [|split].
    { by rewrite HX, Hx, concat_map_concat, map_map. }
    + intros l. destruct (Hxs l) as (Hne & Hpre & Hlen). split; [|split].
      * destruct (x l) as [|m ms]; [done|]. simpl.
        destruct (HXs m) as (HneX & _ & _). destruct (X m); [done|]. done.
      * apply Forall_forall. intros r (k & Hk & Hr)%elem_of_concat.
        apply list_elem_of_fmap in Hk as (m & -> & Hm).
        rewrite Forall_forall in Hpre. specialize (Hpre m Hm).
        destruct (HXs m) as (_ & HpreX & _). rewrite Forall_forall in HpreX.
        etransitivity; [exact Hpre|]. by apply HpreX.
      * intros [HR Hsrcs]%Forall_cons. specialize (Hlen HR).
        destruct (x l) as [|m [|? ?]]; simpl in Hlen; try lia.
        simpl. rewrite app_nil_r. by apply (HXs m).
    + intros l Hl. rewrite Hxs', map_map, map_app_concat. f_equal.
      apply map_ext. intros sfx. rewrite HXs'.
      * rewrite cell_app_l by done. rewrite map_map. apply map_ext.
        intros y. by rewrite app_assoc.
      * unfold dict_keys. rewrite fmap_app, elem_of_app. by left.
Qed.

Ltac not_in_list :=
  rewrite !not_elem_of_cons; repeat split; solve [done | apply not_elem_of_nil].

(** ** Totality and failure of the frame operations *)

Lemma assignM_total c f df :
  Forall (fun r => is_ok (f r) = true) (rows df) ->
  exists rs, assignM c f df = Ok (mkDF (add_column c (columns df)) rs) /\
             Forall2 (fun r r' => exists v, f r = Ok v /\ r' = dict_set c v r)
                     (rows df) rs.
Proof.
  intros Hok.
  destruct (traverse_total (fun r => v ← f r; Ok (dict_set c v r)) (rows df))
    as [rs Hrs].
  { eapply Forall_impl; [exact Hok|]. intros r Hr. simpl in *. by destruct (f r). }
  assert (assignM c f df = Ok (mkDF (add_column c (columns df)) rs)) as Heq
    by (unfold assignM; by rewrite Hrs).
  exists rs. split; [done|]. by apply assignM_Ok in Heq as [_ ?].
Qed.

Lemma assignM_Raise c f df e0 r :
  (forall x e, f x = Raise e -> e = e0) ->
  r ∈ rows df -> is_ok (f r) = false -> assignM c f df = Raise e0.
Proof.
  intros Hf Hr Hbad. unfold assignM.
  rewrite (traverse_Raise _ _ e0) with (x := r); [done| |done|].
  - intros x e. destruct (f x) eqn:Hx; simpl; [discriminate|].
    intros [= <-]. eauto.
  - by destruct (f r).
Qed.

Lemma sort_values_total by_cols df :
  Forall (fun c => c ∈ columns df) by_cols ->
  sort_values by_cols df
  = Ok (mkDF (columns df) (merge_sort (rows_le by_cols) (rows df))).
Proof.
  intros Hcols. unfold sort_values. rewrite filter_none; [done|].
  eapply Forall_impl; [exact Hcols|]. simpl. auto.
Qed.

Section Joins.
Context {pandas : Pandas} {duckdb : DuckDB}.
Variable pivot_rejects_empty : bool.

Lemma prepare_tables_keys session draw clif opt cf sample ids btc
    base_cohort adt_df st :
  prepare_tables pivot_rejects_empty session draw clif opt cf sample ids btc
    = Ok (base_cohort, adt_df, st) ->
  Forall (fun a => dict_keys a = columns base_cohort) (rows base_cohort).
Proof.
  unfold prepare_tables. intros Hp.
  apply bind_Ok in Hp as (patient_df & _ & Hp).
  apply bind_Ok in Hp as (hospitalization_df & _ & Hp).
  apply bind_Ok in Hp as (adt0 & _ & Hp).
  apply bind_Ok in Hp as (hospitalization_df' & _ & Hp).
  apply bind_Ok in Hp as (adt1 & _ & Hp).
  apply bind_Ok in Hp as (bc & Hbc & Hp).
  apply bind_Ok in Hp as (st' & _ & [= <- _ _]).
  by apply pd_merge_inner_keys in Hbc.
Qed.

Lemma execute_join_Ok st base_cohort adt_df opt joined :
  execute_join st base_cohort adt_df opt = Ok joined ->
  "hospitalization_id" ∈ columns base_cohort /\
  Forall (fun b => is_timestamp b.2 = true) (all_event_times st) /\
  exists srcs (X : list (string * value) -> list (list (string * value))),
    join_sources st adt_df opt = Ok srcs /\
    rows joined
    = unique (concat (map X (rows (expanded_df base_cohort (all_event_times st)))))
    /\ (forall l, X l <> [] /\ Forall (fun r => l `prefix_of` r) (X l) /\
                  (Forall unique_combo srcs -> length (X l) = 1))
    /\ exists S : value -> list (list (string * value)),
         forall l, "combo_id" ∈ dict_keys l ->
                   X l = map (app l) (S (cell l "combo_id")).
Proof.
  unfold execute_join, has_column.
  case_bool_decide as Hh; simpl; [|discriminate].
  case_bool_decide as Hc; simpl; [discriminate|].
  destruct (forallb _ (all_event_times st)) eqn:Hts; simpl; [|discriminate].
  intros (srcs & Hsrcs & [= <-])%bind_Ok. split; [done|]. split.
  { apply Forall_forall. intros b Hb. rewrite forallb_forall in Hts.
    apply Hts. by apply list_elem_of_In. }
  destruct (fold_join_rows srcs (expanded_df base_cohort (all_event_times st)))
    as (X & S & HX & HXs & HS).
  exists srcs, X. split; [done|]. split; [simpl; by rewrite HX|].
  split; [done|]. by exists S.
Qed.

(** Every row of the joined frame extends a row of [expanded_df], and
    every row of [expanded_df] is extended by one. *)
Lemma joined_row_expanded st base_cohort adt_df opt joined r :
  execute_join st base_cohort adt_df opt = Ok joined ->
  r ∈ rows joined ->
  exists e, e ∈ rows (expanded_df base_cohort (all_event_times st))
            /\ e `prefix_of` r.
Proof.
  intros (_ & _ & srcs & X & _ & Hrows & HX & _)%execute_join_Ok Hr.
  rewrite Hrows, elem_of_unique in Hr.
  apply elem_of_concat in Hr as (k & Hk & Hr).
  apply list_elem_of_fmap in Hk as (e & -> & He). exists e. split; [done|].
  destruct (HX e) as (_ & Hpre & _). rewrite Forall_forall in Hpre. auto.
Qed.

Lemma expanded_row_joined st base_cohort adt_df opt joined e :
  execute_join st base_cohort adt_df opt = Ok joined ->
  e ∈ rows (expanded_df base_cohort (all_event_times st)) ->
  exists r, r ∈ rows joined /\ e `prefix_of` r.
Proof.
  intros (_ & _ & srcs & X & _ & Hrows & HX & _)%execute_join_Ok He.
  destruct (HX e) as (Hne & Hpre & _).
  destruct (X e) as [|r rs] eqn:HXe; [done|]. exists r.
  apply Forall_cons in Hpre as [Hpre _]. split; [|done].
  rewrite Hrows. apply elem_of_unique, elem_of_concat. exists (X e).
  split; [by apply (list_elem_of_fmap_2 X)|]. rewrite HXe. left.
Qed.

Lemma elem_of_expanded_df base_cohort times e :
  e ∈ rows (expanded_df base_cohort times) ->
  exists a t, a ∈ rows base_cohort /\
    e = expanded_row (fresh_name (columns base_cohort) "event_time") a t /\
    (t = VNull \/ (cell a "hospitalization_id", t) ∈ times).
Proof.
  rewrite expanded_df_rows, elem_of_unique. intros He.
  apply elem_of_concat in He as (k & Hk & He).
  apply list_elem_of_fmap in Hk as (a & -> & Ha).
  apply elem_of_expanded_rows_of in He as (t & -> & Ht). eauto.
Qed.

Lemma prefix_cell (e r : list (string * value)) c :
  e `prefix_of` r -> c ∈ dict_keys e -> cell r c = cell e c.
Proof. intros [k ->] Hc. by apply cell_app_l. Qed.

Lemma expanded_prefix_cells et a t (r : list (string * value)) :
  expanded_row et a t `prefix_of` r -> et ∉ dict_keys a ->
  cell r et = t /\ forall c, c ∈ dict_keys a -> cell r c = cell a c.
Proof.
  intros Hpre Het. split.
  - rewrite (prefix_cell _ _ _ Hpre); [by apply expanded_row_event_time|].
    unfold expanded_row, dict_keys. rewrite fmap_app, elem_of_app. right. left.
  - intros c Hc. rewrite (prefix_cell _ _ _ Hpre).
    + by apply expanded_row_cells.
    + unfold expanded_row, dict_keys. rewrite fmap_app, elem_of_app. by left.
Qed.

Lemma execute_join_event_time st base_cohort adt_df opt joined :
  execute_join st base_cohort adt_df opt = Ok joined ->
  fresh_name (columns base_cohort) "event_time" ∈ columns joined.
Proof.
  unfold execute_join. repeat case_match; try discriminate.
  intros (srcs & _ & [= <-])%bind_Ok. simpl.
  apply fold_left_join_columns. unfold expanded_df. simpl.
  rewrite elem_of_app. right. left.
Qed.

(** Lines 239-244 on a frame that has a row without an event time. *)
Lemma number_days_null_event joined r :
  "event_time" ∈ columns joined ->
  "hospitalization_id" ∈ columns joined ->
  Forall (fun r => is_timestamp (cell r "event_time") = true) (rows joined) ->
  r ∈ rows joined -> cell r "event_time" = VNull ->
  number_days joined = Raise IntCastingNaNError.
Proof.
  intros Het Hh Hts Hr Hnull. unfold number_days, has_column.
  rewrite bool_decide_eq_true_2 by done. simpl.
  destruct (assignM_total "date" (fun r => dt_date (cell r "event_time")) joined)
    as (rs1 & -> & Hrs1).
  { eapply Forall_impl; [exact Hts|]. intros r0. simpl.
    by destruct (cell r0 "event_time"). }
  simpl. rewrite sort_values_total.
  2:{ simpl. repeat constructor; apply elem_of_add_column; auto. }
  simpl.
  destruct (Forall2_elem_of_l _ _ _ r Hrs1 Hr) as (r1 & Hr1 & v & Hv & ->).
  rewrite Hnull in Hv. injection Hv as <-.
  erewrite assignM_Raise; [done| | |].
  - intros x e. unfold dense_rank. repeat case_match; congruence.
  - simpl. rewrite merge_sort_Permutation. exact Hr1.
  - unfold dense_rank. rewrite cell_set_eq.
    by destruct (cell _ "hospitalization_id").
Qed.

(** The joined frame of a cohort in which a stay has no event time. *)
Lemma number_days_stay_without_events session draw clif opt cf sample ids btc
    base_cohort adt_df st a joined :
  prepare_tables pivot_rejects_empty session draw clif opt cf sample ids btc
    = Ok (base_cohort, adt_df, st) ->
  "event_time" ∉ columns base_cohort ->
  a ∈ rows base_cohort ->
  (forall t, (cell a "hospitalization_id", t) ∉ all_event_times st) ->
  execute_join st base_cohort adt_df (default [] opt) = Ok joined ->
  number_days joined = Raise IntCastingNaNError.
Proof.
  intros Hprep Het Ha Hnone Hjoin.
  pose proof (prepare_tables_keys _ _ _ _ _ _ _ _ _ _ _ Hprep) as Hkeys.
  rewrite Forall_forall in Hkeys.
  pose proof (execute_join_event_time _ _ _ _ _ Hjoin) as Hcol.
  pose proof (execute_join_Ok _ _ _ _ _ Hjoin) as (Hh & Hts & _).
  rewrite Forall_forall in Hts.
  rewrite fresh_name_absent in Hcol by done.
  assert (exists r, r ∈ rows joined /\ cell r "event_time" = VNull) as (r & Hr & Hnull).
  { destruct (expanded_row_joined _ _ _ _ _ (expanded_row "event_time" a VNull) Hjoin)
      as (r & Hr & Hpre).
    - rewrite expanded_df_rows, elem_of_unique, fresh_name_absent by done.
      apply elem_of_concat. eexists. split.
      + by apply (list_elem_of_fmap_2 (expanded_rows_of _ _)).
      + rewrite expanded_rows_of_none by done. left.
    - exists r. split; [done|].
      apply (expanded_prefix_cells _ _ _ _ Hpre). by rewrite (Hkeys a). }
  apply (number_days_null_event joined r); try done.
  - by apply (execute_join_columns _ _ _ _ _ Hjoin).
  - apply Forall_forall. intros r' Hr'.
    destruct (joined_row_expanded _ _ _ _ _ _ Hjoin Hr') as (e & He & Hpre).
    apply elem_of_expanded_df in He as (a' & t & Ha' & -> & Ht).
    rewrite fresh_name_absent in Hpre by done.
    apply expanded_prefix_cells in Hpre as [-> _]; [|by rewrite (Hkeys a')].
    destruct Ht as [->|Ht]; [done|]. by apply (Hts _ Ht).
Qed.

(** C10, as amended: when some table gave event times but a row of the
    base cohort (the inner merge of the hospitalization and patient
    tables, which has no column named [event_time]) belongs to a stay
    without any event time, [create_wide_dataset] ends in an error and
    returns no table: if the join itself succeeds, the stay has a row with
    a null [event_time], its day rank is missing and the cast of
    [day_number] to integer fails.  A stay that the merge leaves out of
    the cohort has no row to fail on. *)
Theorem missing_event_time_aborts session draw clif opt cf sample ids rd btc
    base_cohort adt_df st a :
  prepare_tables pivot_rejects_empty session draw clif opt cf sample ids btc
    = Ok (base_cohort, adt_df, st) ->
  event_time_queries st <> [] ->
  "event_time" ∉ columns base_cohort ->
  a ∈ rows base_cohort ->
  cell a "hospitalization_id" ∉ map fst (all_event_times st) ->
  (exists e,
     create_wide_dataset pivot_rejects_empty session draw clif opt cf sample ids
       rd btc = Raise e) /\
  forall joined,
    execute_join st base_cohort adt_df (default [] opt) = Ok joined ->
    number_days joined = Raise IntCastingNaNError.
Proof.
  intros Hprep Hq Het Ha Hnone'.
  assert (forall t, (cell a "hospitalization_id", t) ∉ all_event_times st)
    as Hnone.
  { intros t Hin. apply Hnone'. by apply (list_elem_of_fmap_2 fst) in Hin. }
  assert (forall joined,
            execute_join st base_cohort adt_df (default [] opt) = Ok joined ->
            number_days joined = Raise IntCastingNaNError) as Hdays
    by (intros joined; by eapply number_days_stay_without_events).
  split; [|done].
  unfold create_wide_dataset. rewrite Hprep. simpl.
  unfold finish_wide_dataset. destruct (event_time_queries st); [done|].
  destruct (execute_join _ _ _ _) as [joined|e] eqn:Hjoin; simpl; [|eauto].
  rewrite (Hdays joined) by done. simpl. eauto.
Qed.

(** ** From the joined frame to the wide table *)

Lemma number_days_rows joined final :
  number_days joined = Ok final ->
  exists js, js ≡ₚ rows joined /\
    Forall2 (fun j r => forall c, c ∉ ["date"; "day_number"; "hosp_id_day_key"] ->
                                  cell r c = cell j c)
            js (rows final).
Proof.
  unfold number_days. case_match; [discriminate|].
  intros (df1 & H1 & (df2 & H2 & (df3 & H3 & [= <-])%bind_Ok)%bind_Ok)%bind_Ok.
  apply assignM_Ok in H1 as [_ H1]. apply sort_values_Ok in H2 as (_ & _ & H2).
  apply assignM_Ok in H3 as [_ H3]. simpl.
  destruct (Forall2_Permutation_r _ _ _ (rows df2) H1) as (js & Hjs & HF).
  { rewrite H2. symmetry. apply merge_sort_Permutation. }
  exists js. split; [by symmetry|].
  apply Forall2_fmap_r.
  eapply Forall2_compose; [|exact HF|exact H3].
  intros j r1 r3 (v & _ & ->) (v' & _ & ->) c Hc.
  rewrite !not_elem_of_cons in Hc. destruct Hc as (? & ? & ? & _).
  by rewrite !cell_set_ne by done.
Qed.

Lemma wide_rows joined final cf opt :
  number_days joined = Ok final ->
  exists js, js ≡ₚ rows joined /\
    Forall2 (fun j r => forall c, c ∈ columns joined -> c ∉ computed_columns ->
                                  cell r c = cell j c)
            js (rows (drop_columns ["combo_id"; "date"]
                        (_add_missing_columns final cf opt))).
Proof.
  intros Hdays. destruct (number_days_rows _ _ Hdays) as (js & Hjs & HF).
  exists js. split; [done|]. rewrite _add_missing_columns_flat.
  destruct (add_missing_flat_spec (requested_categories cf opt) final)
    as ((_ & Hcells & _) & _).
  unfold drop_columns. simpl. apply Forall2_fmap_r.
  eapply Forall2_compose; [|exact HF|exact Hcells].
  intros j r1 r2 H1 H2 c Hc Hcomp. simpl.
  unfold computed_columns in Hcomp. rewrite !not_elem_of_cons in Hcomp.
  destruct Hcomp as (? & ? & ? & ? & _).
  rewrite cell_filter_keys by not_in_list.
  rewrite H2.
  - apply H1. not_in_list.
  - rewrite (number_days_columns _ _ Hdays), !elem_of_add_column. auto.
Qed.





End Joins.

Lemma missing_event_time_aborts_witness :
  prepare_tables true [] head_draw clif_one_transfer None None false None None
    = Ok (one_transfer_prepared.1.1, one_transfer_prepared.1.2,
          one_transfer_prepared.2) /\
  event_time_queries one_transfer_prepared.2 <> [] /\
  ("event_time" ∉ columns one_transfer_prepared.1.1) /\
  second_stay ∈ rows one_transfer_prepared.1.1 /\
  (cell second_stay "hospitalization_id"
     ∉ map fst (all_event_times one_transfer_prepared.2)) /\
  (exists e,
     create_wide_dataset true [] head_draw clif_one_transfer None None false None
       true None = Raise e) /\
  forall joined,
    execute_join one_transfer_prepared.2 one_transfer_prepared.1.1
      one_transfer_prepared.1.2 (default [] None) = Ok joined ->
    number_days joined = Raise IntCastingNaNError.
Proof.
  assert (prepare_tables true [] head_draw clif_one_transfer None None false None
            None
          = Ok (one_transfer_prepared.1.1, one_transfer_prepared.1.2,
                one_transfer_prepared.2)) as H1 by by_computation.
  assert (event_time_queries one_transfer_prepared.2 <> []) as H2 by by_computation.
  assert ("event_time" ∉ columns one_transfer_prepared.1.1) as H3 by by_computation.
  assert (second_stay ∈ rows one_transfer_prepared.1.1) as H4 by by_computation.
  assert (cell second_stay "hospitalization_id"
            ∉ map fst (all_event_times one_transfer_prepared.2)) as H5
    by by_computation.
  exact (conj H1 (conj H2 (conj H3 (conj H4 (conj H5
           (missing_event_time_aborts true [] head_draw clif_one_transfer None None
              false None true None _ _ _ second_stay H1 H2 H3 H4 H5)))))).
Defined.

(** C10, the claim as stated fails: the stay [H2] is in the hospitalization
    table, so it is one of the required stays, and it has no event time in
    any source; it has no patient row either, so the inner merge of line 70
    leaves it out of the cohort, and the call returns a table with the rows
    of the first stay. *)
Lemma stay_without_patient_counterexample :
  prepare_tables true [] head_draw clif_orphan_stay None None false None None
    = Ok (orphan_stay_prepared.1.1, orphan_stay_prepared.1.2,
          orphan_stay_prepared.2) /\
  event_time_queries orphan_stay_prepared.2 <> [] /\
  (exists hospitalization_df,
     dict_get "hospitalization_df" (catalog orphan_stay_prepared.2)
       = Some hospitalization_df /\
     VStr "H2" ∈ column_values "hospitalization_id" (rows hospitalization_df)) /\
  (VStr "H2" ∉ map fst (all_event_times orphan_stay_prepared.2)) /\
  create_wide_dataset true [] head_draw clif_orphan_stay None None false None
    true None = Ok (Some orphan_stay_wide) /\
  column_values "hospitalization_id" (rows orphan_stay_wide) = [VStr "H1"].
Proof.
  split; [by_computation|]. split; [by_computation|]. split.
  { eexists. split; [reflexivity|]. by_computation. }
  split; [by_computation|]. split; by_computation.
Qed.

(** * Further properties of the hourly aggregator *)

Lemma foldM_Ok_step {A S} (f : S -> A -> result S) l s s' x :
  foldM f s l = Ok s' -> x ∈ l -> exists s1 s2, f s1 x = Ok s2.
Proof.
  revert s. induction l as [|y l IH]; simpl; intros s Hfold Hx; [inversion Hx|].
  apply bind_Ok in Hfold as (s1 & H1 & Hfold).
  apply elem_of_cons in Hx as [->|Hx]; eauto.
Qed.

Section MoreAggregator.
Context `{Pandas}.

(** ** The columns of the methods other than the one-hot encoding *)

Lemma regular_writer na cols (g : list (list (string * value))) mt c m' c' :
  mt <> OneHotEncode ->
  (c +:+ method_suffix na mt c) ∈ written_keys na cols g m' c' ->
  (method_of_name m' = Some mt /\ c' = c /\ c ∈ cols) \/
  (m' = "one_hot_encode" /\ c' ∈ cols /\
   (c +:+ method_suffix na mt c)
     ∈ map (one_hot_name c') (dropna (column_values c' g))).
Proof.
  intros Hmt. unfold written_keys. case_bool_decide as Hc; [inversion 1|].
  destruct (method_of_name m') as [[]|] eqn:Hm; destruct mt; try done; simpl;
    repeat case_bool_decide;
    try (intros Hk%list_elem_of_singleton; suffix_clash Hk);
    try (intros Hk%list_elem_of_singleton; apply append_inj_l in Hk as ->;
         left; done);
    try (intros Hk; right; by apply method_of_name_one_hot in Hm);
    try (inversion 1).
Qed.

Lemma regular_step na cols (g : list (list (string * value))) m mt c
    (rd1 rd2 : list (string * value)) :
  aggregate_column na cols g m c rd1 = Ok rd2 ->
  method_of_name m = Some mt -> mt <> OneHotEncode -> c ∈ cols ->
  exists v, method_value mt (dropna (column_values c g)) = Ok v /\
            dict_get (c +:+ method_suffix na mt c) rd2 = Some v.
Proof.
  unfold aggregate_column. intros Hstep Hm Hmt Hc.
  rewrite bool_decide_eq_false_2, Hm in Hstep by (by intros ?).
  destruct mt; try done; simpl in *;
    try (apply bind_Ok in Hstep as (v & Hv & [= <-]); exists v;
         by rewrite dict_get_set_eq);
    try (case_bool_decide);
    injection Hstep as <-; eexists; by rewrite dict_get_set_eq.
Qed.

(** The cell a group has under the column of a regular method, in the
    dictionary of the group. *)
Lemma regular_cell na cfg df g (rd : list (string * value)) m mt c :
  g ∈ groupby group_cols (rows df) ->
  aggregate_group (extend_first na cfg) na (columns df) g = Ok rd ->
  (m, c) ∈ config_pairs (extend_first na cfg) ->
  method_of_name m = Some mt -> mt <> OneHotEncode -> c ∈ columns df ->
  (c +:+ method_suffix na mt c) ∉ one_hot_names (columns df) (rows df) cfg ->
  exists v, method_value mt (dropna (column_values c g.2)) = Ok v /\
            dict_get (c +:+ method_suffix na mt c) rd = Some v.
Proof.
  destruct g as [k g]. simpl. intros Hg Hagg Hpair Hm Hmt Hc Hname.
  unfold aggregate_group in Hagg. simpl in Hagg.
  rewrite apply_aggregations_flat in Hagg.
  destruct (foldM_Ok_step _ _ _ _ _ Hagg Hpair) as (rd1 & rd2 & Hstep).
  simpl in Hstep.
  destruct (regular_step _ _ _ _ _ _ _ _ Hstep Hm Hmt Hc) as (v & Hv & _).
  exists v. split; [done|].
  eapply foldM_last_write; [exact Hagg|..].
  - intros [m' c'] rd3 rd4 Hpair' Hstep'. simpl in Hstep'.
    destruct (decide ((c +:+ method_suffix na mt c)
                        ∈ written_keys na (columns df) g m' c')) as [Hw|Hw];
      [|left; by eapply aggregate_column_frame].
    right.
    destruct (regular_writer _ _ _ _ _ _ _ Hmt Hw)
      as [(Hm' & -> & _)|(Hm' & Hc' & Hw')].
    + destruct (regular_step _ _ _ _ _ _ _ _ Hstep' Hm' Hmt Hc) as (v' & Hv' & ?).
      congruence.
    + exfalso. apply Hname. eapply written_one_hot_names; eauto.
  - right. exists (m, c). split; [done|]. intros rd3 rd4 Hstep'. simpl in Hstep'.
    destruct (regular_step _ _ _ _ _ _ _ _ Hstep' Hm Hmt Hc) as (v' & Hv' & ?).
    congruence.
Qed.

(** ** From the dictionary of a group to its row in the result *)

Lemma chain_cells wide cfg df out g r0 r (K : list string) :
  row_chain wide cfg df out g r0 r ->
  Forall (fun k => Forall (fun col => startswith k (col +:+ "_") = false)
                          (one_hot_sources cfg)) K ->
  exists rd,
    g ∈ groupby group_cols (rows df) /\
    aggregate_group
      (extend_first (non_agg_columns_of (columns wide) cfg) cfg)
      (non_agg_columns_of (columns wide) cfg) (columns df) g = Ok rd /\
    forall k, k ∈ K -> cell r k = cell rd k.
Proof.
  intros (rd & T & Hg & Hagg & Hr0 & Hrel & HT) HK.
  exists rd. split; [done|]. split; [done|]. intros k Hk.
  destruct (Hrel k) as (Hkeep & _ & _). rewrite Hkeep, Hr0; [done|].
  rewrite HT. intros (_ & col & Hcol & Hs).
  rewrite Forall_forall in HK. specialize (HK k Hk).
  rewrite Forall_forall in HK. rewrite (HK _ Hcol) in Hs. discriminate.
Qed.

(** ** The pairs of the extended configuration *)

Lemma dict_set_keeps {V} k (v v' : V) (d : list (string * V)) :
  (k, v) ∈ d -> dict_get k d = Some v \/ (k, v) ∈ dict_set k v' d.
Proof.
  induction d as [|[k0 v0] d IH]; [inversion 1|]. simpl.
  destruct (decide (k0 = k)) as [->|Hne].
  - intros [[= ->]|Hin]%elem_of_cons; [by left|]. right. by right.
  - intros [[= -> _]|Hin]%elem_of_cons; [done|].
    destruct (IH Hin) as [?|?]; [by left|]. right. by right.
Qed.

Lemma listed_not_implicit df_columns cfg m cols c :
  (m, cols) ∈ cfg -> c ∈ cols -> c ∉ non_agg_columns_of df_columns cfg.
Proof.
  intros Hentry Hc. unfold non_agg_columns_of.
  intros [[Hnot _] _]%list_elem_of_filter. apply Hnot, elem_of_concat.
  exists cols. split; [|done]. by apply (list_elem_of_fmap_2 snd _ (m, cols)).
Qed.

Lemma implicit_is_column df_columns cfg c :
  c ∈ non_agg_columns_of df_columns cfg -> c ∈ df_columns.
Proof. unfold non_agg_columns_of. by intros [_ ?]%list_elem_of_filter. Qed.

Lemma listed_pair na cfg m cols c :
  (m, cols) ∈ cfg -> c ∈ cols -> (m, c) ∈ config_pairs (extend_first na cfg).
Proof.
  intros Hentry Hc. apply elem_of_config_pairs.
  destruct (decide (m = "first")) as [->|Hm];
    [|exists cols; split; [by apply extend_first_elem_of|done]].
  unfold extend_first. destruct na as [|c0 na]; [eauto|].
  rewrite bool_decide_eq_true_2
    by (by apply (list_elem_of_fmap_2 fst _ ("first", cols))).
  destruct (dict_set_keeps "first" cols
              (default [] (dict_get "first" cfg) ++ c0 :: na) cfg Hentry)
    as [Hget|Hin]; [|eauto].
  eexists. split.
  - apply dict_get_elem_of, dict_get_set_eq.
  - rewrite Hget. simpl. apply elem_of_app. by left.
Qed.

Lemma implicit_pair na cfg c :
  c ∈ na -> ("first", c) ∈ config_pairs (extend_first na cfg).
Proof.
  intros Hc. apply elem_of_config_pairs.
  assert (na <> []) as Hne by (intros ->; inversion Hc).
  eexists. split.
  - apply dict_get_elem_of, extend_first_get. done.
  - apply elem_of_app. by right.
Qed.

(** The column of a regular method in the rows of the result: the cell
    of an output row is the reduction of the rows of the hour frame with
    its stay and its [nth_hour]. *)
Lemma regular_column wide cfg df out m mt c :
  add_hour_columns wide = Ok df ->
  (convert_wide_to_hourly wide cfg).2 = Ok out ->
  let na := non_agg_columns_of (columns wide) cfg in
  (m, c) ∈ config_pairs (extend_first na cfg) ->
  method_of_name m = Some mt -> mt <> OneHotEncode -> c ∈ columns df ->
  plain_column (columns df) (rows df) cfg (c +:+ method_suffix na mt c) ->
  plain_column (columns df) (rows df) cfg "hospitalization_id" ->
  "nth_hour" ∉ one_hot_names (columns df) (rows df) cfg ->
  Forall (fun r =>
            hour_group df r <> [] /\
            method_value mt (dropna (column_values c (hour_group df r)))
            = Ok (cell r (c +:+ method_suffix na mt c)))
         (rows out).
Proof.
  intros Hdf Hout na Hpair Hm Hmt Hc [Hname Hfill] [H1 H3] H2.
  apply Forall_forall. intros r Hr.
  destruct (out_row_group _ _ _ _ _ Hdf Hout H1 H2 H3 Hr)
    as (k & r0 & Hchain & Hne).
  split; [done|].
  destruct (chain_cells _ _ _ _ _ _ _ [c +:+ method_suffix na mt c] Hchain)
    as (rd & Hg & Hagg & Hcells); [by constructor|].
  fold na in Hagg.
  destruct (regular_cell _ _ _ _ _ _ _ _ Hg Hagg Hpair Hm Hmt Hc Hname)
    as (v & Hv & Hget).
  rewrite Hcells by left. unfold cell. simpl in *. by rewrite Hget.
Qed.

(** X5: a column [c] listed under [first] that is a column of the frame
    gives the output column [c_first]; in each output row it holds the
    first non-null value of [c], in frame order, among the rows of the
    hour frame with the stay and the [nth_hour] of that output row, and
    null when there is none. *)
Theorem first_column wide cfg df out c cols :
  add_hour_columns wide = Ok df ->
  (convert_wide_to_hourly wide cfg).2 = Ok out ->
  ("first", cols) ∈ cfg -> c ∈ cols -> c ∈ columns df ->
  plain_column (columns df) (rows df) cfg (c +:+ "_first") ->
  plain_column (columns df) (rows df) cfg "hospitalization_id" ->
  "nth_hour" ∉ one_hot_names (columns df) (rows df) cfg ->
  Forall (fun r =>
            hour_group df r <> [] /\
            cell r (c +:+ "_first")
            = default VNull (head (dropna (column_values c (hour_group df r)))))
         (rows out).
Proof.
  intros Hdf Hout Hentry Hc Hcol Hplain Hkey Hnth.
  pose proof (listed_not_implicit (columns wide) cfg _ _ _ Hentry Hc) as Hna.
  pose proof (regular_column wide cfg df out "first" First c Hdf Hout) as Hrows.
  simpl in Hrows. rewrite bool_decide_eq_false_2 in Hrows by done.
  eapply Forall_impl; [apply Hrows; try done; by eapply listed_pair|].
  simpl. by intros r [? [= <-]].
Qed.

(** X6: a wide column [c] that no list of the configuration names and
    that is not one of the grouping and reserved columns gives the output
    column [c_c]; in each output row it holds the first non-null value of
    [c] among the rows of the hour frame with the stay and the [nth_hour]
    of that output row, and null when there is none. *)
Theorem carried_column wide cfg df out c :
  add_hour_columns wide = Ok df ->
  (convert_wide_to_hourly wide cfg).2 = Ok out ->
  c ∈ columns wide ->
  c ∉ concat (map snd cfg) ->
  c ∉ ["hospitalization_id"; "event_time_hour"; "nth_hour"; "patient_id";
       "day_number"; "first_event_hour"; "hour_bucket"; "event_time"] ->
  plain_column (columns df) (rows df) cfg (c +:+ "_c") ->
  plain_column (columns df) (rows df) cfg "hospitalization_id" ->
  "nth_hour" ∉ one_hot_names (columns df) (rows df) cfg ->
  Forall (fun r =>
            hour_group df r <> [] /\
            cell r (c +:+ "_c")
            = default VNull (head (dropna (column_values c (hour_group df r)))))
         (rows out).
Proof.
  intros Hdf Hout Hcol Hlisted Hreserved Hplain Hkey Hnth.
  assert (c ∈ non_agg_columns_of (columns wide) cfg) as Hna.
  { rewrite non_agg_columns_explicit. by apply list_elem_of_filter. }
  pose proof (regular_column wide cfg df out "first" First c Hdf Hout) as Hrows.
  simpl in Hrows. rewrite bool_decide_eq_true_2 in Hrows by done.
  eapply Forall_impl; [apply Hrows; try done|].
  - by apply implicit_pair.
  - rewrite (add_hour_columns_columns _ _ Hdf). unfold hour_columns.
    rewrite !elem_of_add_column. auto.
  - simpl. by intros r [? [= <-]].
Qed.

(** X7: a column [c] listed under [last] gives the output column
    [c_last]; in each output row it holds the last non-null value of [c]
    among the rows of the hour frame with the stay and the [nth_hour] of
    that output row, and null when there is none. *)
Theorem last_column wide cfg df out c cols :
  add_hour_columns wide = Ok df ->
  (convert_wide_to_hourly wide cfg).2 = Ok out ->
  ("last", cols) ∈ cfg -> c ∈ cols -> c ∈ columns df ->
  plain_column (columns df) (rows df) cfg (c +:+ "_last") ->
  plain_column (columns df) (rows df) cfg "hospitalization_id" ->
  "nth_hour" ∉ one_hot_names (columns df) (rows df) cfg ->
  Forall (fun r =>
            hour_group df r <> [] /\
            cell r (c +:+ "_last")
            = default VNull (last (dropna (column_values c (hour_group df r)))))
         (rows out).
Proof.
  intros Hdf Hout Hentry Hc Hcol Hplain Hkey Hnth.
  pose proof (regular_column wide cfg df out "last" Last c Hdf Hout) as Hrows.
  simpl in Hrows.
  eapply Forall_impl; [apply Hrows; try done; by eapply listed_pair|].
  simpl. by intros r [? [= <-]].
Qed.

(** X8: for the methods [max], [min], [mean] and [median], a listed
    column [c] gives the output column [c_<method>].  In each output row,
    with the non-null values of [c] among the rows of the hour frame with
    the stay and the [nth_hour] of that output row: the cell is null when
    there is no such value (the kernel is not called), and otherwise the
    value of the pandas kernel on them. *)
Theorem numeric_column wide cfg df out m c cols :
  add_hour_columns wide = Ok df ->
  (convert_wide_to_hourly wide cfg).2 = Ok out ->
  m ∈ numeric_methods -> (m, cols) ∈ cfg -> c ∈ cols -> c ∈ columns df ->
  plain_column (columns df) (rows df) cfg (c +:+ "_" +:+ m) ->
  plain_column (columns df) (rows df) cfg "hospitalization_id" ->
  "nth_hour" ∉ one_hot_names (columns df) (rows df) cfg ->
  Forall (fun r =>
            hour_group df r <> [] /\
            let col_values := dropna (column_values c (hour_group df r)) in
            (col_values = [] -> cell r (c +:+ "_" +:+ m) = VNull) /\
            (col_values <> [] ->
             kernel_of_name m col_values = Ok (cell r (c +:+ "_" +:+ m))))
         (rows out).
Proof.
  intros Hdf Hout Hm Hentry Hc Hcol Hplain Hkey Hnth.
  assert (exists mt, method_of_name m = Some mt /\ mt <> OneHotEncode /\
            (forall na, method_suffix na mt c = "_" +:+ m) /\
            forall vs, method_value mt vs = reduce_or_nan (kernel_of_name m) vs)
    as (mt & Hmt & Hne & Hsuffix & Hvalue).
  { unfold numeric_methods in Hm.
    repeat (apply elem_of_cons in Hm as [->|Hm]); [..|inversion Hm];
      eexists; (split; [reflexivity|]); done. }
  pose proof (regular_column wide cfg df out m mt c Hdf Hout) as Hrows.
  simpl in Hrows. rewrite Hsuffix in Hrows.
  eapply Forall_impl; [apply Hrows; try done; by eapply listed_pair|].
  simpl. intros r [? Hv]. split; [done|]. rewrite Hvalue in Hv.
  destruct (dropna (column_values c (hour_group df r))); simpl in *;
    [injection Hv as <-|]; done.
Qed.

(** ** Validation and the hour columns *)

(** X1: when one of [event_time], [hospitalization_id], [day_number] is
    not a column of the wide table, the call raises the ValueError that
    names the first missing one, in that order, and the configuration is
    left as it was passed. *)
Theorem convert_rejects_missing_column wide cfg c :
  head (filter (fun c => c ∉ columns wide) required_wide_columns) = Some c ->
  convert_wide_to_hourly wide cfg
  = (cfg, Raise (ValueError (missing_column_message c))).
Proof.
  unfold convert_wide_to_hourly, has_column, required_wide_columns.
  rewrite !filter_cons, filter_nil.
  repeat case_bool_decide; repeat case_decide; simpl; try done;
    intros [= <-]; done.
Qed.

Lemma hours_between_error a b e :
  hours_between a b = Raise e -> e = IntCastingNaNError.
Proof. unfold hours_between. repeat case_match; congruence. Qed.

Lemma add_hour_columns_null_key wide w :
  "first_event_hour" ∉ columns wide ->
  Forall (fun r => is_timestamp (cell r "event_time") = true) (rows wide) ->
  w ∈ rows wide ->
  cell w "event_time" = VNull \/ cell w "hospitalization_id" = VNull ->
  add_hour_columns wide = Raise IntCastingNaNError.
Proof.
  intros Hfeh Hts Hw Hnull. unfold add_hour_columns.
  destruct (assignM_total "event_time_hour"
              (fun r => dt_floor_hour (cell r "event_time")) wide)
    as (rs1 & -> & Hrs1).
  { eapply Forall_impl; [exact Hts|]. intros r. simpl.
    by destruct (cell r "event_time"). }
  simpl. unfold has_column. simpl.
  rewrite bool_decide_eq_false_2
    by (rewrite elem_of_add_column; intros [?|?]; done).
  destruct (Forall2_elem_of_l _ _ _ w Hrs1 Hw) as (r1 & Hr1 & v & Hv & ->).
  rewrite (assignM_Raise _ _ _ IntCastingNaNError
             (dict_set "first_event_hour"
                (first_event_hour_of rs1
                   (cell (dict_set "event_time_hour" v w) "hospitalization_id"))
                (dict_set "event_time_hour" v w))); [done|..].
  - intros x e. apply hours_between_error.
  - simpl.
    by apply (list_elem_of_fmap_2
                (fun r => dict_set "first_event_hour"
                            (first_event_hour_of rs1
                               (cell r "hospitalization_id")) r)).
  - rewrite cell_set_eq, !cell_set_ne by done. rewrite cell_set_eq.
    destruct Hnull as [Hn|Hn].
    + rewrite Hn in Hv. injection Hv as <-. done.
    + rewrite cell_set_ne, Hn by done. simpl. by destruct v.
Qed.

(** X2: a wide row with a null [event_time] or a null
    [hospitalization_id] makes the whole conversion fail: its [nth_hour]
    is missing and the cast to integer of line 570 raises.  The
    configuration is left as it was passed. *)
Theorem null_key_aborts wide cfg w :
  Forall (fun c => c ∈ columns wide) required_wide_columns ->
  "first_event_hour" ∉ columns wide ->
  Forall (fun r => is_timestamp (cell r "event_time") = true) (rows wide) ->
  w ∈ rows wide ->
  cell w "event_time" = VNull \/ cell w "hospitalization_id" = VNull ->
  convert_wide_to_hourly wide cfg = (cfg, Raise IntCastingNaNError).
Proof.
  intros Hreq Hfeh Hts Hw Hnull.
  unfold required_wide_columns in Hreq. rewrite !Forall_cons in Hreq.
  destruct Hreq as (? & ? & ? & _).
  unfold convert_wide_to_hourly, has_column.
  rewrite !bool_decide_eq_true_2 by done. simpl.
  by rewrite (add_hour_columns_null_key wide w).
Qed.

(** ** The rows of the result *)

Lemma NoDup_Forall2 {A B C D} (Q : A -> B -> Prop)
    (f : A -> C) (h : B -> D) l k :
  (forall x y x' y', Q x y -> Q x' y' -> h y = h y' -> f x = f x') ->
  Forall2 Q l k -> NoDup (map f l) -> NoDup (map h k).
Proof.
  intros Hinj. induction 1 as [|x y l k Hxy HQ IH]; simpl; [constructor|].
  intros [Hnew Hnd]%NoDup_cons. constructor; [|auto].
  intros (y' & Hy' & Hin)%list_elem_of_fmap. apply Hnew.
  destruct (Forall2_elem_of_r _ _ _ _ HQ Hin) as (x' & Hx' & Hxy').
  rewrite (Hinj x y x' y' Hxy Hxy' Hy'). by apply (list_elem_of_fmap_2 f).
Qed.

(** X3: the rows of the hourly table are in the order of
    [hospitalization_id] and then [nth_hour]. *)
Theorem hourly_rows_sorted wide cfg df out :
  add_hour_columns wide = Ok df ->
  (convert_wide_to_hourly wide cfg).2 = Ok out ->
  plain_column (columns df) (rows df) cfg "hospitalization_id" ->
  "nth_hour" ∉ one_hot_names (columns df) (rows df) cfg ->
  StronglySorted (rows_le ["hospitalization_id"; "nth_hour"]) (rows out).
Proof.
  intros Hdf Hout [H1 H3] H2.
  destruct (hourly_rows _ _ _ _ Hdf Hout) as ((rows0 & Hsorted & Hchain) & _ & _).
  eapply StronglySorted_Forall2; [|exact Hsorted|exact Hchain].
  intros x y x' y' Hxy (g & Hg) (g' & Hg').
  destruct (chain_key_cells _ _ _ _ _ _ _ Hdf H1 H2 H3 Hg)
    as (r1 & _ & _ & E1 & E2 & E3 & E4).
  destruct (chain_key_cells _ _ _ _ _ _ _ Hdf H1 H2 H3 Hg')
    as (r1' & _ & _ & E1' & E2' & E3' & E4').
  unfold rows_le, row_key in *. simpl in *.
  by rewrite E3, E4, E3', E4', <- E1, <- E2, <- E1', <- E2'.
Qed.

(** X4: the hourly table has one row for each stay and hour of the wide
    table: no two rows share [hospitalization_id] and [nth_hour], and the
    pairs that occur are those of the rows of the wide table. *)
Theorem one_row_per_stay_hour wide cfg df out :
  add_hour_columns wide = Ok df ->
  (convert_wide_to_hourly wide cfg).2 = Ok out ->
  plain_column (columns df) (rows df) cfg "hospitalization_id" ->
  "nth_hour" ∉ one_hot_names (columns df) (rows df) cfg ->
  NoDup (map hour_key (rows out)) /\
  forall key, key ∈ map hour_key (rows out) <-> key ∈ map hour_key (rows df).
Proof.
  intros Hdf Hout [H1 H3] H2. split.
  - destruct (hourly_rows _ _ _ _ Hdf Hout) as (_ & (gs & Hperm & Hgs) & _).
    eapply (NoDup_Forall2 _ fst hour_key); [|exact Hgs|].
    2:{ change (map fst gs) with (gs.*1). rewrite Hperm.
        apply groupby_keys_NoDup. }
    intros [k g] r [k' g'] r' (r0 & Hc) (r0' & Hc') Hkey. simpl.
    pose proof Hc as (rd & T & Hg & _). pose proof Hc' as (rd' & T' & Hg' & _).
    destruct (chain_key_cells _ _ _ _ _ _ _ Hdf H1 H2 H3 Hc)
      as (r1 & Hr1 & Hin & _ & _ & E3 & E4).
    destruct (chain_key_cells _ _ _ _ _ _ _ Hdf H1 H2 H3 Hc')
      as (r1' & Hr1' & Hin' & _ & _ & E3' & E4').
    simpl in Hin, Hin'.
    destruct (groupby_rows _ _ _ _ _ Hg Hin) as [_ <-].
    destruct (groupby_rows _ _ _ _ _ Hg' Hin') as [_ <-].
    unfold hour_key in Hkey. rewrite E3, E4, E3', E4' in Hkey.
    injection Hkey as Hh Hn.
    destruct (hour_frame_row _ _ _ Hdf Hr1)
      as (w & t & b & _ & _ & _ & Hb & Hw & Heth & Hnth & _).
    destruct (hour_frame_row _ _ _ Hdf Hr1')
      as (w' & t' & b' & _ & _ & _ & Hb' & Hw' & Heth' & Hnth' & _).
    rewrite <- Hw in Hb. rewrite <- Hw', <- Hh, Hb in Hb'. injection Hb' as <-.
    rewrite Hw in Hb. apply first_hour_spec in Hb as [(w0 & t0 & _ & _ & _ & Hb0) _].
    unfold row_key, group_cols. simpl. rewrite Hh, Hn. do 2 f_equal.
    rewrite Heth, Heth'. f_equal.
    rewrite (floor_hour_offset t _ _ Hb0), (floor_hour_offset t' _ _ Hb0).
    rewrite Hnth, Hnth' in Hn. injection Hn as ->. done.
  - intros key. rewrite !list_elem_of_fmap. split.
    + intros (r & -> & Hr).
      destruct (out_row_in_frame _ _ _ _ _ Hdf Hout H1 H2 H3 Hr)
        as (r1 & Hr1 & E1 & E2).
      exists r1. split; [|done]. unfold hour_key. by rewrite E1, E2.
    + intros (r1 & -> & Hr1).
      destruct (frame_row_in_out _ _ _ _ _ Hdf Hout H1 H2 H3 Hr1)
        as (r & Hr & E1 & E2).
      exists r. split; [|done]. unfold hour_key. by rewrite E1, E2.
Qed.

Lemma base_row_data_more cols k (g : list (list (string * value))) :
  cell (base_row_data cols k g) "hour_bucket" = dt_hour (k !!! 1%nat) /\
  ("day_number" ∈ cols ->
   cell (base_row_data cols k g) "day_number"
   = default VNull (head (column_values "day_number" g))) /\
  ("patient_id" ∈ cols ->
   cell (base_row_data cols k g) "patient_id"
   = default VNull (head (column_values "patient_id" g))).
Proof.
  unfold base_row_data. repeat case_bool_decide;
    rewrite ?cell_set_eq, ?cell_set_ne by discriminate;
    rewrite ?cell_set_eq; done.
Qed.

(** X9: the columns every hourly row starts with.  With [w] the first of
    the rows of the hour frame that have the stay and the [nth_hour] of
    the output row: [event_time_hour] is the hour of [w], [hour_bucket]
    its hour of the day, and [day_number] and [patient_id] are those of
    [w]. *)
Theorem hourly_base_columns wide cfg df out :
  add_hour_columns wide = Ok df ->
  (convert_wide_to_hourly wide cfg).2 = Ok out ->
  Forall (plain_column (columns df) (rows df) cfg)
         ["hospitalization_id"; "event_time_hour"; "hour_bucket"; "day_number";
          "patient_id"] ->
  "nth_hour" ∉ one_hot_names (columns df) (rows df) cfg ->
  Forall (fun r =>
            exists w ws,
              hour_group df r = w :: ws /\
              cell r "event_time_hour" = cell w "event_time_hour" /\
              cell r "hour_bucket" = dt_hour (cell w "event_time_hour") /\
              cell r "day_number" = cell w "day_number" /\
              ("patient_id" ∈ columns wide ->
               cell r "patient_id" = cell w "patient_id"))
         (rows out).
Proof.
  intros Hdf Hout Hplain Hnth.
  pose proof (convert_Ok_inv _ _ _ Hout) as [Hreq _].
  unfold required_wide_columns in Hreq. rewrite !Forall_cons in Hreq.
  destruct Hreq as (_ & _ & Hday & _).
  pose proof (add_hour_columns_columns _ _ Hdf) as Hcols.
  assert (forall c, c ∈ columns wide -> c ∈ columns df) as Hsub.
  { intros c Hc. rewrite Hcols. unfold hour_columns.
    rewrite !elem_of_add_column. auto. }
  rewrite !Forall_cons in Hplain.
  destruct Hplain as ([N0 F0] & [N1 F1] & [N2 F2] & [N3 F3] & [N4 F4] & _).
  apply Forall_forall. intros r Hr.
  destruct (out_row_group _ _ _ _ _ Hdf Hout N0 Hnth F0 Hr)
    as (k & r0 & Hchain & Hne).
  destruct (chain_cells _ _ _ _ _ _ _
              ["event_time_hour"; "hour_bucket"; "day_number"; "patient_id"]
              Hchain) as (rd & Hg & Hagg & Hcells); [by repeat constructor|].
  destruct (hour_group df r) as [|w ws] eqn:Hgroup; [done|].
  exists w, ws. split; [done|].
  destruct (groupby_rows _ _ _ _ w Hg) as [_ Hk]; [left|].
  assert (k !!! 1%nat = cell w "event_time_hour") as Hk1 by by rewrite <- Hk.
  assert (forall key,
            key ∈ ["event_time_hour"; "hour_bucket"; "day_number"; "patient_id"] ->
            key ∉ one_hot_names (columns df) (rows df) cfg ->
            cell r key = cell (base_row_data (columns df) k (w :: ws)) key)
    as Hbase.
  { intros key Hkey Hname.
    assert (key ∈ base_keys) as Hb.
    { pose proof Hkey as Hmem. unfold base_keys.
      repeat (apply elem_of_cons in Hmem as [->|Hmem]); [..|inversion Hmem];
        repeat constructor. }
    pose proof (group_base_cell _ _ _ _ _ key Hg Hagg Hb Hname) as Hget.
    rewrite (Hcells key Hkey). unfold cell. by rewrite Hget. }
  destruct (base_row_data_cells (columns df) k (w :: ws)) as (_ & Hb1 & _).
  destruct (base_row_data_more (columns df) k (w :: ws)) as (Hb2 & Hb3 & Hb4).
  repeat split.
  - rewrite Hbase; [congruence|repeat constructor|done].
  - rewrite Hbase; [congruence|repeat constructor|done].
  - rewrite Hbase; [by rewrite Hb3 by auto|repeat constructor|done].
  - intros Hp. rewrite Hbase; [by rewrite Hb4 by auto|repeat constructor|done].
Qed.

(** ** Entries that are skipped *)

Lemma suffix_inj c1 s1 c2 s2 :
  s1 ∈ regular_suffixes -> s2 ∈ regular_suffixes ->
  c1 +:+ s1 = c2 +:+ s2 -> c1 = c2.
Proof.
  unfold regular_suffixes. intros H1 H2 Heq.
  repeat (apply elem_of_cons in H1 as [->|H1]); [..|inversion H1];
    repeat (apply elem_of_cons in H2 as [->|H2]); try (by inversion H2);
    first [by apply append_inj_l in Heq | suffix_clash Heq].
Qed.

Lemma dict_set_elem_of {V} k (v : V) k' v' (d : list (string * V)) :
  (k', v') ∈ dict_set k v d -> (k', v') ∈ d \/ (k' = k /\ v' = v).
Proof.
  induction d as [|[k0 v0] d IH]; simpl.
  - intros [= -> ->]%list_elem_of_singleton. by right.
  - destruct (decide (k0 = k)) as [->|Hne].
    + intros [[= -> ->]|Hin]%elem_of_cons; [by right|]. left. by right.
    + intros [->|Hin]%elem_of_cons; [left; left|].
      destruct (IH Hin) as [?|?]; [left; by right|by right].
Qed.

Lemma extended_pair na cfg m c :
  (m, c) ∈ config_pairs (extend_first na cfg) ->
  (exists cols, (m, cols) ∈ cfg /\ c ∈ cols) \/ (m = "first" /\ c ∈ na).
Proof.
  rewrite elem_of_config_pairs. intros (cols & Hentry & Hc).
  unfold extend_first in Hentry. destruct na as [|c0 na]; [eauto|].
  apply dict_set_elem_of in Hentry as [Hentry|[-> ->]].
  - case_bool_decide; [eauto|].
    apply dict_set_elem_of in Hentry as [Hentry|[-> ->]]; [eauto|inversion Hc].
  - apply elem_of_app in Hc as [Hc|Hc]; [|by right]. left.
    case_bool_decide as Hkey.
    + destruct (dict_get "first" cfg) as [cols|] eqn:Hget; [|inversion Hc].
      exists cols. split; [by apply dict_get_elem_of|done].
    + rewrite dict_get_set_eq in Hc. inversion Hc.
Qed.

Lemma group_keys na cfg df g (rd : list (string * value)) key :
  g ∈ groupby group_cols (rows df) ->
  aggregate_group (extend_first na cfg) na (columns df) g = Ok rd ->
  key ∈ dict_keys rd ->
  key ∈ base_keys \/
  exists m c, (m, c) ∈ config_pairs (extend_first na cfg)
              /\ key ∈ written_keys na (columns df) g.2 m c.
Proof.
  destruct g as [k g]. simpl. intros Hg Hagg Hkey.
  destruct (decide (key ∈ base_keys)) as [?|Hbase]; [by left|]. right.
  destruct (decide (Exists (fun p => key ∈ written_keys na (columns df) g p.1 p.2)
                           (config_pairs (extend_first na cfg)))) as [Hex|Hno].
  { apply Exists_exists in Hex as ([m c] & Hp & Hw). eauto. }
  exfalso. rewrite <- Forall_Exists_neg, Forall_forall in Hno.
  unfold aggregate_group in Hagg. simpl in Hagg.
  assert (dict_get key rd = None) as Hnone.
  { rewrite (apply_aggregations_frame _ _ _ _ _ _ key Hagg).
    - by apply base_row_data_keys.
    - intros m c Hp. by apply (Hno (m, c)). }
  by apply dict_get_None_keys in Hnone.
Qed.

(** X10: a listed column that is not a column of the table, or that is
    listed only under method names the aggregation loop does not know,
    gives no output column: none of [c_max], [c_min], [c_mean],
    [c_median], [c_first], [c_last], [c_boolean], [c_c] is a column of the
    result (unless a one-hot encoding happens to produce that name).  A
    column under a misspelt method is not carried as [c_c] either. *)
Theorem skipped_column wide cfg df out c suffix :
  add_hour_columns wide = Ok df ->
  (convert_wide_to_hourly wide cfg).2 = Ok out ->
  c ∈ concat (map snd cfg) ->
  c ∉ columns df \/
    Forall (fun entry => c ∈ entry.2 -> method_of_name entry.1 = None) cfg ->
  suffix ∈ regular_suffixes ->
  (c +:+ suffix) ∉ one_hot_names (columns df) (rows df) cfg ->
  (c +:+ suffix) ∉ columns out.
Proof.
  intros Hdf Hout Hlisted Hskip Hs Hname Hcol.
  apply elem_of_concat in Hlisted as (cols0 & Hentry0 & Hc0).
  apply list_elem_of_fmap in Hentry0 as ([m0 cols0'] & -> & Hentry0).
  simpl in Hc0.
  assert (c ∉ columns df \/
          forall m cols, (m, cols) ∈ cfg -> c ∈ cols -> method_of_name m = None)
    as Hskip'.
  { destruct Hskip as [?|Hall]; [by left|]. right. intros m cols Hentry Hc.
    rewrite Forall_forall in Hall. by apply (Hall (m, cols)). }
  clear Hskip. rename Hskip' into Hskip.
  destruct (hourly_rows _ _ _ _ Hdf Hout) as (_ & _ & Hcols).
  apply Hcols in Hcol as (g & rd & Hg & Hagg & Hkey).
  apply (group_keys _ _ _ _ _ _ Hg Hagg) in Hkey as [Hb|(m & c' & Hp & Hw)].
  { by apply (suffixed_not_base c suffix). }
  pose proof Hw as Hw'.
  apply written_keys_cases in Hw' as [(s' & Hs' & Heq & _)|(Hm & Hc' & Hw')].
  2:{ apply Hname. destruct g as [k g]. eapply written_one_hot_names; eauto. }
  apply suffix_inj in Heq as <-; [|done..].
  unfold written_keys in Hw. case_bool_decide as Hin; [inversion Hw|].
  destruct Hskip as [Habsent|Hunknown]; [by apply Habsent|].
  apply extended_pair in Hp as [(cols & Hentry & Hc)|[-> Hna]].
  - rewrite (Hunknown _ _ Hentry Hc) in Hw. inversion Hw.
  - by apply (listed_not_implicit _ _ _ _ _ Hentry0 Hc0) in Hna.
Qed.
End MoreAggregator.

(** ** The properties on the example tables *)

Lemma convert_rejects_missing_column_witness :
  (head (filter (fun c => c ∉ columns wide_without_day) required_wide_columns)
   = Some "day_number") /\
  convert_wide_to_hourly wide_without_day []
  = ([], Raise (ValueError (missing_column_message "day_number"))).
Proof.
  assert (head (filter (fun c => c ∉ columns wide_without_day) required_wide_columns)
   = Some "day_number") as H1
    by by_computation.
  exact (conj H1 
    (convert_rejects_missing_column wide_without_day [] "day_number" H1)).
Defined.

Lemma null_key_aborts_witness :
  (Forall (fun c => c ∈ columns wide_null_event) required_wide_columns) /\
  ("first_event_hour" ∉ columns wide_null_event) /\
  (Forall (fun r => is_timestamp (cell r "event_time") = true)
          (rows wide_null_event)) /\
  (untimed_row ∈ rows wide_null_event) /\
  (cell untimed_row "event_time" = VNull
   \/ cell untimed_row "hospitalization_id" = VNull) /\
  convert_wide_to_hourly wide_null_event [] = ([], Raise IntCastingNaNError).
Proof.
  assert (Forall (fun c => c ∈ columns wide_null_event) required_wide_columns) as H1
    by by_computation.
  assert ("first_event_hour" ∉ columns wide_null_event) as H2
    by by_computation.
  assert (Forall (fun r => is_timestamp (cell r "event_time") = true)
          (rows wide_null_event)) as H3
    by by_computation.
  assert (untimed_row ∈ rows wide_null_event) as H4
    by by_computation.
  assert (cell untimed_row "event_time" = VNull
   \/ cell untimed_row "hospitalization_id" = VNull) as H5
    by by_computation.
  exact (conj H1 (conj H2 (conj H3 (conj H4 (conj H5 
    (null_key_aborts wide_null_event [] untimed_row H1 H2 H3 H4 H5)))))).
Defined.

Lemma hourly_rows_sorted_witness :
  (add_hour_columns wide_two_events = Ok hours_two_events) /\
  ((convert_wide_to_hourly wide_two_events []).2 = Ok hourly_two_events) /\
  (plain_column (columns hours_two_events) (rows hours_two_events) []
     "hospitalization_id") /\
  ("nth_hour"
     ∉ one_hot_names (columns hours_two_events) (rows hours_two_events) []) /\
  StronglySorted (rows_le ["hospitalization_id"; "nth_hour"])
    (rows hourly_two_events).
Proof.
  assert (add_hour_columns wide_two_events = Ok hours_two_events) as H1
    by by_computation.
  assert ((convert_wide_to_hourly wide_two_events []).2 = Ok hourly_two_events) as H2
    by by_computation.
  assert (plain_column (columns hours_two_events) (rows hours_two_events) []
     "hospitalization_id") as H3
    by by_computation.
  assert ("nth_hour"
     ∉ one_hot_names (columns hours_two_events) (rows hours_two_events) []) as H4
    by by_computation.
  exact (conj H1 (conj H2 (conj H3 (conj H4 
    (hourly_rows_sorted wide_two_events [] hours_two_events hourly_two_events H1 H2 H3 H4))))).
Defined.

Lemma one_row_per_stay_hour_witness :
  (add_hour_columns wide_two_events = Ok hours_two_events) /\
  ((convert_wide_to_hourly wide_two_events []).2 = Ok hourly_two_events) /\
  (plain_column (columns hours_two_events) (rows hours_two_events) []
     "hospitalization_id") /\
  ("nth_hour"
     ∉ one_hot_names (columns hours_two_events) (rows hours_two_events) []) /\
  NoDup (map hour_key (rows hourly_two_events)) /\
  forall key, key ∈ map hour_key (rows hourly_two_events)
              <-> key ∈ map hour_key (rows hours_two_events).
Proof.
  assert (add_hour_columns wide_two_events = Ok hours_two_events) as H1
    by by_computation.
  assert ((convert_wide_to_hourly wide_two_events []).2 = Ok hourly_two_events) as H2
    by by_computation.
  assert (plain_column (columns hours_two_events) (rows hours_two_events) []
     "hospitalization_id") as H3
    by by_computation.
  assert ("nth_hour"
     ∉ one_hot_names (columns hours_two_events) (rows hours_two_events) []) as H4
    by by_computation.
  exact (conj H1 (conj H2 (conj H3 (conj H4 
    (one_row_per_stay_hour wide_two_events [] hours_two_events hourly_two_events H1 H2 H3 H4))))).
Defined.

Lemma first_column_witness :
  (add_hour_columns wide_rates = Ok hours_rates) /\
  ((convert_wide_to_hourly wide_rates config_rates).2 = Ok hourly_rates) /\
  (("first", ["heart_rate"]) ∈ config_rates) /\
  ("heart_rate" ∈ ["heart_rate"]) /\
  ("heart_rate" ∈ columns hours_rates) /\
  (plain_column (columns hours_rates) (rows hours_rates) config_rates
     ("heart_rate" +:+ "_first")) /\
  (plain_column (columns hours_rates) (rows hours_rates) config_rates
     "hospitalization_id") /\
  ("nth_hour" ∉ one_hot_names (columns hours_rates) (rows hours_rates) config_rates) /\
  Forall (fun r =>
            hour_group hours_rates r <> [] /\
            cell r ("heart_rate" +:+ "_first")
            = default VNull
                (head (dropna (column_values "heart_rate"
                                 (hour_group hours_rates r)))))
         (rows hourly_rates).
Proof.
  assert (add_hour_columns wide_rates = Ok hours_rates) as H1
    by by_computation.
  assert ((convert_wide_to_hourly wide_rates config_rates).2 = Ok hourly_rates) as H2
    by by_computation.
  assert (("first", ["heart_rate"]) ∈ config_rates) as H3
    by by_computation.
  assert ("heart_rate" ∈ ["heart_rate"]) as H4
    by by_computation.
  assert ("heart_rate" ∈ columns hours_rates) as H5
    by by_computation.
  assert (plain_column (columns hours_rates) (rows hours_rates) config_rates
     ("heart_rate" +:+ "_first")) as H6
    by by_computation.
  assert (plain_column (columns hours_rates) (rows hours_rates) config_rates
     "hospitalization_id") as H7
    by by_computation.
  assert ("nth_hour" ∉ one_hot_names (columns hours_rates) (rows hours_rates) config_rates) as H8
    by by_computation.
  exact (conj H1 (conj H2 (conj H3 (conj H4 (conj H5 (conj H6 (conj H7 (conj H8 
    (first_column wide_rates config_rates hours_rates hourly_rates
       "heart_rate" ["heart_rate"] H1 H2 H3 H4 H5 H6 H7 H8))))))))).
Defined.

Lemma carried_column_witness :
  (add_hour_columns wide_two_events = Ok hours_two_events) /\
  ((convert_wide_to_hourly wide_two_events []).2 = Ok hourly_two_events) /\
  ("heart_rate" ∈ columns wide_two_events) /\
  ("heart_rate" ∉ concat (map snd ([] : list (string * list string)))) /\
  ("heart_rate" ∉ ["hospitalization_id"; "event_time_hour"; "nth_hour"; "patient_id";
                     "day_number"; "first_event_hour"; "hour_bucket"; "event_time"]) /\
  (plain_column (columns hours_two_events) (rows hours_two_events) []
     ("heart_rate" +:+ "_c")) /\
  (plain_column (columns hours_two_events) (rows hours_two_events) []
     "hospitalization_id") /\
  ("nth_hour" ∉ one_hot_names (columns hours_two_events) (rows hours_two_events) []) /\
  Forall (fun r =>
            hour_group hours_two_events r <> [] /\
            cell r ("heart_rate" +:+ "_c")
            = default VNull
                (head (dropna (column_values "heart_rate"
                                 (hour_group hours_two_events r)))))
         (rows hourly_two_events).
Proof.
  assert (add_hour_columns wide_two_events = Ok hours_two_events) as H1
    by by_computation.
  assert ((convert_wide_to_hourly wide_two_events []).2 = Ok hourly_two_events) as H2
    by by_computation.
  assert ("heart_rate" ∈ columns wide_two_events) as H3
    by by_computation.
  assert ("heart_rate" ∉ concat (map snd ([] : list (string * list string)))) as H4
    by by_computation.
  assert ("heart_rate" ∉ ["hospitalization_id"; "event_time_hour"; "nth_hour"; "patient_id";
                     "day_number"; "first_event_hour"; "hour_bucket"; "event_time"]) as H5
    by by_computation.
  assert (plain_column (columns hours_two_events) (rows hours_two_events) []
     ("heart_rate" +:+ "_c")) as H6
    by by_computation.
  assert (plain_column (columns hours_two_events) (rows hours_two_events) []
     "hospitalization_id") as H7
    by by_computation.
  assert ("nth_hour" ∉ one_hot_names (columns hours_two_events) (rows hours_two_events) []) as H8
    by by_computation.
  exact (conj H1 (conj H2 (conj H3 (conj H4 (conj H5 (conj H6 (conj H7 (conj H8 
    (carried_column wide_two_events [] hours_two_events hourly_two_events
       "heart_rate" H1 H2 H3 H4 H5 H6 H7 H8))))))))).
Defined.

Lemma last_column_witness :
  (add_hour_columns wide_rates = Ok hours_rates) /\
  ((convert_wide_to_hourly wide_rates config_rates).2 = Ok hourly_rates) /\
  (("last", ["heart_rate"]) ∈ config_rates) /\
  ("heart_rate" ∈ ["heart_rate"]) /\
  ("heart_rate" ∈ columns hours_rates) /\
  (plain_column (columns hours_rates) (rows hours_rates) config_rates
     ("heart_rate" +:+ "_last")) /\
  (plain_column (columns hours_rates) (rows hours_rates) config_rates
     "hospitalization_id") /\
  ("nth_hour" ∉ one_hot_names (columns hours_rates) (rows hours_rates) config_rates) /\
  Forall (fun r =>
            hour_group hours_rates r <> [] /\
            cell r ("heart_rate" +:+ "_last")
            = default VNull
                (last (dropna (column_values "heart_rate"
                                 (hour_group hours_rates r)))))
         (rows hourly_rates).
Proof.
  assert (add_hour_columns wide_rates = Ok hours_rates) as H1
    by by_computation.
  assert ((convert_wide_to_hourly wide_rates config_rates).2 = Ok hourly_rates) as H2
    by by_computation.
  assert (("last", ["heart_rate"]) ∈ config_rates) as H3
    by by_computation.
  assert ("heart_rate" ∈ ["heart_rate"]) as H4
    by by_computation.
  assert ("heart_rate" ∈ columns hours_rates) as H5
    by by_computation.
  assert (plain_column (columns hours_rates) (rows hours_rates) config_rates
     ("heart_rate" +:+ "_last")) as H6
    by by_computation.
  assert (plain_column (columns hours_rates) (rows hours_rates) config_rates
     "hospitalization_id") as H7
    by by_computation.
  assert ("nth_hour" ∉ one_hot_names (columns hours_rates) (rows hours_rates) config_rates) as H8
    by by_computation.
  exact (conj H1 (conj H2 (conj H3 (conj H4 (conj H5 (conj H6 (conj H7 (conj H8 
    (last_column wide_rates config_rates hours_rates hourly_rates
       "heart_rate" ["heart_rate"] H1 H2 H3 H4 H5 H6 H7 H8))))))))).
Defined.

Lemma numeric_column_witness :
  (add_hour_columns wide_rates = Ok hours_rates) /\
  ((convert_wide_to_hourly wide_rates config_rates).2 = Ok hourly_rates) /\
  ("max" ∈ numeric_methods) /\
  (("max", ["heart_rate"]) ∈ config_rates) /\
  ("heart_rate" ∈ ["heart_rate"]) /\
  ("heart_rate" ∈ columns hours_rates) /\
  (plain_column (columns hours_rates) (rows hours_rates) config_rates
     ("heart_rate" +:+ "_" +:+ "max")) /\
  (plain_column (columns hours_rates) (rows hours_rates) config_rates
     "hospitalization_id") /\
  ("nth_hour" ∉ one_hot_names (columns hours_rates) (rows hours_rates) config_rates) /\
  Forall (fun r =>
            hour_group hours_rates r <> [] /\
            let col_values :=
              dropna (column_values "heart_rate" (hour_group hours_rates r)) in
            (col_values = [] -> cell r ("heart_rate" +:+ "_" +:+ "max") = VNull) /\
            (col_values <> [] ->
             kernel_of_name "max" col_values
             = Ok (cell r ("heart_rate" +:+ "_" +:+ "max"))))
         (rows hourly_rates).
Proof.
  assert (add_hour_columns wide_rates = Ok hours_rates) as H1
    by by_computation.
  assert ((convert_wide_to_hourly wide_rates config_rates).2 = Ok hourly_rates) as H2
    by by_computation.
  assert ("max" ∈ numeric_methods) as H3
    by by_computation.
  assert (("max", ["heart_rate"]) ∈ config_rates) as H4
    by by_computation.
  assert ("heart_rate" ∈ ["heart_rate"]) as H5
    by by_computation.
  assert ("heart_rate" ∈ columns hours_rates) as H6
    by by_computation.
  assert (plain_column (columns hours_rates) (rows hours_rates) config_rates
     ("heart_rate" +:+ "_" +:+ "max")) as H7
    by by_computation.
  assert (plain_column (columns hours_rates) (rows hours_rates) config_rates
     "hospitalization_id") as H8
    by by_computation.
  assert ("nth_hour" ∉ one_hot_names (columns hours_rates) (rows hours_rates) config_rates) as H9
    by by_computation.
  exact (conj H1 (conj H2 (conj H3 (conj H4 (conj H5 (conj H6 (conj H7 (conj H8 (conj H9 
    (numeric_column wide_rates config_rates hours_rates hourly_rates
       "max" "heart_rate" ["heart_rate"] H1 H2 H3 H4 H5 H6 H7 H8 H9)))))))))).
Defined.

Lemma hourly_base_columns_witness :
  (add_hour_columns wide_two_events = Ok hours_two_events) /\
  ((convert_wide_to_hourly wide_two_events []).2 = Ok hourly_two_events) /\
  (Forall (plain_column (columns hours_two_events) (rows hours_two_events) [])
          ["hospitalization_id"; "event_time_hour"; "hour_bucket"; "day_number";
           "patient_id"]) /\
  ("nth_hour" ∉ one_hot_names (columns hours_two_events) (rows hours_two_events) []) /\
  Forall (fun r =>
            exists w ws,
              hour_group hours_two_events r = w :: ws /\
              cell r "event_time_hour" = cell w "event_time_hour" /\
              cell r "hour_bucket" = dt_hour (cell w "event_time_hour") /\
              cell r "day_number" = cell w "day_number" /\
              ("patient_id" ∈ columns wide_two_events ->
               cell r "patient_id" = cell w "patient_id"))
         (rows hourly_two_events).
Proof.
  assert (add_hour_columns wide_two_events = Ok hours_two_events) as H1
    by by_computation.
  assert ((convert_wide_to_hourly wide_two_events []).2 = Ok hourly_two_events) as H2
    by by_computation.
  assert (Forall (plain_column (columns hours_two_events) (rows hours_two_events) [])
          ["hospitalization_id"; "event_time_hour"; "hour_bucket"; "day_number";
           "patient_id"]) as H3
    by by_computation.
  assert ("nth_hour" ∉ one_hot_names (columns hours_two_events) (rows hours_two_events) []) as H4
    by by_computation.
  exact (conj H1 (conj H2 (conj H3 (conj H4 
    (hourly_base_columns wide_two_events [] hours_two_events hourly_two_events H1 H2 H3 H4))))).
Defined.

Lemma skipped_column_witness :
  (add_hour_columns wide_rates = Ok hours_rates) /\
  ((convert_wide_to_hourly wide_rates config_typo).2 = Ok hourly_typo) /\
  ("heart_rate" ∈ concat (map snd config_typo)) /\
  ("heart_rate" ∉ columns hours_rates \/
   Forall (fun entry : string * list string =>
             "heart_rate" ∈ entry.2 -> method_of_name entry.1 = None)
          config_typo) /\
  ("_c" ∈ regular_suffixes) /\
  (("heart_rate" +:+ "_c")
     ∉ one_hot_names (columns hours_rates) (rows hours_rates) config_typo) /\
  ("heart_rate" +:+ "_c") ∉ columns hourly_typo.
Proof.
  assert (add_hour_columns wide_rates = Ok hours_rates) as H1
    by by_computation.
  assert ((convert_wide_to_hourly wide_rates config_typo).2 = Ok hourly_typo) as H2
    by by_computation.
  assert ("heart_rate" ∈ concat (map snd config_typo)) as H3
    by by_computation.
  assert ("heart_rate" ∉ columns hours_rates \/
   Forall (fun entry : string * list string =>
             "heart_rate" ∈ entry.2 -> method_of_name entry.1 = None)
          config_typo) as H4
    by by_computation.
  assert ("_c" ∈ regular_suffixes) as H5
    by by_computation.
  assert (("heart_rate" +:+ "_c")
     ∉ one_hot_names (columns hours_rates) (rows hours_rates) config_typo) as H6
    by by_computation.
  exact (conj H1 (conj H2 (conj H3 (conj H4 (conj H5 (conj H6 
    (skipped_column wide_rates config_typo hours_rates hourly_typo "heart_rate" "_c" H1 H2 H3 H4 H5 H6))))))).
Defined.

(** * Further properties of the wide-dataset builder *)

(** ** The cohort *)

Lemma where_isin_Ok c vs df df' :
  where_isin c vs df = Ok df' ->
  c ∈ columns df /\ columns df' = columns df /\
  rows df' = filter (fun r => cell r c ∈ vs) (rows df).
Proof.
  unfold where_isin, has_column. case_bool_decide; [|discriminate].
  intros [= <-]. split; [done|]. split; [done|]. simpl.
  apply list_filter_iff. intros r. unfold isin. by rewrite bool_decide_eq_true.
Qed.

Lemma cell_named_cells (name : string -> string) (f : string -> value) cs c :
  c ∈ cs -> name c = c -> (forall c', c' ∈ cs -> name c' = c -> c' = c) ->
  cell (map (fun c' => (name c', f c')) cs) c = f c.
Proof.
  unfold cell. induction cs as [|c0 cs IH]; [inversion 1|].
  intros Hc Hname Hinj. simpl. destruct (decide (name c0 = c)) as [Heq|Hne].
  - by rewrite (Hinj c0) by (done || left).
  - apply elem_of_cons in Hc as [->|Hc]; [done|].
    apply IH; [done..|]. intros c' Hc'. apply Hinj. by right.
Qed.

Lemma merge_name_hospitalization others c' :
  merge_name others "patient_id" "_x" c' = "hospitalization_id" ->
  c' = "hospitalization_id".
Proof.
  unfold merge_name. case_bool_decide; [|done]. intros Heq.
  change "hospitalization_id" with ("hospitalization" +:+ "_id") in Heq.
  suffix_clash Heq.
Qed.

(** The rows of the inner merge of the hospitalization and patient tables
    keep the stay of the hospitalization row they come from. *)
Lemma merge_hospitalization_id hospitalization_df patient_df base_cohort a :
  pd_merge_inner hospitalization_df patient_df "patient_id" = Ok base_cohort ->
  "hospitalization_id" ∈ columns hospitalization_df ->
  "hospitalization_id" ∉ columns patient_df ->
  a ∈ rows base_cohort ->
  "hospitalization_id" ∈ columns base_cohort /\
  exists l, l ∈ rows hospitalization_df /\
            cell a "hospitalization_id" = cell l "hospitalization_id".
Proof.
  unfold pd_merge_inner. case_match; [discriminate|]. intros [= <-] Hh Hp. simpl.
  assert (merge_name (columns patient_df) "patient_id" "_x" "hospitalization_id"
          = "hospitalization_id") as Hname.
  { unfold merge_name. rewrite bool_decide_eq_false_2; [done|]. by intros [_ ?]. }
  intros (k & Hk & Ha)%elem_of_concat.
  apply list_elem_of_fmap in Hk as (l & -> & Hl).
  apply list_elem_of_fmap in Ha as (r & -> & _). split.
  - apply elem_of_app. left. rewrite <- Hname at 1.
    by apply (list_elem_of_fmap_2
                (merge_name (columns patient_df) "patient_id" "_x")).
  - exists l. split; [done|]. rewrite cell_app_l.
    + apply (cell_named_cells _ (fun c => cell l c)); [done..|].
      intros c' _. apply merge_name_hospitalization.
    + rewrite keys_of_cells, <- Hname at 1.
      by apply (list_elem_of_fmap_2
                  (merge_name (columns patient_df) "patient_id" "_x")).
Qed.

(** ** [_filter_base_table_columns] *)

Lemma select_columns_cells cs df c :
  c ∈ cs -> column_values c (rows (select_columns cs df)) = column_values c (rows df).
Proof.
  intros Hc. unfold select_columns, column_values. simpl. rewrite map_map.
  apply map_ext. intros r. rewrite cell_fmap_cells.
  by rewrite bool_decide_eq_true_2.
Qed.

Lemma filter_base_columns_cases df table_name btc :
  _filter_base_table_columns df table_name btc = df \/
  exists spec,
    btc ≫= dict_get table_name = Some spec /\
    let available :=
      filter (fun col => col ∈ columns df)
             (unique (required_columns table_name ++ spec)) in
    available <> [] /\
    _filter_base_table_columns df table_name btc = select_columns available df.
Proof.
  unfold _filter_base_table_columns.
  destruct (btc ≫= dict_get table_name) as [spec|]; [|by left].
  destruct (filter _ (unique _)) as [|c cs] eqn:Hf; [by left|].
  right. exists spec. split; [done|]. simpl. by rewrite Hf.
Qed.

(** X11: filtering the columns of a base table keeps every row, keeps only
    columns the table has, keeps the required identifier columns of the
    table and the requested columns that exist, and does not change a cell
    of a column it keeps. *)
Theorem filter_base_table_columns_keeps df table_name btc :
  let out := _filter_base_table_columns df table_name btc in
  length (rows out) = length (rows df) /\
  (forall c, c ∈ columns out -> c ∈ columns df) /\
  (forall c, c ∈ required_columns table_name -> c ∈ columns df -> c ∈ columns out) /\
  (forall spec c, btc ≫= dict_get table_name = Some spec ->
                  c ∈ spec -> c ∈ columns df -> c ∈ columns out) /\
  (forall c, c ∈ columns out ->
             column_values c (rows out) = column_values c (rows df)).
Proof.
  simpl. destruct (filter_base_columns_cases df table_name btc)
    as [->|(spec & Hspec & Hne & ->)].
  { repeat split; done. }
  simpl. split; [by rewrite length_map|]. split; [|split; [|split]].
  - by intros c [? _]%list_elem_of_filter.
  - intros c Hreq Hc. apply list_elem_of_filter. split; [done|].
    apply elem_of_unique, elem_of_app. by left.
  - intros spec' c Hspec' Hc Hcol. rewrite Hspec in Hspec'. injection Hspec' as <-.
    apply list_elem_of_filter. split; [done|].
    apply elem_of_unique, elem_of_app. by right.
  - intros c Hc. by apply select_columns_cells.
Qed.

(** X12: filtering the columns of a base table a second time with the same
    specification changes nothing. *)
Theorem filter_base_table_columns_idempotent df table_name btc :
  _filter_base_table_columns (_filter_base_table_columns df table_name btc)
    table_name btc
  = _filter_base_table_columns df table_name btc.
Proof.
  destruct (filter_base_columns_cases df table_name btc)
    as [Heq|(spec & Hspec & Hne & Heq)]; [by rewrite !Heq|].
  rewrite Heq. simpl in *.
  set (all_columns := unique (required_columns table_name ++ spec)) in *.
  set (available := filter (fun col => col ∈ columns df) all_columns) in *.
  unfold _filter_base_table_columns at 1. rewrite Hspec. fold all_columns.
  assert (filter (fun col => col ∈ columns (select_columns available df))
                 all_columns = available) as ->.
  { simpl. unfold available. apply filter_ext_elem. intros c Hc.
    rewrite list_elem_of_filter. tauto. }
  destruct available as [|c0 cs] eqn:Havail; [done|].
  change (select_columns (c0 :: cs) (select_columns (c0 :: cs) df)
          = select_columns (c0 :: cs) df).
  remember (c0 :: cs) as L. unfold select_columns. cbn [rows columns]. f_equal.
  rewrite map_map. apply map_ext. intros r. apply map_ext_in. intros c Hc.
  f_equal. rewrite (cell_fmap_cells r L c).
  apply list_elem_of_In in Hc. by rewrite bool_decide_eq_true_2.
Qed.

(** ** Dense ranks *)

Lemma date_rank_mono dates d d' :
  (d <= d')%Z -> date_rank dates d <= date_rank dates d'.
Proof.
  intros Hle. unfold date_rank.
  apply submseteq_length, NoDup_submseteq; [apply NoDup_unique|].
  intros v. rewrite !elem_of_unique, !list_elem_of_filter.
  intros [[Hv Hn] Hin]. split; [|done]. split; [|done].
  etransitivity; [exact Hv|]. simpl. done.
Qed.

Lemma date_rank_pos dates d : VDate d ∈ dates -> 1 <= date_rank dates d.
Proof.
  intros Hin. unfold date_rank.
  assert (VDate d ∈ unique (filter (fun v => value_le v (VDate d) /\ v <> VNull)
                                   dates)) as Hu.
  { apply elem_of_unique, list_elem_of_filter. split; [|done].
    split; [reflexivity|done]. }
  destruct (unique _); [inversion Hu|simpl; lia].
Qed.

Lemma NoDup_all_equal {A} (x : A) l :
  NoDup l -> (forall y, y ∈ l -> y = x) -> length l <= 1.
Proof.
  intros Hnd Hall. destruct l as [|a [|b l]]; simpl; try lia.
  apply NoDup_cons in Hnd as [Hnew _]. exfalso. apply Hnew.
  rewrite (Hall a) by left. rewrite <- (Hall b) at 1 by (right; left). left.
Qed.

Lemma date_rank_first dates d :
  (forall v, v ∈ dates -> v = VNull \/ exists d', v = VDate d' /\ (d <= d')%Z) ->
  VDate d ∈ dates -> date_rank dates d = 1.
Proof.
  intros Hall Hin. pose proof (date_rank_pos _ _ Hin) as Hpos.
  unfold date_rank in *.
  pose proof (NoDup_all_equal (VDate d)
                (unique (filter (fun v => value_le v (VDate d) /\ v <> VNull)
                                dates))) as Hle.
  assert (forall y,
            y ∈ unique (filter (fun v => value_le v (VDate d) /\ v <> VNull) dates) ->
            y = VDate d) as Heq.
  { intros y. rewrite elem_of_unique, list_elem_of_filter. intros [[Hy Hn] Hy'].
    destruct (Hall y Hy') as [->|(d' & -> & Hd')]; [done|].
    simpl in Hy. f_equal. lia. }
  specialize (Hle (NoDup_unique _) Heq). lia.
Qed.

Lemma dense_rank_Ok rs (r : list (string * value)) v :
  dense_rank rs r = Ok v ->
  exists d,
    cell r "date" = VDate d /\
    cell r "hospitalization_id" <> VNull /\
    v = VInt (Z.of_nat
                (date_rank
                   (column_values "date"
                      (filter (fun r' => cell r' "hospitalization_id"
                                         = cell r "hospitalization_id") rs))
                   d)).
Proof.
  unfold dense_rank, date_rank.
  destruct (cell r "hospitalization_id") eqn:Hh; try discriminate;
    destruct (cell r "date") eqn:Hd; try discriminate;
    intros [= <-]; eexists; (split; [reflexivity|]); split; done.
Qed.

Lemma dt_date_cases v w :
  dt_date v = Ok w ->
  (v = VNull /\ w = VNull) \/ exists t, v = VTime t /\ w = VDate (t / 86400).
Proof.
  destruct v; simpl; try discriminate; intros [= <-]; [by left|right; eauto].
Qed.

Section Cohort.
Context {pandas : Pandas} {duckdb : DuckDB}.
Variable pivot_rejects_empty : bool.

(** What a successful preparation went through. *)
Lemma prepare_tables_Ok session draw clif opt cf sample ids btc
    base_cohort adt_df st :
  prepare_tables pivot_rejects_empty session draw clif opt cf sample ids btc
    = Ok (base_cohort, adt_df, st) ->
  exists patient_df hospitalization_df0 adt_df0 hospitalization_df,
    base_table clif "patient" btc = Ok patient_df /\
    base_table clif "hospitalization" btc = Ok hospitalization_df0 /\
    base_table clif "adt" btc = Ok adt_df0 /\
    match ids with
    | Some ids => where_isin "hospitalization_id" ids hospitalization_df0
    | None =>
        if sample then
          where_isin "hospitalization_id"
            (draw (column_values "hospitalization_id" (rows hospitalization_df0))
                  (Nat.min 20 (length (rows hospitalization_df0))))
            hospitalization_df0
        else if has_column hospitalization_df0 "hospitalization_id"
             then Ok hospitalization_df0
             else Raise (KeyError "hospitalization_id")
    end = Ok hospitalization_df /\
    let required_ids :=
      unique (column_values "hospitalization_id" (rows hospitalization_df)) in
    where_isin "hospitalization_id" required_ids adt_df0 = Ok adt_df /\
    pd_merge_inner hospitalization_df patient_df "patient_id" = Ok base_cohort /\
    foldM (load_optional_table pivot_rejects_empty clif required_ids cf)
      (mkState
         (dict_set "base_cohort" base_cohort
            (dict_set "adt_df" adt_df
               (dict_set "hospitalization_df" hospitalization_df
                  (dict_set "patient_df" patient_df session))))
         (if has_column adt_df "in_dttm"
          then [event_time_query adt_df "in_dttm"] else [])
         [])
      (default [] opt) = Ok st.
Proof.
  unfold prepare_tables. intros Hp.
  apply bind_Ok in Hp as (patient_df & H1 & Hp).
  apply bind_Ok in Hp as (hospitalization_df0 & H2 & Hp).
  apply bind_Ok in Hp as (adt_df0 & H3 & Hp).
  apply bind_Ok in Hp as (hospitalization_df & H4 & Hp).
  apply bind_Ok in Hp as (adt1 & H5 & Hp).
  apply bind_Ok in Hp as (bc & H6 & Hp).
  apply bind_Ok in Hp as (st' & H7 & [= <- <- <-]).
  exists patient_df, hospitalization_df0, adt_df0, hospitalization_df.
  repeat split; done.
Qed.

Lemma filter_base_columns_subset df table_name btc c :
  c ∈ columns (_filter_base_table_columns df table_name btc) -> c ∈ columns df.
Proof.
  destruct (filter_base_columns_cases df table_name btc)
    as [->|(spec & _ & _ & ->)]; [done|].
  simpl. by intros [? _]%list_elem_of_filter.
Qed.

Lemma base_table_missing clif table_name btc :
  table_name ∉ dict_keys clif ->
  base_table clif table_name btc = Raise (AttributeError table_name).
Proof. intros Hk%dict_get_None_keys. unfold base_table. by rewrite Hk. Qed.

Lemma base_table_present clif table_name btc :
  table_name ∈ dict_keys clif ->
  exists df, base_table clif table_name btc = Ok df.
Proof.
  intros Hk. unfold base_table.
  destruct (dict_get table_name clif) eqn:Hget; [eauto|].
  by apply dict_get_None_keys in Hget.
Qed.

(** X13: when the patient, hospitalization or location-transfer table is
    not loaded, the call raises an AttributeError for the first one that
    is missing, in that order, whatever the other arguments. *)
Theorem missing_base_table_raises session draw clif opt cf sample ids rd btc t :
  head (filter (fun t => t ∉ dict_keys clif) ["patient"; "hospitalization"; "adt"])
    = Some t ->
  create_wide_dataset pivot_rejects_empty session draw clif opt cf sample ids
    rd btc = Raise (AttributeError t).
Proof.
  rewrite !filter_cons, filter_nil. unfold create_wide_dataset, prepare_tables.
  case_decide as Hp.
  { intros [= <-]. by rewrite (base_table_missing clif "patient"). }
  destruct (base_table_present _ _ btc Hp) as [? ->].
  case_decide as Hh.
  { intros [= <-]. simpl. by rewrite (base_table_missing clif "hospitalization"). }
  destruct (base_table_present _ _ btc Hh) as [? ->].
  case_decide as Ha; [|done].
  intros [= <-]. simpl. by rewrite (base_table_missing clif "adt").
Qed.

(** X14: when the location transfers have no [in_dttm] column and no
    optional table is selected, no event time can be collected and the
    call returns the base cohort, the inner merge of the hospitalization
    and patient tables: without event rows, without the requested
    category columns, and also when [return_dataframe] is false. *)
Theorem no_event_times_returns_cohort session draw clif opt cf sample ids rd btc
    base_cohort adt_df st :
  prepare_tables pivot_rejects_empty session draw clif opt cf sample ids btc
    = Ok (base_cohort, adt_df, st) ->
  "in_dttm" ∉ columns adt_df ->
  default [] opt = [] ->
  create_wide_dataset pivot_rejects_empty session draw clif opt cf sample ids
    rd btc = Ok (Some base_cohort).
Proof.
  intros Hprep Hin Hopt. unfold create_wide_dataset. rewrite Hprep. simpl.
  apply prepare_tables_Ok in Hprep
    as (patient_df & h0 & a0 & h1 & _ & _ & _ & _ & _ & _ & Hst).
  rewrite Hopt in Hst. simpl in Hst. injection Hst as <-.
  unfold finish_wide_dataset, has_column. simpl.
  by rewrite bool_decide_eq_false_2.
Qed.

(** ** The rows of the wide table and the cohort *)

Lemma create_Ok_inv session draw clif opt cf sample ids btc out :
  create_wide_dataset pivot_rejects_empty session draw clif opt cf sample ids
    true btc = Ok (Some out) ->
  exists base_cohort adt_df st,
    prepare_tables pivot_rejects_empty session draw clif opt cf sample ids btc
      = Ok (base_cohort, adt_df, st) /\
    (event_time_queries st = [] /\ out = base_cohort \/
     event_time_queries st <> [] /\
     exists joined final,
       execute_join st base_cohort adt_df (default [] opt) = Ok joined /\
       number_days joined = Ok final /\
       out = drop_columns ["combo_id"; "date"]
               (_add_missing_columns final cf opt)).
Proof.
  unfold create_wide_dataset. intros ([[bc adt] st] & Hprep & Hfin)%bind_Ok.
  exists bc, adt, st. split; [done|]. simpl in Hfin.
  unfold finish_wide_dataset in Hfin.
  destruct (event_time_queries st) as [|q qs]; [left; by injection Hfin as <-|].
  right. split; [done|].
  apply bind_Ok in Hfin as (joined & Hjoin & Hfin).
  apply bind_Ok in Hfin as (final & Hdays & [= <-]). eauto.
Qed.

Lemma wide_row_of_cohort session draw clif opt cf sample ids btc
    base_cohort adt_df st out r :
  prepare_tables pivot_rejects_empty session draw clif opt cf sample ids btc
    = Ok (base_cohort, adt_df, st) ->
  create_wide_dataset pivot_rejects_empty session draw clif opt cf sample ids
    true btc = Ok (Some out) ->
  r ∈ rows out ->
  exists a, a ∈ rows base_cohort /\
    forall c, c ∈ columns base_cohort -> c ∉ computed_columns ->
              cell r c = cell a c.
Proof.
  intros Hprep Hout Hr.
  pose proof (prepare_tables_keys _ _ _ _ _ _ _ _ _ _ _ _ Hprep) as Hkeys.
  rewrite Forall_forall in Hkeys.
  apply create_Ok_inv in Hout as (bc & adt & st' & Hprep' & Hcases).
  rewrite Hprep in Hprep'. injection Hprep' as <- <- <-.
  destruct Hcases as [[_ ->]|(_ & joined & final & Hjoin & Hdays & ->)]; [eauto|].
  destruct (wide_rows _ _ cf opt Hdays) as (js & Hjs & HF).
  destruct (Forall2_elem_of_r _ _ _ _ HF Hr) as (j & Hj & Hcells).
  rewrite Hjs in Hj.
  destruct (joined_row_expanded _ _ _ _ _ _ Hjoin Hj) as (e & He & Hpre).
  apply elem_of_expanded_df in He as (a & t & Ha & -> & _).
  exists a. split; [done|]. intros c Hc Hcomp.
  assert (c ∈ dict_keys a) as Hk by by rewrite (Hkeys a).
  rewrite Hcells; [|by apply (execute_join_columns _ _ _ _ _ Hjoin)|done].
  rewrite (prefix_cell _ _ _ Hpre); [by apply expanded_row_cells|].
  unfold expanded_row, dict_keys. rewrite fmap_app, elem_of_app. by left.
Qed.

Lemma wide_row_hospitalization session draw clif opt cf sample ids btc
    patient out r :
  dict_get "patient" clif = Some patient ->
  "hospitalization_id" ∉ columns patient ->
  create_wide_dataset pivot_rejects_empty session draw clif opt cf sample ids
    true btc = Ok (Some out) ->
  r ∈ rows out ->
  exists hospitalization_df0 hospitalization_df l,
    base_table clif "hospitalization" btc = Ok hospitalization_df0 /\
    match ids with
    | Some ids => where_isin "hospitalization_id" ids hospitalization_df0
    | None =>
        if sample then
          where_isin "hospitalization_id"
            (draw (column_values "hospitalization_id" (rows hospitalization_df0))
                  (Nat.min 20 (length (rows hospitalization_df0))))
            hospitalization_df0
        else if has_column hospitalization_df0 "hospitalization_id"
             then Ok hospitalization_df0
             else Raise (KeyError "hospitalization_id")
    end = Ok hospitalization_df /\
    l ∈ rows hospitalization_df /\
    cell r "hospitalization_id" = cell l "hospitalization_id".
Proof.
  intros Hpat Hnot Hout Hr.
  pose proof (create_Ok_inv _ _ _ _ _ _ _ _ _ Hout) as (bc & adt & st & Hprep & _).
  destruct (wide_row_of_cohort _ _ _ _ _ _ _ _ _ _ _ _ _ Hprep Hout Hr)
    as (a & Ha & Hcells).
  apply prepare_tables_Ok in Hprep
    as (p & h0 & a0 & h1 & Hp & Hh0 & _ & Hh1 & _ & Hmerge & _).
  assert ("hospitalization_id" ∉ columns p) as Hnot'.
  { unfold base_table in Hp. rewrite Hpat in Hp. injection Hp as <-.
    intros Hc. by apply filter_base_columns_subset in Hc. }
  assert ("hospitalization_id" ∈ columns h1) as Hcol.
  { destruct ids as [ids|]; [|destruct sample].
    - apply where_isin_Ok in Hh1 as (? & -> & _). done.
    - apply where_isin_Ok in Hh1 as (? & -> & _). done.
    - unfold has_column in Hh1. case_bool_decide; [|discriminate].
      by injection Hh1 as <-. }
  destruct (merge_hospitalization_id _ _ _ a Hmerge Hcol Hnot' Ha)
    as (Hbc & l & Hl & Heq).
  exists h0, h1, l. repeat split; try done.
  rewrite <- Heq. apply Hcells; [done|]. unfold computed_columns. not_in_list.
Qed.

(** X15: with [hospitalization_ids], every row of the result belongs to
    one of the requested stays. *)
Theorem wide_rows_within_requested_ids session draw clif opt cf sample ids btc
    patient out :
  dict_get "patient" clif = Some patient ->
  "hospitalization_id" ∉ columns patient ->
  create_wide_dataset pivot_rejects_empty session draw clif opt cf sample
    (Some ids) true btc = Ok (Some out) ->
  Forall (fun r => cell r "hospitalization_id" ∈ ids) (rows out).
Proof.
  intros Hpat Hnot Hout. apply Forall_forall. intros r Hr.
  destruct (wide_row_hospitalization _ _ _ _ _ _ _ _ _ _ _ Hpat Hnot Hout Hr)
    as (h0 & h1 & l & _ & Hh1 & Hl & ->).
  apply where_isin_Ok in Hh1 as (_ & _ & Hrows).
  rewrite Hrows in Hl. by apply list_elem_of_filter in Hl as [? _].
Qed.

(** X16: with [sample] and no [hospitalization_ids], the result has rows
    of at most 20 distinct stays, provided the sampler returns no more
    values than it is asked for. *)
Theorem sample_at_most_20_stays session draw clif opt cf btc patient out :
  (forall vs n, length (draw vs n) <= n) ->
  dict_get "patient" clif = Some patient ->
  "hospitalization_id" ∉ columns patient ->
  create_wide_dataset pivot_rejects_empty session draw clif opt cf true None
    true btc = Ok (Some out) ->
  length (unique (column_values "hospitalization_id" (rows out))) <= 20.
Proof.
  intros Hdraw Hpat Hnot Hout.
  pose proof (create_Ok_inv _ _ _ _ _ _ _ _ _ Hout) as (bc & adt & st & Hprep & _).
  apply prepare_tables_Ok in Hprep
    as (p & h0 & a0 & h1 & _ & Hh0 & _ & Hh1 & _).
  set (drawn := draw (column_values "hospitalization_id" (rows h0))
                     (Nat.min 20 (length (rows h0)))) in *.
  transitivity (length drawn); [|unfold drawn; rewrite Hdraw; lia].
  apply submseteq_length, NoDup_submseteq; [apply NoDup_unique|].
  intros v Hv. rewrite elem_of_unique in Hv.
  apply list_elem_of_fmap in Hv as (r & -> & Hr).
  destruct (wide_row_hospitalization _ _ _ _ _ _ _ _ _ _ _ Hpat Hnot Hout Hr)
    as (h0' & h1' & l & Hh0' & Hh1' & Hl & ->).
  rewrite Hh0 in Hh0'. injection Hh0' as <-.
  apply where_isin_Ok in Hh1' as (_ & _ & Hrows).
  rewrite Hrows in Hl. by apply list_elem_of_filter in Hl as [? _].
Qed.

(** X17: every row of the result carries the cells of a row of the base
    cohort: the columns of the merged hospitalization and patient tables
    are taken over unchanged, except columns named [date], [day_number],
    [hosp_id_day_key] or [combo_id], which the builder computes itself. *)
Theorem cohort_cells_carried session draw clif opt cf sample ids btc
    base_cohort adt_df st out :
  prepare_tables pivot_rejects_empty session draw clif opt cf sample ids btc
    = Ok (base_cohort, adt_df, st) ->
  create_wide_dataset pivot_rejects_empty session draw clif opt cf sample ids
    true btc = Ok (Some out) ->
  Forall (fun r =>
            exists a, a ∈ rows base_cohort /\
              forall c, c ∈ columns base_cohort -> c ∉ computed_columns ->
                        cell r c = cell a c)
         (rows out).
Proof.
  intros Hprep Hout. apply Forall_forall. intros r Hr.
  by eapply wide_row_of_cohort.
Qed.

(** ** Day numbering and the order of the rows *)

Lemma number_days_inv joined final :
  number_days joined = Ok final ->
  "hospitalization_id" ∈ columns joined /\ "event_time" ∈ columns joined /\
  exists rs2,
    StronglySorted (rows_le ["hospitalization_id"; "event_time"]) rs2 /\
    (forall r2, r2 ∈ rs2 ->
       exists j, j ∈ rows joined /\
         dt_date (cell j "event_time") = Ok (cell r2 "date") /\
         forall c, c <> "date" -> cell r2 c = cell j c) /\
    Forall2 (fun r2 rf =>
               exists v,
                 dense_rank rs2 r2 = Ok v /\
                 cell rf "day_number" = v /\
                 cell rf "hosp_id_day_key"
                 = VStr (py_str (cell r2 "hospitalization_id") +:+ "_day_"
                         +:+ py_str v) /\
                 forall c, c ∉ ["day_number"; "hosp_id_day_key"] ->
                           cell rf c = cell r2 c)
            rs2 (rows final).
Proof.
  unfold number_days, has_column. case_bool_decide as Het; [|discriminate].
  simpl.
  intros (df1 & H1 & (df2 & H2 & (df3 & H3 & [= <-])%bind_Ok)%bind_Ok)%bind_Ok.
  apply assignM_Ok in H1 as [Hc1 H1].
  apply sort_values_Ok in H2 as (Hby & Hc2 & H2).
  apply assignM_Ok in H3 as [Hc3 H3].
  split; [|split; [done|]].
  { apply Forall_cons in Hby as [Hh _]. rewrite Hc1 in Hh.
    apply elem_of_add_column in Hh as [?|?]; done. }
  exists (rows df2). split; [|split].
  - rewrite H2. apply StronglySorted_merge_sort; apply _.
  - intros r2 Hr2. rewrite H2, merge_sort_Permutation in Hr2.
    destruct (Forall2_elem_of_r _ _ _ _ H1 Hr2) as (j & Hj & v & Hv & ->).
    exists j. split; [done|]. rewrite cell_set_eq. split; [done|].
    intros c Hc. by rewrite cell_set_ne.
  - simpl. apply Forall2_fmap_r. eapply Forall2_impl; [exact H3|]. simpl.
    intros r2 r3 (v & Hv & ->). exists v. split; [done|].
    split; [by rewrite cell_set_ne, cell_set_eq|]. split.
    + rewrite cell_set_eq. by rewrite cell_set_ne, cell_set_eq.
    + intros c Hc. rewrite !not_elem_of_cons in Hc.
      destruct Hc as (? & ? & _). by rewrite !cell_set_ne.
Qed.

Lemma wide_rows_inv joined final cf opt :
  number_days joined = Ok final ->
  exists rs2,
    StronglySorted (rows_le ["hospitalization_id"; "event_time"]) rs2 /\
    (forall r2, r2 ∈ rs2 ->
       exists j, j ∈ rows joined /\
         dt_date (cell j "event_time") = Ok (cell r2 "date") /\
         forall c, c <> "date" -> cell r2 c = cell j c) /\
    Forall2 (fun r2 r =>
               exists v,
                 dense_rank rs2 r2 = Ok v /\
                 cell r "day_number" = v /\
                 cell r "hosp_id_day_key"
                 = VStr (py_str (cell r2 "hospitalization_id") +:+ "_day_"
                         +:+ py_str v) /\
                 cell r "hospitalization_id" = cell r2 "hospitalization_id" /\
                 cell r "event_time" = cell r2 "event_time")
            rs2 (rows (drop_columns ["combo_id"; "date"]
                         (_add_missing_columns final cf opt))).
Proof.
  intros Hdays.
  destruct (number_days_inv _ _ Hdays) as (Hh & Het & rs2 & Hsorted & Hback & HF).
  exists rs2. split; [done|]. split; [done|].
  rewrite _add_missing_columns_flat.
  destruct (add_missing_flat_spec (requested_categories cf opt) final)
    as ((_ & Hcells & _) & _).
  unfold drop_columns. simpl. apply Forall2_fmap_r.
  eapply Forall2_compose; [|exact HF|exact Hcells].
  intros r2 rf r (v & Hv & Hday & Hkey & Hrest) Hkeep. simpl.
  assert (forall c, c ∈ columns final -> c ∉ ["combo_id"; "date"] ->
            cell (filter (fun kv : string * value => kv.1 ∉ ["combo_id"; "date"]) r) c
            = cell rf c) as Hout.
  { intros c Hc Hdrop. rewrite cell_filter_keys by done. by apply Hkeep. }
  assert (forall c, c ∈ columns joined -> c ∈ columns final) as Hsub.
  { intros c Hc. rewrite (number_days_columns _ _ Hdays), !elem_of_add_column.
    auto. }
  assert ("day_number" ∈ columns final /\ "hosp_id_day_key" ∈ columns final)
    as [Hd Hk].
  { rewrite (number_days_columns _ _ Hdays), !elem_of_add_column. auto. }
  exists v. split; [done|].
  rewrite !Hout by (done || auto || not_in_list).
  repeat split; try done; apply Hrest; not_in_list.
Qed.

(** X18: the columns of a wide table built from event times: the three
    columns the hourly aggregator requires, [hosp_id_day_key], and every
    column of the base cohort except one named [date]; the working columns
    [combo_id] and [date] are never part of the result. *)
Theorem wide_table_schema session draw clif opt cf sample ids btc
    base_cohort adt_df st out :
  prepare_tables pivot_rejects_empty session draw clif opt cf sample ids btc
    = Ok (base_cohort, adt_df, st) ->
  event_time_queries st <> [] ->
  create_wide_dataset pivot_rejects_empty session draw clif opt cf sample ids
    true btc = Ok (Some out) ->
  Forall (fun c => c ∈ columns out) required_wide_columns /\
  "hosp_id_day_key" ∈ columns out /\
  ("combo_id" ∉ columns out) /\ ("date" ∉ columns out) /\
  forall c, c ∈ columns base_cohort -> c <> "date" -> c ∈ columns out.
Proof.
  intros Hprep Hq Hout.
  apply create_Ok_inv in Hout as (bc & adt & st' & Hprep' & Hcases).
  rewrite Hprep in Hprep'. injection Hprep' as <- <- <-.
  destruct Hcases as [[? _]|(_ & joined & final & Hjoin & Hdays & ->)]; [done|].
  destruct (number_days_inv _ _ Hdays) as (Hh & Het & _).
  pose proof (execute_join_columns _ _ _ _ _ Hjoin) as [Hcombo Hbc].
  pose proof (execute_join_Ok _ _ _ _ _ Hjoin) as (Hhbc & _).
  rewrite _add_missing_columns_flat.
  destruct (add_missing_flat_spec (requested_categories cf opt) final)
    as (((added & Hcols) & _ & _) & _).
  assert (forall c, c ∈ columns final -> c ∉ ["combo_id"; "date"] ->
            c ∈ columns (drop_columns ["combo_id"; "date"]
                           (fold_left add_if_missing
                              (requested_categories cf opt) final))) as Hkeep.
  { intros c Hc Hdrop. unfold drop_columns. simpl.
    apply list_elem_of_filter. split; [done|]. rewrite Hcols.
    apply elem_of_app. by left. }
  assert (forall c, c ∈ columns joined -> c ∈ columns final) as Hsub.
  { intros c Hc. rewrite (number_days_columns _ _ Hdays), !elem_of_add_column.
    auto. }
  assert ("day_number" ∈ columns final /\ "hosp_id_day_key" ∈ columns final)
    as [Hd Hk].
  { rewrite (number_days_columns _ _ Hdays), !elem_of_add_column. auto. }
  split; [|split; [|split; [|split]]].
  - unfold required_wide_columns.
    repeat constructor; apply Hkeep; auto; not_in_list.
  - apply Hkeep; [done|not_in_list].
  - unfold drop_columns. simpl. intros [Hn _]%list_elem_of_filter.
    apply Hn. left.
  - unfold drop_columns. simpl. intros [Hn _]%list_elem_of_filter.
    apply Hn. right. left.
  - intros c Hc Hne. apply Hkeep; [auto|].
    rewrite !not_elem_of_cons. repeat split; [|done|apply not_elem_of_nil].
    intros ->. unfold execute_join, has_column in Hjoin.
    rewrite !bool_decide_eq_true_2 in Hjoin by done. discriminate.
Qed.

(** X19: the rows of a wide table built from event times are in the
    order of [hospitalization_id] and then [event_time]. *)
Theorem wide_rows_sorted session draw clif opt cf sample ids btc
    base_cohort adt_df st out :
  prepare_tables pivot_rejects_empty session draw clif opt cf sample ids btc
    = Ok (base_cohort, adt_df, st) ->
  event_time_queries st <> [] ->
  create_wide_dataset pivot_rejects_empty session draw clif opt cf sample ids
    true btc = Ok (Some out) ->
  StronglySorted (rows_le ["hospitalization_id"; "event_time"]) (rows out).
Proof.
  intros Hprep Hq Hout.
  apply create_Ok_inv in Hout as (bc & adt & st' & Hprep' & Hcases).
  rewrite Hprep in Hprep'. injection Hprep' as <- <- <-.
  destruct Hcases as [[? _]|(_ & joined & final & Hjoin & Hdays & ->)]; [done|].
  destruct (wide_rows_inv _ _ cf opt Hdays) as (rs2 & Hsorted & _ & HF).
  eapply StronglySorted_Forall2; [|exact Hsorted|exact HF].
  intros x y x' y' Hxy (v & _ & _ & _ & E1 & E2) (v' & _ & _ & _ & E1' & E2').
  unfold rows_le, row_key in *. simpl in *. by rewrite E1, E2, E1', E2'.
Qed.

(** The rows of the result next to the rows of the sorted frame they come
    from, with the date of each. *)
Lemma wide_row_dated (joined : DataFrame) rs2 (r2 r : list (string * value)) v :
  (forall r2, r2 ∈ rs2 ->
     exists j, j ∈ rows joined /\
       dt_date (cell j "event_time") = Ok (cell r2 "date") /\
       forall c, c <> "date" -> cell r2 c = cell j c) ->
  r2 ∈ rs2 ->
  dense_rank rs2 r2 = Ok v ->
  cell r "day_number" = v ->
  cell r "event_time" = cell r2 "event_time" ->
  exists t,
    cell r "event_time" = VTime t /\
    cell r2 "date" = VDate (t / 86400) /\
    cell r "day_number"
    = VInt (Z.of_nat
              (date_rank
                 (column_values "date"
                    (filter (fun r' => cell r' "hospitalization_id"
                                       = cell r2 "hospitalization_id") rs2))
                 (t / 86400))).
Proof.
  intros Hback Hr2 Hrank Hday Het.
  apply dense_rank_Ok in Hrank as (d & Hd & _ & ->).
  destruct (Hback r2 Hr2) as (j & _ & Hdate & Hcells).
  rewrite Hd in Hdate.
  apply dt_date_cases in Hdate as [[_ ?]|(t & Ht & [= ->])]; [done|].
  exists t. rewrite Het, (Hcells "event_time") by done. done.
Qed.

(** X20: in a wide table built from event times every row has an event
    time and a [day_number] of at least 1, and [hosp_id_day_key] is the
    text of the stay, [_day_] and the day number.  Within a stay the day
    number does not decrease with the calendar date of the event (so rows
    of one date share it), and it is 1 on the earliest date of the
    stay. *)
Theorem day_number_of_stay session draw clif opt cf sample ids btc
    base_cohort adt_df st out :
  prepare_tables pivot_rejects_empty session draw clif opt cf sample ids btc
    = Ok (base_cohort, adt_df, st) ->
  event_time_queries st <> [] ->
  create_wide_dataset pivot_rejects_empty session draw clif opt cf sample ids
    true btc = Ok (Some out) ->
  Forall (fun r =>
            exists t n,
              cell r "event_time" = VTime t /\
              cell r "day_number" = VInt n /\ (1 <= n)%Z /\
              cell r "hosp_id_day_key"
              = VStr (py_str (cell r "hospitalization_id") +:+ "_day_"
                      +:+ py_str (VInt n)))
         (rows out) /\
  (forall r r' t t' n n',
     r ∈ rows out -> r' ∈ rows out ->
     cell r "hospitalization_id" = cell r' "hospitalization_id" ->
     cell r "event_time" = VTime t -> cell r' "event_time" = VTime t' ->
     cell r "day_number" = VInt n -> cell r' "day_number" = VInt n' ->
     (t / 86400 <= t' / 86400)%Z -> (n <= n')%Z) /\
  (forall r t n,
     r ∈ rows out ->
     cell r "event_time" = VTime t -> cell r "day_number" = VInt n ->
     (forall r' t', r' ∈ rows out ->
        cell r' "hospitalization_id" = cell r "hospitalization_id" ->
        cell r' "event_time" = VTime t' -> (t / 86400 <= t' / 86400)%Z) ->
     n = 1%Z).
Proof.
  intros Hprep Hq Hout.
  apply create_Ok_inv in Hout as (bc & adt & st' & Hprep' & Hcases).
  rewrite Hprep in Hprep'. injection Hprep' as <- <- <-.
  destruct Hcases as [[? _]|(_ & joined & final & Hjoin & Hdays & ->)]; [done|].
  destruct (wide_rows_inv _ _ cf opt Hdays) as (rs2 & _ & Hback & HF).
  set (wide := drop_columns ["combo_id"; "date"]
                 (_add_missing_columns final cf opt)) in *.
  assert (forall r, r ∈ rows wide ->
            exists r2 t,
              r2 ∈ rs2 /\
              cell r "hospitalization_id" = cell r2 "hospitalization_id" /\
              cell r "event_time" = VTime t /\
              cell r2 "date" = VDate (t / 86400) /\
              cell r "day_number"
              = VInt (Z.of_nat
                        (date_rank
                           (column_values "date"
                              (filter (fun r' => cell r' "hospitalization_id"
                                                 = cell r "hospitalization_id")
                                      rs2))
                           (t / 86400))) /\
              cell r "hosp_id_day_key"
              = VStr (py_str (cell r "hospitalization_id") +:+ "_day_"
                      +:+ py_str (cell r "day_number"))) as Hrow.
  { intros r Hr.
    destruct (Forall2_elem_of_r _ _ _ _ HF Hr)
      as (r2 & Hr2 & v & Hv & Hday & Hkey & Hh & Het).
    destruct (wide_row_dated _ _ _ _ _ Hback Hr2 Hv Hday Het)
      as (t & Ht & Hd & Hn).
    exists r2, t. rewrite Hh, Hday. repeat split; try done. by rewrite <- Hday. }
  assert (forall r2, r2 ∈ rs2 -> exists r, r ∈ rows wide /\
            cell r "hospitalization_id" = cell r2 "hospitalization_id" /\
            cell r "event_time" = cell r2 "event_time") as Hfwd.
  { intros r2 Hr2.
    destruct (Forall2_elem_of_l _ _ _ _ HF Hr2) as (r & Hr & v & _ & _ & _ & ? & ?).
    eauto. }
  split; [|split].
  - apply Forall_forall. intros r Hr.
    destruct (Hrow r Hr) as (r2 & t & Hr2 & Hh & Ht & Hd & Hn & Hkey).
    eexists t, _. split; [done|]. split; [exact Hn|]. split.
    + assert (1 <= date_rank
                     (column_values "date"
                        (filter (fun r' => cell r' "hospitalization_id"
                                           = cell r "hospitalization_id") rs2))
                     (t / 86400)); [|lia].
      apply date_rank_pos. rewrite <- Hd.
      apply (list_elem_of_fmap_2 (fun r => cell r "date")).
      by apply list_elem_of_filter.
    + by rewrite Hkey, Hn.
  - intros r r' t t' n n' Hr Hr' Hsame Ht Ht' Hn Hn' Hle.
    destruct (Hrow r Hr) as (_ & t0 & _ & _ & E1 & _ & E2 & _).
    destruct (Hrow r' Hr') as (_ & t0' & _ & _ & E1' & _ & E2' & _).
    rewrite Ht in E1. injection E1 as <-. rewrite Ht' in E1'. injection E1' as <-.
    rewrite Hn in E2. injection E2 as ->. rewrite Hn' in E2'. injection E2' as ->.
    rewrite Hsame. apply inj_le. by apply date_rank_mono.
  - intros r t n Hr Ht Hn Hfirst.
    destruct (Hrow r Hr) as (r2 & t0 & Hr2 & Hh & E1 & Hd & E2 & _).
    rewrite Ht in E1. injection E1 as <-.
    rewrite Hn in E2. injection E2 as ->.
    rewrite date_rank_first; [done| |].
    + intros v (r2' & -> & Hin)%list_elem_of_fmap.
      apply list_elem_of_filter in Hin as [Hh' Hr2'].
      destruct (Hback r2' Hr2') as (j & _ & Hdate & Hcells).
      apply dt_date_cases in Hdate as [[_ ?]|(t' & Hj & Hdate)]; [by left|].
      right. exists (t' / 86400)%Z. split; [done|].
      destruct (Hfwd r2' Hr2') as (r' & Hr' & Hh'' & Het').
      apply (Hfirst r' t'); [done|congruence|].
      by rewrite Het', (Hcells "event_time").
    + rewrite <- Hd. apply (list_elem_of_fmap_2 (fun r => cell r "date")).
      by apply list_elem_of_filter.
Qed.
(** ** One row per event time *)

End Cohort.

(** ** The pivots *)

Lemma pivot_first_spec {duckdb : DuckDB}
    (pivot_data : list (value * value * value)) :
  let categories :=
    merge_sort String.le
      (unique (omap (fun x : value * value * value => sql_varchar x.1.2)
                    pivot_data)) in
  exists cats,
    columns (pivot_first pivot_data) = "combo_id" :: cats /\
    (case_distinct ("combo_id" :: categories) -> cats = categories) /\
    NoDup categories /\
    (forall c, c ∈ categories ->
               exists x, x ∈ pivot_data /\ sql_varchar x.1.2 = Some c) /\
    column_values "combo_id" (rows (pivot_first pivot_data))
    ≡ₚ unique (map snd pivot_data) /\
    Forall (fun r => dict_keys r = "combo_id" :: cats) (rows (pivot_first pivot_data)).
Proof.
  intros categories. unfold pivot_first. fold categories.
  set (name := fun c : string =>
                 if decide (case_distinct ("combo_id" :: categories)) then c
                 else pivot_column categories c).
  exists (map name categories). simpl. split; [done|]. split; [|split; [|split; [|split]]].
  - intros Hcase. etrans; [|apply map_id]. apply map_ext. intros c.
    unfold name. by rewrite decide_True.
  - unfold categories. rewrite merge_sort_Permutation. apply NoDup_unique.
  - intros c. unfold categories.
    rewrite merge_sort_Permutation, elem_of_unique, list_elem_of_omap. done.
  - unfold column_values. rewrite map_map. simpl.
    etrans; [|apply (merge_sort_Permutation (rank_le (row_rank pivot_data)))].
    match goal with
    | |- map ?f ?l ≡ₚ _ => assert (map f l = l) as ->; [|done]
    end.
    etrans; [|apply map_id]. apply map_ext. done.
  - apply Forall_fmap, Forall_forall. intros cb _. simpl.
    unfold dict_keys. csimpl. f_equal.
    apply (keys_of_cells name
             (fun c => default VNull
                         (map (fun x : value * value * value => x.1.1)
                              (filter (fun x : value * value * value =>
                                         x.2 = cb /\ sql_varchar x.1.2 = Some c)
                                      pivot_data)
                          !! (first_index pivot_data cb c
                                mod length
                                      (map (fun x : value * value * value => x.1.1)
                                         (filter (fun x : value * value * value =>
                                                    x.2 = cb
                                                    /\ sql_varchar x.1.2 = Some c)
                                                 pivot_data)))%nat))).
Qed.

Lemma NoDup_fmap_inj_on {A B} (f : A -> B) (l : list A) x y :
  NoDup (map f l) -> x ∈ l -> y ∈ l -> f x = f y -> x = y.
Proof.
  induction l as [|z l IH]; simpl; [by intros _ ?%elem_of_nil|].
  intros [Hz Hnd]%NoDup_cons [->|Hx]%elem_of_cons [->|Hy]%elem_of_cons Hf;
    try done.
  - exfalso. apply Hz. rewrite Hf. by apply (list_elem_of_fmap_2 f).
  - exfalso. apply Hz. rewrite <- Hf. by apply (list_elem_of_fmap_2 f).
  - by apply IH.
Qed.

Lemma case_distinct_sub (l l' : list string) :
  case_distinct l -> NoDup l' -> (forall x, x ∈ l' -> x ∈ l) -> case_distinct l'.
Proof.
  unfold case_distinct. intros Hl Hnd Hsub. apply NoDup_fmap_2_strong; [|done].
  intros x y Hx Hy. apply (NoDup_fmap_inj_on lower l); auto.
Qed.

(** The rows the filter clause keeps when no name holds a quote. *)
Lemma filter_clause_plain {duckdb : DuckDB} category_col categories :
  forallb quote_free (default [] categories) = true ->
  filter_clause category_col categories
  = Some (fun r => match categories with
                   | Some names => isin (cell r category_col) (map VStr (in_list names))
                   | None => true
                   end).
Proof.
  unfold filter_clause. destruct categories as [names|]; simpl; [|done].
  by intros ->.
Qed.

Lemma resolve_timestamp_not_combo table_name ts0 cols :
  _get_timestamp_column table_name = Some ts0 ->
  resolve_timestamp_column table_name ts0 cols <> "combo_id".
Proof.
  intros Hts.
  assert (ts0 <> "combo_id") as Hts0.
  { unfold _get_timestamp_column in Hts. simpl in Hts.
    repeat case_decide; try discriminate; by injection Hts as <-. }
  unfold resolve_timestamp_column.
  case_bool_decide; [done|]. case_decide.
  - destruct (head _) as [alt|] eqn:Halt; [|done]. simpl.
    apply head_Some_elem_of, list_elem_of_filter in Halt as [_ Halt].
    repeat (apply elem_of_cons in Halt as [->|Halt]); try done.
    by apply elem_of_nil in Halt.
  - case_decide; [|done]. by case_bool_decide.
Qed.

Lemma unique_from_seen_ext {A} `{EqDecision A} (s1 s2 l : list A) :
  (forall x, x ∈ s1 <-> x ∈ s2) -> unique_from s1 l = unique_from s2 l.
Proof.
  revert s1 s2. induction l as [|y l IH]; intros s1 s2 Hs; simpl; [done|].
  rewrite (bool_decide_ext (y ∈ s1) (y ∈ s2)) by apply Hs.
  case_bool_decide; [by apply IH|]. f_equal. apply IH.
  intros x. rewrite !elem_of_cons, Hs. done.
Qed.

Lemma unique_from_unique {A} `{EqDecision A} (s seen l : list A) :
  unique_from (s ++ seen) l = unique_from s (filter (fun x => x ∉ seen) l).
Proof.
  revert s. induction l as [|y l IH]; intros s; simpl; [done|].
  rewrite filter_cons. destruct (decide (y ∉ seen)) as [Hy|Hy].
  - simpl. rewrite (bool_decide_ext (y ∈ s ++ seen) (y ∈ s))
      by (rewrite elem_of_app; tauto).
    case_bool_decide; [apply IH|]. f_equal. apply (IH (y :: s)).
  - rewrite bool_decide_eq_true_2; [apply IH|].
    apply elem_of_app. right. by apply dec_stable.
Qed.

Lemma add_if_missing_present cats df :
  Forall (fun c => c ∈ columns df) cats -> fold_left add_if_missing cats df = df.
Proof.
  induction 1 as [|c cats Hc _ IH]; simpl; [done|].
  unfold add_if_missing at 2. by rewrite bool_decide_eq_false_2 by tauto.
Qed.

Lemma add_if_missing_fold_columns cats df :
  columns (fold_left add_if_missing cats df)
  = columns df ++ unique_from (columns df) cats.
Proof.
  revert df. induction cats as [|c cats IH]; intros df; simpl.
  - by rewrite app_nil_r.
  - rewrite IH. unfold add_if_missing.
    destruct (bool_decide_reflect (c ∈ columns df)) as [Hc|Hc].
    + by rewrite bool_decide_eq_false_2 by tauto.
    + rewrite bool_decide_eq_true_2 by done. simpl. unfold add_column.
      rewrite bool_decide_eq_false_2 by done. rewrite <- app_assoc. simpl.
      do 2 f_equal. apply unique_from_seen_ext. intros x.
      rewrite elem_of_app, !elem_of_cons, elem_of_nil. tauto.
Qed.

(** X23: [_add_missing_columns] appends to the columns of the frame the
    requested categories the frame lacks, each once and in the order of the
    filter, and nothing else; the cells of the columns the frame had are
    kept and the appended columns are null in every row; calling it again
    on its result changes nothing. *)
Theorem add_missing_columns_exact df category_filters optional_tables :
  let out := _add_missing_columns df category_filters optional_tables in
  columns out
  = columns df
      ++ unique (filter (fun c => c ∉ columns df)
                        (requested_categories category_filters optional_tables)) /\
  ghost_inv df out /\
  _add_missing_columns out category_filters optional_tables = out.
Proof.
  intros out. unfold out. rewrite !_add_missing_columns_flat.
  set (cats := requested_categories category_filters optional_tables).
  destruct (add_missing_flat_spec cats df) as [Hinv Hcats].
  split; [|split; [done|]].
  - rewrite add_if_missing_fold_columns. f_equal.
    apply (unique_from_unique [] (columns df) cats).
  - apply add_if_missing_present. by apply Forall_forall.
Qed.

Section Pivots.
Context {pandas : Pandas} {duckdb : DuckDB}.
Variable pivot_rejects_empty : bool.

(** X21: when [_pivot_table_duckdb] returns a name, it is
    [<table>_pivoted] and the table registered under it has [combo_id] as
    its first column and no two rows with the same key, so a join on
    [combo_id] with it cannot multiply rows; every row has the columns of
    the table; and no other table of the connection is changed.  When the
    table has a category filter whose names hold no quote and, with
    [combo_id], differ in more than case, the other columns are distinct
    names of that filter. *)
Theorem pivoted_table_keys catalog table_name timestamp_col cf catalog' pname :
  _pivot_table_duckdb pivot_rejects_empty catalog table_name timestamp_col cf
    = (catalog', Some pname) ->
  pname = table_name +:+ "_pivoted" /\
  exists t cats,
    dict_get pname catalog' = Some t /\
    columns t = "combo_id" :: cats /\
    NoDup (column_values "combo_id" (rows t)) /\
    unique_combo t /\
    Forall (fun r => dict_keys r = columns t) (rows t) /\
    (forall k, k <> pname -> dict_get k catalog' = dict_get k catalog) /\
    (forall categories,
        cf ≫= dict_get table_name = Some categories ->
        forallb quote_free categories = true ->
        case_distinct ("combo_id" :: in_list categories) ->
        NoDup cats /\ Forall (fun c => c ∈ in_list categories) cats).
Proof.
  unfold _pivot_table_duckdb.
  destruct (dict_get table_name category_col_mapping) as [category_col|];
    [|discriminate].
  destruct (dict_get table_name value_col_mapping) as [value_col|];
    [|discriminate].
  destruct (dict_get (table_name +:+ "_raw") catalog) as [raw|]; [|discriminate].
  case_match; [discriminate|].
  destruct (filter_clause category_col (cf ≫= dict_get table_name))
    as [keep|] eqn:Hclause; [|discriminate].
  case_match; [discriminate|].
  intros [= <- <-]. split; [done|].
  match goal with
  | |- context [pivot_first ?pd] => set (pivot_data := pd)
  end.
  destruct (pivot_first_spec pivot_data)
    as (cats & Hcols & Hsame & Hnd & Hcats & Hcombos & Hkeys).
  exists (pivot_first pivot_data), cats.
  split; [apply dict_get_set_eq|]. split; [done|].
  assert (NoDup (column_values "combo_id" (rows (pivot_first pivot_data))))
    as Hnodup by (rewrite Hcombos; apply NoDup_unique).
  split; [done|]. split; [by apply NoDup_filter|].
  split; [by rewrite Hcols|]. split; [intros k Hk; by apply dict_get_set_ne|].
  intros categories Hcf Hq Hcase.
  rewrite Hcf, filter_clause_plain in Hclause by done.
  injection Hclause as <-.
  set (cats0 := merge_sort String.le
                  (unique (omap (fun x : value * value * value =>
                                   sql_varchar x.1.2) pivot_data))) in *.
  assert (Forall (fun c => c ∈ in_list categories) cats0) as Hsub.
  { apply Forall_forall. intros c Hc.
    destruct (Hcats c Hc) as (x & Hx & Hv).
    unfold pivot_data in Hx. rewrite elem_of_unique in Hx.
    apply list_elem_of_fmap in Hx as (r & -> & Hr).
    apply list_elem_of_filter in Hr as [[_ Hkeep] _].
    unfold isin in Hkeep. apply bool_decide_eq_true in Hkeep.
    apply list_elem_of_fmap in Hkeep as (s & Hs & Hin).
    simpl in Hv. rewrite Hs in Hv. simpl in Hv. by injection Hv as <-. }
  rewrite Forall_forall in Hsub.
  assert (cats = cats0) as ->.
  { apply Hsame. apply (case_distinct_sub _ _ Hcase).
    - constructor; [|done]. intros Hin%Hsub.
      apply NoDup_fmap_1 in Hcase. by apply NoDup_cons in Hcase as [? _].
    - intros x [->|Hx]%elem_of_cons; [left|right; auto]. }
  split; [done|]. by apply Forall_forall.
Qed.
End Pivots.

Section Agreement.
Context {pandas : Pandas}.
Variables legacy_engine query_engine : DuckDB.
Variable pivot_rejects_empty : bool.

(** X22: the legacy [_pivot_table] and [_pivot_table_duckdb] pivot the
    same relation.  When the legacy function returns a frame for a data
    frame whose identifiers are text and whose timestamp column holds
    timestamps, and no name of the category filter holds a quote,
    [_pivot_table_duckdb] on the same frame registered as [<table>_raw],
    with the timestamp column resolved the same way, succeeds and
    registers as [<table>_pivoted] the pivot of the relation the legacy
    frame is the pivot of.  The two frames have the same minute keys; the
    engine may order the rows and choose the first values differently in
    the two queries. *)
Theorem legacy_pivot_agrees session catalog df table_name ts0 cf t :
  (_pivot_table (duckdb := legacy_engine) pivot_rejects_empty session df
     table_name cf).2 = Some t ->
  _get_timestamp_column table_name = Some ts0 ->
  dict_get (table_name +:+ "_raw") catalog = Some df ->
  is_timestamp_column (resolve_timestamp_column table_name ts0 (columns df)) df
    = true ->
  Forall (fun r => is_text (cell r "hospitalization_id") = true) (rows df) ->
  forallb quote_free (default [] (cf ≫= dict_get table_name)) = true ->
  exists pivot_data,
    t = pivot_first (duckdb := legacy_engine) pivot_data /\
    _pivot_table_duckdb (duckdb := query_engine) pivot_rejects_empty catalog
      table_name (resolve_timestamp_column table_name ts0 (columns df)) cf
    = (dict_set (table_name +:+ "_pivoted")
         (pivot_first (duckdb := query_engine) pivot_data) catalog,
       Some (table_name +:+ "_pivoted")) /\
    column_values "combo_id"
      (rows (pivot_first (duckdb := query_engine) pivot_data))
    ≡ₚ column_values "combo_id" (rows t).
Proof.
  intros Hlegacy Hts0 Hraw Htime Htext Hquote.
  unfold _pivot_table in Hlegacy. unfold _pivot_table_duckdb.
  rewrite Hts0 in Hlegacy. rewrite Hraw.
  destruct (dict_get table_name category_col_mapping) as [category_col|] eqn:Hcat;
    [|discriminate].
  destruct (dict_get table_name value_col_mapping) as [value_col|] eqn:Hval;
    [|discriminate].
  assert (category_col <> "combo_id") as Hcat_ne.
  { unfold category_col_mapping in Hcat. simpl in Hcat.
    repeat case_decide; try discriminate; by injection Hcat as <-. }
  assert (value_col <> "combo_id") as Hval_ne.
  { unfold value_col_mapping in Hval. simpl in Hval.
    repeat case_decide; try discriminate; by injection Hval as <-. }
  pose proof (resolve_timestamp_not_combo table_name ts0 (columns df) Hts0)
    as Hts_ne.
  set (timestamp_col := resolve_timestamp_column table_name ts0 (columns df)) in *.
  destruct (has_column df category_col) eqn:Hc1; [|discriminate].
  destruct (has_column df value_col) eqn:Hc2; [|discriminate].
  destruct (has_column df timestamp_col) eqn:Hc3; [|discriminate].
  simpl in Hlegacy.
  rewrite (filter_clause_plain (duckdb := query_engine)) by done.
  set (keep := fun r : row =>
         match cf ≫= dict_get table_name with
         | Some names => isin (cell r category_col) (map VStr (in_list names))
         | None => true
         end).
  set (work := default df _) in Hlegacy.
  case_bool_decide as Hrows; [discriminate|].
  assert (columns work = columns df /\
          rows work = filter (fun r => keep r = true) (rows df)) as [Hwc Hwr].
  { unfold work, keep in *.
    destruct (cf ≫= dict_get table_name) as [[|name names]|]; simpl in *.
    - exfalso. apply Hrows. apply filter_none, Forall_forall.
      intros r _. unfold isin. rewrite bool_decide_eq_false_2; [done|].
      apply not_elem_of_nil.
    - done.
    - split; [done|]. symmetry. apply filter_all. by apply Forall_forall. }
  destruct (has_column work "hospitalization_id") eqn:Hc4; [|discriminate].
  assert (has_column df "hospitalization_id" = true) as Hc4'
    by (unfold has_column in *; by rewrite <- Hwc).
  rewrite Hc4', Htime. simpl in Hlegacy |- *.
  destruct (assignM _ _ work) as [work'|] eqn:Hassign; [|discriminate].
  apply assignM_Ok in Hassign as [_ Hassign].
  set (legacy_data := unique _) in Hlegacy.
  match goal with
  | |- context [pivot_first ?pd] => set (pivot_data := pd)
  end.
  assert (legacy_data = pivot_data) as Hsame.
  { unfold legacy_data, pivot_data. f_equal.
    subst keep. simpl in Hwr.
    rewrite <- list_filter_filter, <- Hwr. symmetry.
    apply (Forall2_map_eq
             (fun r r' : row =>
                r ∈ filter (fun r => cell r timestamp_col <> VNull) (rows work) /\
                exists v, pandas_combo_id (cell r "hospitalization_id")
                            (cell r timestamp_col) = Ok v /\
                          r' = dict_set "combo_id" v r)).
    - intros r r' (Hr & v & Hv & ->).
      rewrite cell_set_eq, !cell_set_ne by done.
      apply list_elem_of_filter in Hr as [Hnull Hr].
      assert (r ∈ rows df) as Hdf
        by (rewrite Hwr in Hr; by apply list_elem_of_filter in Hr as [_ ?]).
      rewrite Forall_forall in Htext. specialize (Htext r Hdf).
      destruct (cell r "hospitalization_id") as [|?|s|?|?]; try discriminate.
      destruct (cell r timestamp_col) as [|?|?|time|?]; try discriminate; [done|].
      simpl in Hv. injection Hv as <-. unfold combo_id. simpl.
      by rewrite py_str_str.
    - apply Forall2_elem_l.
      apply (Forall2_filter _ _ _ _ _); [|exact Hassign].
      intros r r' (v & _ & ->). by rewrite cell_set_ne. }
  rewrite <- Hsame.
  destruct (pivot_rejects_empty && bool_decide (legacy_data = []));
    [discriminate|].
  simpl in Hlegacy. injection Hlegacy as <-.
  exists legacy_data. split; [done|]. split; [done|].
  destruct (pivot_first_spec (duckdb := legacy_engine) legacy_data)
    as (? & _ & _ & _ & _ & -> & _).
  by destruct (pivot_first_spec (duckdb := query_engine) legacy_data)
    as (? & _ & _ & _ & _ & -> & _).
Qed.
End Agreement.

(** ** The properties on the example tables *)

Lemma missing_base_table_raises_witness :
  (head (filter (fun t => t ∉ dict_keys clif_no_adt)
                ["patient"; "hospitalization"; "adt"]) = Some "adt") /\
  create_wide_dataset true [] head_draw clif_no_adt None None false None true None
  = Raise (AttributeError "adt").
Proof.
  assert (head (filter (fun t => t ∉ dict_keys clif_no_adt)
                ["patient"; "hospitalization"; "adt"]) = Some "adt") as H1
    by by_computation.
  exact (conj H1 
    (missing_base_table_raises true [] head_draw clif_no_adt None None false None true None "adt" H1)).
Defined.

Lemma no_event_times_returns_cohort_witness :
  (prepare_tables true [] head_draw clif_untimed_adt None None false None None
   = Ok (untimed_adt_prepared.1.1, untimed_adt_prepared.1.2,
         untimed_adt_prepared.2)) /\
  ("in_dttm" ∉ columns untimed_adt_prepared.1.2) /\
  (default [] (@None (list string)) = []) /\
  create_wide_dataset true [] head_draw clif_untimed_adt None None false None false
    None = Ok (Some untimed_adt_prepared.1.1).
Proof.
  assert (prepare_tables true [] head_draw clif_untimed_adt None None false None None
   = Ok (untimed_adt_prepared.1.1, untimed_adt_prepared.1.2,
         untimed_adt_prepared.2)) as H1
    by by_computation.
  assert ("in_dttm" ∉ columns untimed_adt_prepared.1.2) as H2
    by by_computation.
  assert (default [] (@None (list string)) = []) as H3
    by by_computation.
  exact (conj H1 (conj H2 (conj H3 
    (no_event_times_returns_cohort true [] head_draw clif_untimed_adt None None false None false None _ _ _ H1 H2 H3)))).
Defined.

Lemma wide_rows_within_requested_ids_witness :
  (dict_get "patient" clif_vitals = Some cohort_patient) /\
  ("hospitalization_id" ∉ columns cohort_patient) /\
  (create_wide_dataset true [] head_draw clif_vitals (Some ["vitals"]) None false
     (Some [VStr "H1"]) true None = Ok (Some vitals_wide_first)) /\
  Forall (fun r => cell r "hospitalization_id" ∈ [VStr "H1"])
         (rows vitals_wide_first).
Proof.
  assert (dict_get "patient" clif_vitals = Some cohort_patient) as H1
    by by_computation.
  assert ("hospitalization_id" ∉ columns cohort_patient) as H2
    by by_computation.
  assert (create_wide_dataset true [] head_draw clif_vitals (Some ["vitals"]) None false
     (Some [VStr "H1"]) true None = Ok (Some vitals_wide_first)) as H3
    by by_computation.
  exact (conj H1 (conj H2 (conj H3 
    (wide_rows_within_requested_ids true [] head_draw clif_vitals (Some ["vitals"]) None false [VStr "H1"] None
       cohort_patient vitals_wide_first H1 H2 H3)))).
Defined.

Lemma cohort_cells_carried_witness :
  (prepare_tables true [] head_draw clif_vitals (Some ["vitals"])
     (Some vitals_filters) false None None
   = Ok (vitals_prepared.1.1, vitals_prepared.1.2, vitals_prepared.2)) /\
  (create_wide_dataset true [] head_draw clif_vitals (Some ["vitals"])
     (Some vitals_filters) false None true None = Ok (Some vitals_wide)) /\
  Forall (fun r =>
            exists a, a ∈ rows vitals_prepared.1.1 /\
              forall c, c ∈ columns vitals_prepared.1.1 -> c ∉ computed_columns ->
                        cell r c = cell a c)
         (rows vitals_wide).
Proof.
  assert (prepare_tables true [] head_draw clif_vitals (Some ["vitals"])
     (Some vitals_filters) false None None
   = Ok (vitals_prepared.1.1, vitals_prepared.1.2, vitals_prepared.2)) as H1
    by by_computation.
  assert (create_wide_dataset true [] head_draw clif_vitals (Some ["vitals"])
     (Some vitals_filters) false None true None = Ok (Some vitals_wide)) as H2
    by by_computation.
  exact (conj H1 (conj H2 
    (cohort_cells_carried true [] head_draw clif_vitals (Some ["vitals"])
       (Some vitals_filters) false None None _ _ _ vitals_wide H1 H2))).
Defined.

Lemma wide_table_schema_witness :
  (prepare_tables true [] head_draw clif_vitals (Some ["vitals"])
     (Some vitals_filters) false None None
   = Ok (vitals_prepared.1.1, vitals_prepared.1.2, vitals_prepared.2)) /\
  (event_time_queries vitals_prepared.2 <> []) /\
  (create_wide_dataset true [] head_draw clif_vitals (Some ["vitals"])
     (Some vitals_filters) false None true None = Ok (Some vitals_wide)) /\
  Forall (fun c => c ∈ columns vitals_wide) required_wide_columns /\
  "hosp_id_day_key" ∈ columns vitals_wide /\
  ("combo_id" ∉ columns vitals_wide) /\ ("date" ∉ columns vitals_wide) /\
  forall c, c ∈ columns vitals_prepared.1.1 -> c <> "date" ->
            c ∈ columns vitals_wide.
Proof.
  assert (prepare_tables true [] head_draw clif_vitals (Some ["vitals"])
     (Some vitals_filters) false None None
   = Ok (vitals_prepared.1.1, vitals_prepared.1.2, vitals_prepared.2)) as H1
    by by_computation.
  assert (event_time_queries vitals_prepared.2 <> []) as H2
    by by_computation.
  assert (create_wide_dataset true [] head_draw clif_vitals (Some ["vitals"])
     (Some vitals_filters) false None true None = Ok (Some vitals_wide)) as H3
    by by_computation.
  exact (conj H1 (conj H2 (conj H3 
    (wide_table_schema true [] head_draw clif_vitals (Some ["vitals"])
       (Some vitals_filters) false None None _ _ _ vitals_wide H1 H2 H3)))).
Defined.

Lemma wide_rows_sorted_witness :
  (prepare_tables true [] head_draw clif_vitals (Some ["vitals"])
     (Some vitals_filters) false None None
   = Ok (vitals_prepared.1.1, vitals_prepared.1.2, vitals_prepared.2)) /\
  (event_time_queries vitals_prepared.2 <> []) /\
  (create_wide_dataset true [] head_draw clif_vitals (Some ["vitals"])
     (Some vitals_filters) false None true None = Ok (Some vitals_wide)) /\
  StronglySorted (rows_le ["hospitalization_id"; "event_time"]) (rows vitals_wide).
Proof.
  assert (prepare_tables true [] head_draw clif_vitals (Some ["vitals"])
     (Some vitals_filters) false None None
   = Ok (vitals_prepared.1.1, vitals_prepared.1.2, vitals_prepared.2)) as H1
    by by_computation.
  assert (event_time_queries vitals_prepared.2 <> []) as H2
    by by_computation.
  assert (create_wide_dataset true [] head_draw clif_vitals (Some ["vitals"])
     (Some vitals_filters) false None true None = Ok (Some vitals_wide)) as H3
    by by_computation.
  exact (conj H1 (conj H2 (conj H3 
    (wide_rows_sorted true [] head_draw clif_vitals (Some ["vitals"])
       (Some vitals_filters) false None None _ _ _ vitals_wide H1 H2 H3)))).
Defined.

Lemma day_number_of_stay_witness :
  (prepare_tables true [] head_draw clif_vitals (Some ["vitals"])
     (Some vitals_filters) false None None
   = Ok (vitals_prepared.1.1, vitals_prepared.1.2, vitals_prepared.2)) /\
  (event_time_queries vitals_prepared.2 <> []) /\
  (create_wide_dataset true [] head_draw clif_vitals (Some ["vitals"])
     (Some vitals_filters) false None true None = Ok (Some vitals_wide)) /\
  Forall (fun r =>
            exists t n,
              cell r "event_time" = VTime t /\
              cell r "day_number" = VInt n /\ (1 <= n)%Z /\
              cell r "hosp_id_day_key"
              = VStr (py_str (cell r "hospitalization_id") +:+ "_day_"
                      +:+ py_str (VInt n)))
         (rows vitals_wide) /\
  (forall r r' t t' n n',
     r ∈ rows vitals_wide -> r' ∈ rows vitals_wide ->
     cell r "hospitalization_id" = cell r' "hospitalization_id" ->
     cell r "event_time" = VTime t -> cell r' "event_time" = VTime t' ->
     cell r "day_number" = VInt n -> cell r' "day_number" = VInt n' ->
     (t / 86400 <= t' / 86400)%Z -> (n <= n')%Z) /\
  (forall r t n,
     r ∈ rows vitals_wide ->
     cell r "event_time" = VTime t -> cell r "day_number" = VInt n ->
     (forall r' t', r' ∈ rows vitals_wide ->
        cell r' "hospitalization_id" = cell r "hospitalization_id" ->
        cell r' "event_time" = VTime t' -> (t / 86400 <= t' / 86400)%Z) ->
     n = 1%Z).
Proof.
  assert (prepare_tables true [] head_draw clif_vitals (Some ["vitals"])
     (Some vitals_filters) false None None
   = Ok (vitals_prepared.1.1, vitals_prepared.1.2, vitals_prepared.2)) as H1
    by by_computation.
  assert (event_time_queries vitals_prepared.2 <> []) as H2
    by by_computation.
  assert (create_wide_dataset true [] head_draw clif_vitals (Some ["vitals"])
     (Some vitals_filters) false None true None = Ok (Some vitals_wide)) as H3
    by by_computation.
  exact (conj H1 (conj H2 (conj H3 
    (day_number_of_stay true [] head_draw clif_vitals (Some ["vitals"])
       (Some vitals_filters) false None None _ _ _ vitals_wide H1 H2 H3)))).
Defined.

Lemma sample_at_most_20_stays_witness :
  (forall vs n, length (head_draw vs n) <= n) /\
  (dict_get "patient" clif_vitals = Some cohort_patient) /\
  ("hospitalization_id" ∉ columns cohort_patient) /\
  (create_wide_dataset true [] head_draw clif_vitals (Some ["vitals"]) None true
     None true None = Ok (Some vitals_wide_sample)) /\
  length (unique (column_values "hospitalization_id" (rows vitals_wide_sample)))
  <= 20.
Proof.
  assert (forall vs n, length (head_draw vs n) <= n) as H1
    by (intros vs n; unfold head_draw; rewrite length_take; lia).
  assert (dict_get "patient" clif_vitals = Some cohort_patient) as H2
    by by_computation.
  assert ("hospitalization_id" ∉ columns cohort_patient) as H3 by by_computation.
  assert (create_wide_dataset true [] head_draw clif_vitals (Some ["vitals"]) None
            true None true None = Ok (Some vitals_wide_sample)) as H4
    by by_computation.
  exact (conj H1 (conj H2 (conj H3 (conj H4
    (sample_at_most_20_stays true [] head_draw clif_vitals (Some ["vitals"]) None
       None cohort_patient vitals_wide_sample H1 H2 H3 H4))))).
Defined.

Lemma pivoted_table_keys_witness :
  (_pivot_table_duckdb true vitals_raw_catalog "vitals" "recorded_dttm"
     (Some vitals_filters)
   = (vitals_pivoted_catalog, Some "vitals_pivoted")) /\
  "vitals_pivoted" = "vitals" +:+ "_pivoted" /\
  exists t cats,
    dict_get "vitals_pivoted" vitals_pivoted_catalog = Some t /\
    columns t = "combo_id" :: cats /\
    NoDup (column_values "combo_id" (rows t)) /\
    unique_combo t /\
    Forall (fun r => dict_keys r = columns t) (rows t) /\
    (forall k, k <> "vitals_pivoted" ->
               dict_get k vitals_pivoted_catalog = dict_get k vitals_raw_catalog) /\
    (forall categories,
        Some vitals_filters ≫= dict_get "vitals" = Some categories ->
        forallb quote_free categories = true ->
        case_distinct ("combo_id" :: in_list categories) ->
        NoDup cats /\ Forall (fun c => c ∈ in_list categories) cats).
Proof.
  assert (_pivot_table_duckdb true vitals_raw_catalog "vitals" "recorded_dttm"
     (Some vitals_filters)
   = (vitals_pivoted_catalog, Some "vitals_pivoted")) as H1
    by by_computation.
  exact (conj H1 
    (pivoted_table_keys true vitals_raw_catalog "vitals" "recorded_dttm"
       (Some vitals_filters) vitals_pivoted_catalog "vitals_pivoted" H1)).
Defined.

Lemma legacy_pivot_agrees_witness :
  ((_pivot_table (duckdb := reference_duckdb) true [] cohort_vitals "vitals"
      (Some vitals_filters)).2 = Some vitals_legacy_pivot) /\
  (_get_timestamp_column "vitals" = Some "recorded_dttm") /\
  (dict_get ("vitals" +:+ "_raw") vitals_raw_catalog = Some cohort_vitals) /\
  (is_timestamp_column
     (resolve_timestamp_column "vitals" "recorded_dttm" (columns cohort_vitals))
     cohort_vitals = true) /\
  (Forall (fun r => is_text (cell r "hospitalization_id") = true)
          (rows cohort_vitals)) /\
  (forallb quote_free (default [] (Some vitals_filters ≫= dict_get "vitals"))
   = true) /\
  exists pivot_data,
    vitals_legacy_pivot = pivot_first (duckdb := reference_duckdb) pivot_data /\
    _pivot_table_duckdb (duckdb := second_value_duckdb) true vitals_raw_catalog
      "vitals"
      (resolve_timestamp_column "vitals" "recorded_dttm" (columns cohort_vitals))
      (Some vitals_filters)
    = (dict_set ("vitals" +:+ "_pivoted")
         (pivot_first (duckdb := second_value_duckdb) pivot_data)
         vitals_raw_catalog,
       Some ("vitals" +:+ "_pivoted")) /\
    column_values "combo_id"
      (rows (pivot_first (duckdb := second_value_duckdb) pivot_data))
    ≡ₚ column_values "combo_id" (rows vitals_legacy_pivot).
Proof.
  assert ((_pivot_table (duckdb := reference_duckdb) true [] cohort_vitals "vitals"
      (Some vitals_filters)).2 = Some vitals_legacy_pivot) as H1
    by by_computation.
  assert (_get_timestamp_column "vitals" = Some "recorded_dttm") as H2
    by by_computation.
  assert (dict_get ("vitals" +:+ "_raw") vitals_raw_catalog = Some cohort_vitals) as H3
    by by_computation.
  assert (is_timestamp_column
     (resolve_timestamp_column "vitals" "recorded_dttm" (columns cohort_vitals))
     cohort_vitals = true) as H4
    by by_computation.
  assert (Forall (fun r => is_text (cell r "hospitalization_id") = true)
          (rows cohort_vitals)) as H5
    by by_computation.
  assert (forallb quote_free (default [] (Some vitals_filters ≫= dict_get "vitals"))
   = true) as H6
    by by_computation.
  exact (conj H1 (conj H2 (conj H3 (conj H4 (conj H5 (conj H6 
    (legacy_pivot_agrees reference_duckdb second_value_duckdb true [] vitals_raw_catalog
       cohort_vitals "vitals" "recorded_dttm" (Some vitals_filters)
       vitals_legacy_pivot H1 H2 H3 H4 H5 H6))))))).
Defined.


